(** * ISPAQ Concierge: a shallow embedding of [ispaq/concierge.py]

    The development follows the Python module top to bottom:

    - [PyStr]   : the handful of [str] methods the module calls
                  ([split], [replace], [in], ['%s' % ...]);
    - [Re]      : the fragment of Python's [re] syntax that the module's
                  generated patterns live in, with [re.search] / [re.match];
    - [UTC]     : [obspy.UTCDateTime] as microseconds since the epoch, with
                  the proleptic Gregorian calendar ([julday], [strftime]);
    - the data model (availability rows, inventories, events);
    - [World]   : the external collaborators (file system, ObsPy readers,
                  FDSN clients, geodesy) as a record of functions;
    - [Concierge.__init__], [get_availability], [get_dataselect], [get_event]
      with explicit state passing and an exception-or-value result.

    Calls to [self.logger] have no influence on any value and are elided.
    Python floats are modelled as rationals plus a separate NaN. *)

From Stdlib Require Import ZArith QArith Qabs List String Ascii Bool Lia.
Import ListNotations.

Local Open Scope string_scope.
Local Open Scope Z_scope.

Set Implicit Arguments.

(* ================================================================== *)
(** ** Python string operations                                        *)
(* ================================================================== *)

Module PyStr.

(** [s.split(sep)] for a one-character separator. *)
Fixpoint split (sep : ascii) (s : string) : list string :=
  match s with
  | EmptyString => [EmptyString]
  | String c s' =>
      if Ascii.eqb c sep then EmptyString :: split sep s'
      else match split sep s' with
           | [] => [String c EmptyString]
           | h :: t => String c h :: t
           end
  end.

(** [s.replace(c, by)] for a one-character [c]. *)
Fixpoint replace (c : ascii) (by_ : string) (s : string) : string :=
  match s with
  | EmptyString => EmptyString
  | String a s' =>
      if Ascii.eqb a c then by_ ++ replace c by_ s'
      else String a (replace c by_ s')
  end.

(** [needle in hay] on strings: substring containment. *)
Fixpoint str_in (needle hay : string) : bool :=
  String.prefix needle hay ||
  match hay with
  | EmptyString => false
  | String _ hay' => str_in needle hay'
  end.

(** [a or b] on strings: [a] unless it is empty. *)
Definition str_or (a b : string) : string :=
  match a with
  | EmptyString => b
  | _ => a
  end.

(** ['%s' % x] where [x] may be [None]. *)
Definition fmt_s (x : option string) : string :=
  match x with
  | None => "None"
  | Some s => s
  end.

(** [l[-1]] *)
Definition last_item (l : list string) : option string :=
  match rev l with
  | [] => None
  | x :: _ => Some x
  end.

Definition digit (d : Z) : ascii := ascii_of_nat (48 + Z.to_nat (d mod 10)).

(** Zero-padded decimal of fixed width, as [%04d], [%03d], [%02d] print a
    non-negative number that fits the width. *)
Fixpoint zpad (width : nat) (n : Z) : string :=
  match width with
  | O => EmptyString
  | S w => zpad w (n / 10) ++ String (digit n) EmptyString
  end.

End PyStr.

(* ================================================================== *)
(** ** The regular-expression fragment                                 *)
(* ================================================================== *)

(** The patterns handed to [re] by this module are made of literal
    characters, the escaped dot, the bare dot and dot-star.  [compile]
    recognises exactly that fragment and answers [None] on any other
    metacharacter. *)

Module Re.

Inductive tok : Type :=
| Lit (c : ascii)
| Any
| AnyStar.

Definition is_meta (c : ascii) : bool :=
  existsb (Ascii.eqb c)
    ["."; "^"; "$"; "*"; "+"; "?"; "{"; "}"; "["; "]"; "\"; "|"; "("; ")"]%char.

Fixpoint compile (s : string) : option (list tok) :=
  match s with
  | EmptyString => Some []
  | String c r =>
      if Ascii.eqb c "\" then
        match r with
        | String "."%char r' => option_map (cons (Lit ".")) (compile r')
        | _ => None
        end
      else if Ascii.eqb c "." then
        match r with
        | String "*"%char r' => option_map (cons AnyStar) (compile r')
        | _ => option_map (cons Any) (compile r)
        end
      else if is_meta c then None
      else option_map (cons (Lit c)) (compile r)
  end.

(** The dot does not match a newline. *)
Definition dot_ok (c : ascii) : bool := negb (Ascii.eqb c "010").

(** Does the token list match a prefix of [s]? *)
Fixpoint match_here (p : list tok) : string -> bool :=
  match p with
  | [] => fun _ => true
  | Lit c :: p' => fun s =>
      match s with
      | String a s' => Ascii.eqb a c && match_here p' s'
      | EmptyString => false
      end
  | Any :: p' => fun s =>
      match s with
      | String a s' => dot_ok a && match_here p' s'
      | EmptyString => false
      end
  | AnyStar :: p' =>
      fix star (s : string) : bool :=
        match_here p' s ||
        match s with
        | String a s' => dot_ok a && star s'
        | EmptyString => false
        end
  end.

(** [re.search]: a match starting anywhere. *)
Fixpoint search_toks (p : list tok) (s : string) : bool :=
  match_here p s ||
  match s with
  | String _ s' => search_toks p s'
  | EmptyString => false
  end.

Definition search (pat s : string) : option bool :=
  option_map (fun p => search_toks p s) (compile pat).

(** [re.match]: a match starting at the first character. *)
Definition match_ (pat s : string) : option bool :=
  option_map (fun p => match_here p s) (compile pat).

End Re.

(* ================================================================== *)
(** ** UTCDateTime                                                     *)
(* ================================================================== *)

Module UTC.

(** Microseconds since 1970-01-01T00:00:00Z. *)
Definition UTCDateTime : Type := Z.

Definition usec_per_sec : Z := 1000000.
Definition usec_per_day : Z := 86400 * usec_per_sec.

(** [t + seconds], [t - seconds] for a whole number of seconds. *)
Definition add_seconds (t : UTCDateTime) (s : Z) : UTCDateTime := t + s * usec_per_sec.
(** [t - n * 0.000001] *)
Definition sub_usec (t : UTCDateTime) (n : Z) : UTCDateTime := t - n.

Definition day_number (t : UTCDateTime) : Z := t / usec_per_day.
Definition usec_of_day (t : UTCDateTime) : Z := t mod usec_per_day.

(** Proleptic Gregorian calendar, days counted from the epoch. *)
Definition civil_from_days (d : Z) : Z * Z * Z :=
  let z := d + 719468 in
  let era := z / 146097 in
  let doe := z - era * 146097 in
  let yoe := (doe - doe / 1460 + doe / 36524 - doe / 146096) / 365 in
  let doy := doe - (365 * yoe + yoe / 4 - yoe / 100) in
  let mp := (5 * doy + 2) / 153 in
  let dd := doy - (153 * mp + 2) / 5 + 1 in
  let m := if mp <? 10 then mp + 3 else mp - 9 in
  let y := yoe + era * 400 + (if m <=? 2 then 1 else 0) in
  (y, m, dd).

Definition days_from_civil (y m d : Z) : Z :=
  let y' := if m <=? 2 then y - 1 else y in
  let era := y' / 400 in
  let yoe := y' - era * 400 in
  let doy := (153 * (if 2 <? m then m - 3 else m + 9) + 2) / 5 + d - 1 in
  let doe := yoe * 365 + yoe / 4 - yoe / 100 + doy in
  era * 146097 + doe - 719468.

Definition year (t : UTCDateTime) : Z := fst (fst (civil_from_days (day_number t))).
Definition month (t : UTCDateTime) : Z := snd (fst (civil_from_days (day_number t))).
Definition day (t : UTCDateTime) : Z := snd (civil_from_days (day_number t)).
Definition hour (t : UTCDateTime) : Z := usec_of_day t / (3600 * usec_per_sec).
Definition minute (t : UTCDateTime) : Z := (usec_of_day t / (60 * usec_per_sec)) mod 60.
Definition second (t : UTCDateTime) : Z := (usec_of_day t / usec_per_sec) mod 60.
Definition microsecond (t : UTCDateTime) : Z := t mod usec_per_sec.

(** Day of the year, 1-based. *)
Definition julday (t : UTCDateTime) : Z :=
  day_number t - days_from_civil (year t) 1 1 + 1.

(** [t.strftime('%Y.%j')] *)
Definition strftime_Y_j (t : UTCDateTime) : string :=
  PyStr.zpad 4 (year t) ++ "." ++ PyStr.zpad 3 (julday t).

(** [str(t)], e.g. [2013-01-01T00:00:00.000000Z]. *)
Definition str (t : UTCDateTime) : string :=
  PyStr.zpad 4 (year t) ++ "-" ++ PyStr.zpad 2 (month t) ++ "-" ++ PyStr.zpad 2 (day t)
  ++ "T" ++ PyStr.zpad 2 (hour t) ++ ":" ++ PyStr.zpad 2 (minute t) ++ ":"
  ++ PyStr.zpad 2 (second t) ++ "." ++ PyStr.zpad 6 (microsecond t) ++ "Z".

(** Build a time from calendar fields. *)
Definition make (y m d hh mm ss : Z) : UTCDateTime :=
  (days_from_civil y m d * 86400 + hh * 3600 + mm * 60 + ss) * usec_per_sec.

End UTC.

(* ================================================================== *)
(** ** Exceptions and results                                          *)
(* ================================================================== *)

Inductive exn : Type :=
| ValueError (msg : string)
| NoAvailableDataError (msg : string)
| Exception_ (msg : string)
| TypeError
| AttributeError
| IndexError
| UnboundLocalError
| ReError            (* a pattern outside the [Re] fragment *)
| ExternalError.     (* raised inside an external collaborator *)

Inductive result (A : Type) : Type :=
| Ok (a : A)
| Raise (e : exn).

Arguments Ok {A} a.
Arguments Raise {A} e.

Definition bind {A B : Type} (r : result A) (k : A -> result B) : result B :=
  match r with
  | Ok a => k a
  | Raise e => Raise e
  end.

Notation "x <- r ;; k" := (bind r (fun x => k))
  (at level 61, r at next level, right associativity).

(** An external call that either yields a value or raises. *)
Definition external {A : Type} (o : option A) : result A :=
  match o with
  | Some a => Ok a
  | None => Raise ExternalError
  end.

(** A pattern handed to [re]: outside the fragment the model stops. *)
Definition regex {A : Type} (o : option A) : result A :=
  match o with
  | Some a => Ok a
  | None => Raise ReError
  end.

Fixpoint filterM {A : Type} (f : A -> result bool) (l : list A) : result (list A) :=
  match l with
  | [] => Ok []
  | x :: l' =>
      b <- f x ;;
      rest <- filterM f l' ;;
      Ok (if b then x :: rest else rest)
  end.

Definition is_some {A : Type} (o : option A) : bool :=
  match o with Some _ => true | None => false end.

(** [arg if arg is not None else default] *)
Definition override {A : Type} (arg : option A) (dflt : A) : A :=
  match arg with
  | None => dflt
  | Some a => a
  end.

(* ================================================================== *)
(** ** Data model                                                      *)
(* ================================================================== *)

Import UTC.

(** A Python float: a finite value or NaN. *)
Inductive pyfloat : Type :=
| Fin (q : Q)
| NaN.

(** [bool(x)] for a float: zero is false, NaN is true. *)
Definition truthy_float (x : pyfloat) : bool :=
  match x with
  | Fin q => negb (Qeq_bool q 0)
  | NaN => true
  end.

(** [bool(x)] for a cell holding a float or [None]. *)
Definition truthy_cell (c : option pyfloat) : bool :=
  match c with
  | None => false
  | Some x => truthy_float x
  end.

(** [math.isnan] *)
Definition isnan (x : pyfloat) : bool :=
  match x with
  | Fin _ => false
  | NaN => true
  end.

(** One row of the availability dataframe (the columns of lines 305-309). *)
Record Row : Type := mkRow {
  network : string;
  station : string;
  location : string;
  channel : string;
  latitude : option pyfloat;
  longitude : option pyfloat;
  elevation : option pyfloat;
  depth : option pyfloat;
  azimuth : option pyfloat;
  dip : option pyfloat;
  instrument : option string;
  scale : option pyfloat;
  scalefreq : option pyfloat;
  scaleunits : option string;
  samplerate : option pyfloat;
  starttime : option UTCDateTime;
  endtime : option UTCDateTime;
  snclId : string
}.

Definition DataFrame : Type := list Row.

(** An ObsPy inventory: networks, stations, channels. *)
Record Channel : Type := mkChannel {
  c_code : string;
  c_location_code : string;
  c_latitude : option pyfloat;
  c_longitude : option pyfloat;
  c_elevation : option pyfloat;
  c_depth : option pyfloat;
  c_azimuth : option pyfloat;
  c_dip : option pyfloat;
  c_sensor_description : option string;
  c_sample_rate : option pyfloat;
  c_start_date : UTCDateTime;
  c_end_date : UTCDateTime
}.

Record Station : Type := mkStation {
  s_code : string;
  s_channels : list Channel
}.

Record Network : Type := mkNetwork {
  n_code : string;
  n_stations : list Station
}.

Record Inventory : Type := mkInventory {
  networks : list Network
}.

(** The keyword arguments of [station_client.get_stations]
    ([includerestricted=None] and [level="channel"] are constants). *)
Record StationQuery : Type := mkStationQuery {
  q_starttime : UTCDateTime;
  q_endtime : UTCDateTime;
  q_network : string;
  q_station : string;
  q_location : string;
  q_channel : string;
  q_latitude : option Q;
  q_longitude : option Q;
  q_minradius : option Q;
  q_maxradius : option Q
}.

(** One event of an ObsPy catalog, with its preferred origin and magnitude. *)
Record Event : Type := mkEvent {
  e_resource_id : string;
  e_time : UTCDateTime;
  e_latitude : Q;
  e_longitude : Q;
  e_depth : Q;                 (* meters *)
  e_magnitude_type : string;
  e_mag : Q;
  e_description : string
}.

(** One row of the events dataframe. *)
Record EventRow : Type := mkEventRow {
  eventId : string;
  time : UTCDateTime;
  ev_latitude : Q;
  ev_longitude : Q;
  ev_depth : Q;                (* kilometers *)
  magType : string;
  magnitude : Q;
  eventLocationName : string
}.

(** The events dataframe: rows with their index labels. *)
Definition EventFrame : Type := list (Z * EventRow).

(** The arguments of [irisseismic.getEvent]. *)
Record EventQuery : Type := mkEventQuery {
  eq_starttime : UTCDateTime;
  eq_endtime : UTCDateTime;
  eq_minmag : option Q;
  eq_maxmag : option Q;
  eq_magtype : option string;
  eq_mindepth : option Q;
  eq_maxdepth : option Q
}.

(** The arguments of [irisseismic.R_getDataselect]. *)
Record DataselectQuery : Type := mkDataselectQuery {
  dq_url : string;
  dq_network : option string;
  dq_station : option string;
  dq_location : option string;
  dq_channel : option string;
  dq_starttime : UTCDateTime;
  dq_endtime : UTCDateTime;
  dq_quality : option string;
  dq_repository : option string;
  dq_inclusiveEnd : bool;
  dq_ignoreEpoch : bool
}.

(** The metadata arguments of [irisseismic.R_Stream]. *)
Record StreamMeta : Type := mkStreamMeta {
  m_starttime : UTCDateTime;
  m_endtime : UTCDateTime;
  m_act_flags : list Z;
  m_io_flags : list Z;
  m_dq_flags : list Z;
  m_sensor : string;
  m_scale : pyfloat;
  m_scalefreq : pyfloat;
  m_scaleunits : string;
  m_latitude : option pyfloat;
  m_longitude : option pyfloat;
  m_elevation : option pyfloat;
  m_depth : option pyfloat;
  m_azimuth : option pyfloat;
  m_dip : option pyfloat
}.

(* ================================================================== *)
(** ** External collaborators                                          *)
(* ================================================================== *)

(** Everything the module calls but does not define.  A function that
    may raise returns [None] when it does. *)
Record World : Type := mkWorld {
  (* obspy.clients.fdsn.header *)
  URL_MAPPINGS : list (string * string);
  (* Client(base): does the constructor succeed? *)
  Client_ok : string -> bool;
  (* os.path, glob, open *)
  path_exists : string -> bool;
  abspath : string -> string;
  glob : string -> list string;
  file_bytes : string -> list Byte.byte;
  (* station metadata *)
  read_inventory : string -> option Inventory;
  get_stations : StationQuery -> option Inventory;
  (* obspy.geodetics.base *)
  gps2dist_azimuth : Q -> Q -> Q -> Q -> option Q;   (* meters *)
  kilometer2degrees : Q -> Q;
  (* waveforms *)
  PyStream : Type;
  RStream : Type;
  obspy_read_file : string -> option PyStream;
  obspy_read_bytes : list Byte.byte -> option PyStream;
  slice : PyStream -> UTCDateTime -> UTCDateTime -> PyStream;
  get_timing_and_data_quality : string -> option (list Z);
  R_Stream : PyStream -> StreamMeta -> option RStream;
  traces_len : RStream -> nat;
  R_getDataselect : DataselectQuery -> option RStream;
  (* events *)
  read_events : option string -> option (list Event);
  re_sub_eventid : string -> string;      (* re.sub('.*eventid=', '', id) *)
  irisseismic_getEvent : EventQuery -> option EventFrame
}.

(* ================================================================== *)
(** ** The Concierge object                                            *)
(* ================================================================== *)

(** A client handle: the base it was constructed from. *)
Definition Client : Type := string.

(** The fields of [UserRequest] that the endpoints and the queries read. *)
Record UserRequest : Type := mkUserRequest {
  ur_requested_starttime : UTCDateTime;
  ur_requested_endtime : UTCDateTime;
  ur_sncls : list string;
  ur_dataselect_url : option string;
  ur_event_url : option string;
  ur_station_url : option string;
  ur_resp_dir : option string
}.

Record Concierge : Type := mkConcierge {
  requested_starttime : UTCDateTime;
  requested_endtime : UTCDateTime;
  sncl_patterns : list string;
  availability : option DataFrame;
  filtered_availability : option DataFrame;
  dataselect_url : string;
  dataselect_client : option Client;
  event_url : option string;
  event_client : option Client;
  station_url : option string;
  station_client : option Client;
  resp_dir : option string
}.

Definition set_availability (st : Concierge) (df : option DataFrame) : Concierge :=
  mkConcierge (requested_starttime st) (requested_endtime st) (sncl_patterns st)
    df (filtered_availability st)
    (dataselect_url st) (dataselect_client st) (event_url st) (event_client st)
    (station_url st) (station_client st) (resp_dir st).

Definition set_filtered_availability (st : Concierge) (df : option DataFrame) : Concierge :=
  mkConcierge (requested_starttime st) (requested_endtime st) (sncl_patterns st)
    (availability st) df
    (dataselect_url st) (dataselect_client st) (event_url st) (event_client st)
    (station_url st) (station_client st) (resp_dir st).

(* ================================================================== *)
(** ** [Concierge.__init__]: resolving the endpoints (lines 98-168)     *)
(* ================================================================== *)

Section Init.

Variable w : World.

(** [URL_MAPPINGS[k]], and [k in URL_MAPPINGS.keys()] as [is_some]. *)
Fixpoint assoc (k : string) (l : list (string * string)) : option string :=
  match l with
  | [] => None
  | (k', v) :: l' => if String.eqb k k' then Some v else assoc k l'
  end.

Definition make_client (base : string) : result Client :=
  if Client_ok w base then Ok base else Raise ExternalError.

(** The test [("http://" or "https://") in url] of lines 103, 123, 143. *)
Definition has_http_scheme (url : string) : bool :=
  PyStr.str_in (PyStr.str_or "http://" "https://") url.

(** The chain alias / URL / existing path shared by the three blocks;
    [what] is the preference name put in the error message. *)
Definition resolve_endpoint (what : string) (url : string)
  : result (string * option Client) :=
  match assoc url (URL_MAPPINGS w) with
  | Some canonical =>
      c <- make_client url ;;
      Ok (canonical, Some c)
  | None =>
      if has_http_scheme url then
        c <- make_client url ;;
        Ok (url, Some c)
      else if path_exists w (abspath w url) then
        Ok (abspath w url, None)
      else
        Raise (ValueError ("Cannot find preference file " ++ what ++ ": '" ++ url ++ "'"))
  end.

(** Lines 99-114: the waveform endpoint has no [None] branch, so a
    missing value reaches [... in None]. *)
Definition init_dataselect (v : option string) : result (string * option Client) :=
  match v with
  | None => Raise TypeError
  | Some url => resolve_endpoint "dataselect_url" url
  end.

(** Lines 117-134. *)
Definition init_event (v : option string) : result (option string * option Client) :=
  match v with
  | None => Ok (None, None)
  | Some url =>
      r <- resolve_endpoint "event_url" url ;;
      Ok (Some (fst r), snd r)
  end.

(** Lines 137-154. *)
Definition init_station (v : option string) : result (option string * option Client) :=
  match v with
  | None => Ok (None, None)
  | Some url =>
      r <- resolve_endpoint "station_url" url ;;
      Ok (Some (fst r), snd r)
  end.

(** Lines 157-168. *)
Definition init_resp_dir (v : option string) : result (option string) :=
  match v with
  | None => Ok None
  | Some d =>
      if is_some (assoc d (URL_MAPPINGS w)) then Ok None
      else if path_exists w (abspath w d) then Ok (Some (abspath w d))
      else Raise (ValueError ("Cannot find preference file resp_dir: '" ++ d ++ "'"))
  end.

(** [Concierge(user_request)]; the output-file fields are not modelled. *)
Definition Concierge_init (ur : UserRequest) : result Concierge :=
  ds <- init_dataselect (ur_dataselect_url ur) ;;
  ev <- init_event (ur_event_url ur) ;;
  sta <- init_station (ur_station_url ur) ;;
  resp <- init_resp_dir (ur_resp_dir ur) ;;
  Ok (mkConcierge (ur_requested_starttime ur) (ur_requested_endtime ur) (ur_sncls ur)
        None None
        (fst ds) (snd ds) (fst ev) (snd ev) (fst sta) (snd sta) resp).

End Init.

(** How the three data classes end up classified. *)
Inductive endpoint_kind : Type := Remote | LocalPath | Unconfigured.

Definition kind_of (url : option string) (client : option Client) : endpoint_kind :=
  match client, url with
  | Some _, _ => Remote
  | None, Some _ => LocalPath
  | None, None => Unconfigured
  end.

(* ================================================================== *)
(** ** [get_availability] (lines 170-581)                              *)
(* ================================================================== *)

Record AvArgs : Type := mkAvArgs {
  a_network : option string;
  a_station : option string;
  a_location : option string;
  a_channel : option string;
  a_starttime : option UTCDateTime;
  a_endtime : option UTCDateTime;
  a_latitude : option Q;
  a_longitude : option Q;
  a_minradius : option Q;
  a_maxradius : option Q
}.

(** [x is "*"]: one-character strings are unique objects in CPython, so
    identity with the literal coincides with equality. *)
Definition is_star (x : option string) : bool :=
  match x with
  | Some s => String.eqb s "*"
  | None => false
  end.

(** [(a, b, c, d) = sncl_pattern.split('.')] inside [try], lines 335-340
    and 404-409. *)
Definition parse_sncl_pattern (p : string) : result (string * string * string * string) :=
  match PyStr.split "." p with
  | [n; s; l; c] => Ok (n, s, l, c)
  | _ => Raise (ValueError ("Could not parse sncl_pattern " ++ p))
  end.

Definition join_sncl (n s l c : string) : string :=
  n ++ "." ++ s ++ "." ++ l ++ "." ++ c.

(** [df.snclId.str.contains(pat)]: one boolean per row. *)
Definition str_contains (pat : string) (df : DataFrame) : result (list bool) :=
  p <- regex (Re.compile pat) ;;
  Ok (map (fun r => Re.search_toks p (snclId r)) df).

(** [df[mask]] *)
Fixpoint select (df : DataFrame) (mask : list bool) : DataFrame :=
  match df, mask with
  | r :: df', b :: mask' => if b then r :: select df' mask' else select df' mask'
  | _, _ => []
  end.

(** [a | b] on boolean series *)
Fixpoint mask_or (a b : list bool) : list bool :=
  match a, b with
  | x :: a', y :: b' => (x || y) :: mask_or a' b'
  | _, _ => []
  end.

(** The row written at lines 319-326 and 477-484. *)
Definition channel_row (n : Network) (s : Station) (c : Channel) : Row :=
  mkRow (n_code n) (s_code s) (c_location_code c) (c_code c)
        (c_latitude c) (c_longitude c) (c_elevation c) (c_depth c)
        (c_azimuth c) (c_dip c) (c_sensor_description c)
        None None None
        (c_sample_rate c)
        (Some (c_start_date c)) (Some (c_end_date c))
        (join_sncl (n_code n) (s_code s) (c_location_code c) (c_code c)).

(** The nested walk over networks, stations and channels. *)
Definition inventory_rows (keep : Channel -> bool) (inv : Inventory) : DataFrame :=
  flat_map (fun n =>
    flat_map (fun s =>
      flat_map (fun c => if keep c then [channel_row n s c] else [])
               (s_channels s))
      (n_stations n))
    (networks inv).

(** The metadata-free row of lines 379-384. *)
Definition file_row (n s l c : string) : Row :=
  mkRow n s l c None None None None None None None None None None None None None
        (join_sncl n s l c).

(** [dataselect_url + '/' + 'N.S.L.C.YYYY.DDD' + '*'] *)
Definition filepattern_of (dir : string) (n s l c : string) (t : UTCDateTime) : string :=
  dir ++ "/" ++ (n ++ "." ++ s ++ "." ++ l ++ "." ++ c ++ "." ++ strftime_Y_j t) ++ "*".

(** The first four dot-separated pieces of a file name, lines 375-376:
    an index past the end raises. *)
Definition file_sncl (_file : string) : result (string * string * string * string) :=
  match PyStr.last_item (PyStr.split "/" _file) with
  | None => Raise IndexError
  | Some fileSNCL =>
      match PyStr.split "." fileSNCL with
      | n :: s :: l :: c :: _ => Ok (n, s, l, c)
      | _ => Raise IndexError
      end
  end.

(** [re.match('[^\\.]*\\.[^\\.]*\\.[^\\.]*\\.[^\\.]*', basename).group(0)],
    lines 513-515: the greedy match is the first four dot-separated pieces;
    with fewer than three dots there is no match object. *)
Definition basename_sncl (path : string) : result string :=
  match PyStr.last_item (PyStr.split "/" path) with
  | None => Raise AttributeError
  | Some basename =>
      match PyStr.split "." basename with
      | n :: s :: l :: c :: _ => Ok (join_sncl n s l c)
      | _ => Raise AttributeError
      end
  end.

Section Availability.

Variable w : World.

(** *** Building the local catalog once (lines 273-388) *)

(** Lines 374-384.  The dataframe is updated in place, so the rows added
    before an exception stay in it: the frame is returned next to the
    outcome. *)
Fixpoint add_local_files (df : DataFrame) (files : list string)
  : DataFrame * result unit :=
  match files with
  | [] => (df, Ok tt)
  | _file :: rest =>
      match file_sncl _file with
      | Raise e => (df, Raise e)
      | Ok (n, s, l, c) =>
          let id := join_sncl n s l c in
          match str_contains id df with
          | Raise e => (df, Raise e)
          | Ok hits =>
              if existsb (fun b => b) hits then add_local_files df rest
              else add_local_files (df ++ [file_row n s l c])%list rest
          end
      end
  end.

(** The loop of lines 332-387.  [stored] records whether
    [self.availability = df] has been executed: from then on the attribute
    is the very object the loop keeps updating. *)
Fixpoint build_patterns (st : Concierge) (a : AvArgs) (_starttime : UTCDateTime)
    (df : DataFrame) (stored : bool) (patterns : list string)
  : DataFrame * bool * result unit :=
  match patterns with
  | [] => (df, stored, Ok tt)
  | sncl_pattern :: rest =>
      match parse_sncl_pattern sncl_pattern with
      | Raise e => (df, stored, Raise e)
      | Ok (UR_network, UR_station, UR_location, UR_channel) =>
          let _network := override (a_network a) UR_network in
          let _station := override (a_station a) UR_station in
          let _location := override (a_location a) UR_location in
          let _channel := override (a_channel a) UR_channel in
          match dataselect_client st with
          | None =>
              let filepattern :=
                filepattern_of (dataselect_url st) _network _station _location _channel _starttime in
              match glob w filepattern with
              | [] => build_patterns st a _starttime df stored rest      (* continue *)
              | matching_files =>
                  match add_local_files df matching_files with
                  | (df', Raise e) => (df', stored, Raise e)
                  | (df', Ok _) => build_patterns st a _starttime df' true rest
                  end
              end
          | Some _ => build_patterns st a _starttime df true rest
          end
      end
  end.

(** Lines 278-290 *)
Definition read_station_metadata (st : Concierge) : result (option Inventory) :=
  match station_url st with
  | None => Ok None
  | Some url =>
      match read_inventory w url with
      | Some inv => Ok (Some inv)
      | None => Raise (ValueError ("The StationXML file: '" ++ url ++ "' is not valid"))
      end
  end.

(** Lines 273-388 *)
Definition build_local_availability (st : Concierge) (a : AvArgs)
  : Concierge * result unit :=
  match station_client st with
  | Some _ => (st, Ok tt)
  | None =>
      match availability st with
      | Some _ => (st, Ok tt)
      | None =>
          match read_station_metadata st with
          | Raise e => (st, Raise e)
          | Ok sncl_inventory =>
              let _starttime := override (a_starttime a) (requested_starttime st) in
              let _endtime := override (a_endtime a) (requested_endtime st) in
              let df :=
                match sncl_inventory with
                | Some inv =>
                    inventory_rows
                      (fun c => (c_start_date c <? _endtime) && (_starttime <? c_end_date c))
                      inv
                | None => []
                end in
              match build_patterns st a _starttime df false (sncl_patterns st) with
              | (df', stored, r) =>
                  (if stored then set_availability st (Some df') else st, r)
              end
          end
      end
  end.

(** *** One pass of the pattern loop (lines 395-554) *)

(** Line 494: the pattern turned into a regular expression. *)
Definition py_pattern_of (_sncl_pattern : string) : string :=
  PyStr.replace "?" "." (PyStr.replace "*" ".*" (PyStr.replace "." "\." _sncl_pattern)).

(** Line 497: [df = df[df.snclId.str.contains(py_pattern)]] *)
Definition subset_by_pattern (_sncl_pattern : string) (df : DataFrame) : result DataFrame :=
  mask <- str_contains (py_pattern_of _sncl_pattern) df ;;
  Ok (select df mask).

(** Lines 512-517 *)
Fixpoint files_mask (df : DataFrame) (mask : list bool) (matching_files : list string)
  : result (list bool) :=
  match matching_files with
  | [] => Ok mask
  | f :: rest =>
      sncl <- basename_sncl f ;;
      hits <- str_contains (PyStr.replace "." "\." sncl) df ;;
      files_mask df (mask_or mask hits) rest
  end.

(** Lines 500-519; [None] stands for [continue]. *)
Definition subset_by_local_files (st : Concierge) (filepattern : string) (df : DataFrame)
  : result (option DataFrame) :=
  match dataselect_client st with
  | Some _ => Ok (Some df)
  | None =>
      match glob w filepattern with
      | [] => Ok None
      | matching_files =>
          mask0 <- str_contains "MASK WITH ALL FALSE" df ;;
          mask <- files_mask df mask0 matching_files ;;
          Ok (Some (select df mask))
      end
  end.

(** Lines 531-532: the distance from the reference point, in degrees.
    Without a reference point the geodesy call raises. *)
Definition distance_degrees (a : AvArgs) (lat lon : Q) : result Q :=
  match a_latitude a, a_longitude a with
  | Some latitude0, Some longitude0 =>
      dist <- external (gps2dist_azimuth w latitude0 longitude0 lat lon) ;;
      Ok (kilometer2degrees w (dist / 1000)%Q)
  | _, _ => Raise ExternalError
  end.

(** Lines 533-541: the comparison that writes "KEEP". *)
Definition within_radius (a : AvArgs) (dist : Q) : bool :=
  match a_minradius a, a_maxradius a with
  | None, Some maxradius => Qle_bool (Qabs dist) maxradius
  | Some minradius, None => Qle_bool minradius (Qabs dist)
  | Some minradius, Some maxradius =>
      Qle_bool (Qabs dist) maxradius && Qle_bool minradius (Qabs dist)
  | None, None => false
  end.

(** Lines 527-545 for one row: is it marked "KEEP"? *)
Definition radius_keep (a : AvArgs) (r : Row) : result bool :=
  let lat := latitude r in
  let lon := longitude r in
  if truthy_cell lat && truthy_cell lon then
    match lat, lon with
    | Some flat, Some flon =>
        if negb (isnan flon || isnan flat) then
          match flat, flon with
          | Fin qlat, Fin qlon =>
              dist <- distance_degrees a qlat qlon ;;
              Ok (within_radius a dist)
          | _, _ => Ok false
          end
        else Ok false
    | _, _ => Ok false
    end
  else Ok false.

(** Lines 521-547 *)
Definition subset_by_distance (a : AvArgs) (df : DataFrame) : result DataFrame :=
  if is_some (a_maxradius a) || is_some (a_minradius a) then filterM (radius_keep a) df
  else Ok df.

(** Lines 403-547 for one pattern; [None] stands for [continue]. *)
Definition pattern_frame (st : Concierge) (a : AvArgs) (sncl_pattern : string)
  : result (option DataFrame) :=
  parts <- parse_sncl_pattern sncl_pattern ;;
  let '(UR_network, UR_station, UR_location, UR_channel) := parts in
  let _starttime := override (a_starttime a) (requested_starttime st) in
  let _endtime := override (a_endtime a) (requested_endtime st) in
  let _network := override (a_network a) UR_network in
  let _station := override (a_station a) UR_station in
  let _location := override (a_location a) UR_location in
  let _channel := override (a_channel a) UR_channel in
  let _sncl_pattern := join_sncl _network _station _location _channel in
  let source : option DataFrame :=
    match station_client st with
    | None => availability st
    | Some _ =>
        match get_stations w
                (mkStationQuery _starttime _endtime _network _station _location _channel
                   (a_latitude a) (a_longitude a) (a_minradius a) (a_maxradius a)) with
        | None => None
        | Some sncl_inventory => Some (inventory_rows (fun _ => true) sncl_inventory)
        end
    end in
  match source with
  | None => Ok None
  | Some df =>
      df1 <- subset_by_pattern _sncl_pattern df ;;
      local <- subset_by_local_files st
                 (filepattern_of (dataselect_url st) _network _station _location _channel _starttime)
                 df1 ;;
      match local with
      | None => Ok None
      | Some df2 =>
          df3 <- subset_by_distance a df2 ;;
          Ok (Some df3)
      end
  end.

(** The loop of lines 391-554: the frames appended to
    [sncl_pattern_dataframes], in order. *)
Fixpoint pattern_loop (st : Concierge) (a : AvArgs) (loopCounter : Z)
    (sncl_pattern_dataframes : list DataFrame) (patterns : list string)
  : result (list DataFrame) :=
  match patterns with
  | [] => Ok sncl_pattern_dataframes
  | sncl_pattern :: rest =>
      let loopCounter := loopCounter + 1 in
      if is_star (a_network a) && is_star (a_station a) && is_star (a_location a)
         && (1 <? loopCounter)
      then pattern_loop st a loopCounter sncl_pattern_dataframes rest
      else
        match pattern_frame st a sncl_pattern with
        | Raise e => Raise e
        | Ok None => pattern_loop st a loopCounter sncl_pattern_dataframes rest
        | Ok (Some []) => pattern_loop st a loopCounter sncl_pattern_dataframes rest
        | Ok (Some df) =>
            pattern_loop st a loopCounter (sncl_pattern_dataframes ++ [df])%list rest
        end
  end.

End Availability.

(** *** Merging and de-duplicating (lines 558-581) *)

(** The key of [drop_duplicates(['snclId', 'start'])], where [start] is
    [starttime.astype('str')]. *)
Definition astype_str (t : option UTCDateTime) : string :=
  match t with
  | None => "None"
  | Some t => UTC.str t
  end.

Definition dedup_key (r : Row) : string * string := (snclId r, astype_str (starttime r)).

Definition key_eqb (k1 k2 : string * string) : bool :=
  String.eqb (fst k1) (fst k2) && String.eqb (snd k1) (snd k2).

(** [drop_duplicates]: the first row of every key is kept. *)
Fixpoint drop_duplicates_from (seen : list (string * string)) (df : DataFrame) : DataFrame :=
  match df with
  | [] => []
  | r :: df' =>
      if existsb (key_eqb (dedup_key r)) seen then drop_duplicates_from seen df'
      else r :: drop_duplicates_from (dedup_key r :: seen) df'
  end.

Definition drop_duplicates (df : DataFrame) : DataFrame := drop_duplicates_from [] df.

(** Lines 558-581.  Both [raise NoAvailableDataError] statements are
    commented out in the source: the function falls off its end. *)
Definition merge_availability (st : Concierge) (sncl_pattern_dataframes : list DataFrame)
  : Concierge * result (option DataFrame) :=
  match sncl_pattern_dataframes with
  | [] => (st, Ok None)
  | _ =>
      let availability := drop_duplicates (List.concat sncl_pattern_dataframes) in
      match availability with
      | [] => (st, Ok None)
      | _ => (set_filtered_availability st (Some availability), Ok (Some availability))
      end
  end.

(** [Concierge.get_availability] *)
Definition get_availability (w : World) (st : Concierge) (a : AvArgs)
  : Concierge * result (option DataFrame) :=
  match build_local_availability w st a with
  | (st1, Raise e) => (st1, Raise e)
  | (st1, Ok _) =>
      match pattern_loop w st1 a 0 [] (sncl_patterns st1) with
      | Raise e => (st1, Raise e)
      | Ok frames => merge_availability st1 frames
      end
  end.

(* ================================================================== *)
(** ** [get_dataselect] (lines 583-786)                                *)
(* ================================================================== *)

Record DsArgs : Type := mkDsArgs {
  d_network : option string;
  d_station : option string;
  d_location : option string;
  d_channel : option string;
  d_starttime : option UTCDateTime;
  d_endtime : option UTCDateTime;
  d_quality : option string;
  d_repository : option string;
  d_inclusiveEnd : bool;
  d_ignoreEpoch : bool
}.

Section Dataselect.

Variable w : World.

(** ['%s.%s.%s.%s.%s' % (network, station, location, channel, day)] with
    the directory in front and the star behind. *)
Definition day_filepattern (st : Concierge) (d : DsArgs) (t : UTCDateTime) : string :=
  filepattern_of (dataselect_url st)
    (PyStr.fmt_s (d_network d)) (PyStr.fmt_s (d_station d))
    (PyStr.fmt_s (d_location d)) (PyStr.fmt_s (d_channel d)) t.

(** Line 631 *)
Definition nday_of (_starttime _endtime : UTCDateTime) : Z :=
  (julday (sub_usec _endtime 10) - julday _starttime) + 1.

(** Lines 658-675 and 737-755: the metadata of the first availability row,
    with the defaults of the IRISSeismic Trace prototype. *)
Definition enrich (st : Concierge) (d : DsArgs) (py_stream : PyStream w)
    (_starttime _endtime : UTCDateTime) (dq_flags : list Z)
  : Concierge * result (RStream w) :=
  match get_availability w st
          (mkAvArgs (d_network d) (d_station d) (d_location d) (d_channel d)
                    (Some _starttime) (Some _endtime) None None None None) with
  | (st1, Raise e) => (st1, Raise e)
  | (st1, Ok None) => (st1, Raise AttributeError)
  | (st1, Ok (Some [])) => (st1, Raise IndexError)
  | (st1, Ok (Some (row :: _))) =>
      let sensor := match instrument row with None => "" | Some s => s end in
      let scale_ := match scale row with None => Fin 1 | Some x => x end in
      let scalefreq_ := match scalefreq row with None => Fin 1 | Some x => x end in
      let scaleunits_ := match scaleunits row with None => "" | Some s => s end in
      (st1,
       external
         (R_Stream w py_stream
            (mkStreamMeta _starttime _endtime
               [0; 0; 0; 0; 0; 0; 0; 0] [0; 0; 0; 0; 0; 0; 0; 0] dq_flags
               sensor scale_ scalefreq_ scaleunits_
               (latitude row) (longitude row) (elevation row) (depth row)
               (azimuth row) (dip row))))
  end.

(** The body shared by both [try] blocks once the stream has been read:
    slice, read the quality flags of [filepath], enrich. *)
Definition slice_and_enrich (st : Concierge) (d : DsArgs) (py_stream : PyStream w)
    (_starttime _endtime : UTCDateTime) (filepath : option string)
  : Concierge * result (RStream w) :=
  let _endtime := if d_inclusiveEnd d then _endtime else sub_usec _endtime 1 in
  let py_stream := slice w py_stream _starttime _endtime in
  match filepath with
  | None => (st, Raise UnboundLocalError)
  | Some path =>
      match get_timing_and_data_quality w path with
      | None => (st, Raise ExternalError)
      | Some dq_flags => enrich st d py_stream _starttime _endtime dq_flags
      end
  end.

(** [except Exception as e: err_msg = "..." % filepath; ...; raise]:
    formatting the message reads [filepath], which is unbound when the day
    loop never ran. *)
Definition reraise (filepath : option string) (e : exn) : exn :=
  match filepath with
  | None => UnboundLocalError
  | Some _ => e
  end.

(** Lines 682-683 and 763-764 *)
Definition require_traces (r_stream : RStream w) : result (RStream w) :=
  if Nat.eqb (traces_len w r_stream) 0 then Raise (Exception_ "no data available")
  else Ok r_stream.

(** Lines 634-683: the request fits in one day. *)
Definition read_single_day (st : Concierge) (d : DsArgs) (_starttime _endtime : UTCDateTime)
  : Concierge * result (RStream w) :=
  let filepattern := day_filepattern st d _starttime in
  match glob w filepattern with
  | [] => (st, Raise UnboundLocalError)       (* [return r_stream], never assigned *)
  | filepath :: _ =>
      match obspy_read_file w filepath with
      | None => (st, Raise (reraise (Some filepath) ExternalError))
      | Some py_stream =>
          match slice_and_enrich st d py_stream _starttime _endtime (Some filepath) with
          | (st1, Raise e) => (st1, Raise (reraise (Some filepath) e))
          | (st1, Ok r_stream) => (st1, require_traces r_stream)
          end
      end
  end.

(** Lines 692-699: the start of day number [day] of the request. *)
Definition day_start (_starttime : UTCDateTime) (day : Z) : UTCDateTime :=
  let start := add_seconds _starttime (day * 86400) in
  let start := start - usec_of_day start in
  if start <=? _starttime then _starttime else start.

(** Lines 691-720: the day loop.  It returns the bytes written to the
    temporary file and the last value of [filepath]. *)
Fixpoint day_loop (st : Concierge) (d : DsArgs) (_starttime : UTCDateTime)
    (x : list Byte.byte) (filepath : option string) (days : list Z)
  : result (list Byte.byte * option string) :=
  match days with
  | [] => Ok (x, filepath)
  | day :: rest =>
      let start := day_start _starttime day in
      let filepattern := day_filepattern st d start in
      match glob w filepattern with
      | [] => Raise (Exception_ ("No files found matching '" ++ filepattern ++ "'"))
      | path :: _ =>
          day_loop st d _starttime (x ++ file_bytes w path)%list (Some path) rest
      end
  end.

(** [range(nday)] *)
Definition range (n : Z) : list Z := map Z.of_nat (seq 0 (Z.to_nat n)).

(** Lines 686-764: the request spans several days. *)
Definition read_multi_day (st : Concierge) (d : DsArgs) (_starttime _endtime : UTCDateTime)
    (nday : Z) : Concierge * result (RStream w) :=
  match day_loop st d _starttime [] None (range nday) with
  | Raise e => (st, Raise e)
  | Ok (x, filepath) =>
      match obspy_read_bytes w x with
      | None => (st, Raise (reraise filepath ExternalError))
      | Some py_stream =>
          match slice_and_enrich st d py_stream _starttime _endtime filepath with
          | (st1, Raise e) => (st1, Raise (reraise filepath e))
          | (st1, Ok r_stream) => (st1, require_traces r_stream)
          end
      end
  end.

(** [Concierge.get_dataselect] *)
Definition get_dataselect (st : Concierge) (d : DsArgs) : Concierge * result (RStream w) :=
  let _starttime := override (d_starttime d) (requested_starttime st) in
  let _endtime := override (d_endtime d) (requested_endtime st) in
  match dataselect_client st with
  | None =>
      let nday := nday_of _starttime _endtime in
      if nday =? 1 then read_single_day st d _starttime _endtime
      else read_multi_day st d _starttime _endtime nday
  | Some _ =>
      (st,
       external
         (R_getDataselect w
            (mkDataselectQuery (dataselect_url st)
               (d_network d) (d_station d) (d_location d) (d_channel d)
               _starttime _endtime (d_quality d) (d_repository d)
               (d_inclusiveEnd d) (d_ignoreEpoch d))))
  end.

End Dataselect.

(* ================================================================== *)
(** ** [get_event] (lines 789-943)                                     *)
(* ================================================================== *)

Record EvArgs : Type := mkEvArgs {
  v_starttime : option UTCDateTime;
  v_endtime : option UTCDateTime;
  v_minmag : option Q;
  v_maxmag : option Q;
  v_magtype : option string;
  v_mindepth : option Q;
  v_maxdepth : option Q
}.

(** [if x:] for an optional number: [None] and zero are false. *)
Definition truthy_num (x : option Q) : bool :=
  match x with
  | None => false
  | Some q => negb (Qeq_bool q 0)
  end.

(** [events[events[col] >= bound]] applied only [if bound:]. *)
Definition filter_if (x : option Q) (test : Q -> EventRow -> bool) (events : list EventRow)
  : list EventRow :=
  match x with
  | Some q => if truthy_num x then filter (test q) events else events
  | None => events
  end.

Section Events.

Variable w : World.

(** Lines 889-901: one dataframe row per event. *)
Definition event_row (e : Event) : EventRow :=
  mkEventRow (re_sub_eventid w (e_resource_id e)) (e_time e)
    (e_latitude e) (e_longitude e) (e_depth e / 1000)%Q
    (e_magnitude_type e) (e_mag e) (e_description e).

(** Line 914: [events['magType'].str.match(magtype)], applied [if magtype:]. *)
Definition filter_magtype (magtype : option string) (events : list EventRow)
  : result (list EventRow) :=
  match magtype with
  | None => Ok events
  | Some EmptyString => Ok events
  | Some pat =>
      p <- regex (Re.compile pat) ;;
      Ok (filter (fun r => Re.match_here p (magType r)) events)
  end.

(** Line 920: [events.index = np.arange(1, len(events) + 1)] *)
Definition reindex (events : list EventRow) : EventFrame :=
  combine (map (fun i => Z.of_nat i) (seq 1 (List.length events))) events.

(** Lines 870-920: the local QuakeML branch. *)
Definition local_events (st : Concierge) (v : EvArgs) : result EventFrame :=
  let _starttime := override (v_starttime v) (requested_starttime st) in
  let _endtime := override (v_endtime v) (requested_endtime st) in
  match read_events w (event_url st) with
  | None =>
      Raise (ValueError ("The QuakeML file: '" ++ PyStr.fmt_s (event_url st) ++ "' is not valid"))
  | Some event_catalog =>
      match map event_row event_catalog with
      | [] => Raise (ValueError "No objects to concatenate")     (* pd.concat([]) *)
      | events =>
          let events := filter (fun r => _starttime <=? time r) events in
          let events := filter (fun r => time r <=? _endtime) events in
          let events := filter_if (v_minmag v) (fun b r => Qle_bool b (magnitude r)) events in
          let events := filter_if (v_maxmag v) (fun b r => Qle_bool (magnitude r) b) events in
          events <- filter_magtype (v_magtype v) events ;;
          let events := filter_if (v_mindepth v) (fun b r => Qle_bool b (ev_depth r)) events in
          let events := filter_if (v_maxdepth v) (fun b r => Qle_bool (ev_depth r) b) events in
          Ok (reindex events)
      end
  end.

(** [Concierge.get_event]: [None] is Python's [None]. *)
Definition get_event (st : Concierge) (v : EvArgs) : result (option EventFrame) :=
  let _starttime := override (v_starttime v) (requested_starttime st) in
  let _endtime := override (v_endtime v) (requested_endtime st) in
  events <-
    match event_client st with
    | None => local_events st v
    | Some _ =>
        external
          (irisseismic_getEvent w
             (mkEventQuery _starttime _endtime (v_minmag v) (v_maxmag v) (v_magtype v)
                (v_mindepth v) (v_maxdepth v)))
    end ;;
  match events with
  | [] => Ok None
  | _ => Ok (Some events)
  end.

End Events.

(** *** The signature of [get_event] (lines 789-792) *)

(** The keyword arguments of one call: [None] is an argument that the
    caller leaves out, [Some x] one that is passed, [x] being Python's
    [None] or a value. *)
Record EvCall : Type := mkEvCall {
  k_starttime : option (option UTCDateTime);
  k_endtime : option (option UTCDateTime);
  k_minmag : option (option Q);
  k_maxmag : option (option Q);
  k_magtype : option (option string);
  k_mindepth : option (option Q);
  k_maxdepth : option (option Q)
}.

(** Line 791: [minmag=5.5]. *)
Definition default_minmag : Q := 55 # 10.

(** The parameters as the body sees them: every default is [None] but
    the one of [minmag]. *)
Definition bind_defaults (k : EvCall) : EvArgs :=
  mkEvArgs (override (k_starttime k) None) (override (k_endtime k) None)
    (override (k_minmag k) (Some default_minmag)) (override (k_maxmag k) None)
    (override (k_magtype k) None)
    (override (k_mindepth k) None) (override (k_maxdepth k) None).

(** A call of the local reader with keyword arguments. *)
Definition local_events_call (w : World) (st : Concierge) (k : EvCall) : result EventFrame :=
  local_events w st (bind_defaults k).

(* ================================================================== *)
(** ** The pattern matcher as the specification words it               *)
(* ================================================================== *)

(** Section 4.2 of the specification: literal characters match
    themselves, the star matches any run of characters, the question mark
    matches one character, and the whole component has to be consumed. *)
Fixpoint wildcard_match (p : string) : string -> bool :=
  match p with
  | EmptyString => fun s => match s with EmptyString => true | _ => false end
  | String c p' =>
      if Ascii.eqb c "*" then
        fix star (s : string) : bool :=
          wildcard_match p' s ||
          match s with
          | String _ s' => star s'
          | EmptyString => false
          end
      else if Ascii.eqb c "?" then
        fun s => match s with String _ s' => wildcard_match p' s' | EmptyString => false end
      else
        fun s => match s with
                 | String a s' => Ascii.eqb a c && wildcard_match p' s'
                 | EmptyString => false
                 end
  end.

(** Section 8: four dot-separated components on both sides, matching
    pairwise. *)
Definition spec_match (P I : string) : bool :=
  match PyStr.split "." P, PyStr.split "." I with
  | [p1; p2; p3; p4], [i1; i2; i3; i4] =>
      wildcard_match p1 i1 && wildcard_match p2 i2
      && wildcard_match p3 i3 && wildcard_match p4 i4
  | _, _ => false
  end.

(** Number of rows of a frame that carry a given de-duplication key. *)
Definition count_key (k : string * string) (df : DataFrame) : nat :=
  List.length (filter (fun r => key_eqb (dedup_key r) k) df).

Definition has_key (k : string * string) (df : DataFrame) : bool :=
  existsb (fun r => key_eqb (dedup_key r) k) df.

(* ================================================================== *)
(** ** Notions used in the statements                                  *)
(* ================================================================== *)

(** The frames the pattern loop of a call collects, after the catalog
    build of that call. *)
Definition frames_of (w : World) (st : Concierge) (a : AvArgs) : result (list DataFrame) :=
  let st1 := fst (build_local_availability w st a) in
  match snd (build_local_availability w st a) with
  | Raise e => Raise e
  | Ok _ => pattern_loop w st1 a 0 [] (sncl_patterns st1)
  end.

Definition is_no_data (e : exn) : bool :=
  match e with
  | NoAvailableDataError _ => true
  | _ => false
  end.

(** A computation whose exceptions, if any, are not the no-data signal. *)
Definition quiet {A : Type} (r : result A) : Prop :=
  forall e, r = Raise e -> is_no_data e = false.

(** The interval of the specification: a bound that is not supplied does
    not constrain. *)
Definition in_radius_interval (a : AvArgs) (d : Q) : Prop :=
  (forall mn, a_minradius a = Some mn -> (mn <= d)%Q)
  /\ (forall mx, a_maxradius a = Some mx -> (d <= mx)%Q).

(** A coordinate cell that Python's truth test rejects: [None] or zero. *)
Definition zero_or_missing (c : option pyfloat) : Prop :=
  c = None \/ exists q, c = Some (Fin q) /\ (q == 0)%Q.

(** The state after a sequence of calls, each in its own world. *)
Definition after_calls (st : Concierge) (calls : list (World * AvArgs)) : Concierge :=
  fold_left (fun s c => fst (get_availability (fst c) s (snd c))) calls st.

(** [all(f(c) for c in s)] *)
Fixpoint all_chars (f : ascii -> bool) (s : string) : bool :=
  match s with
  | EmptyString => true
  | String c s' => f c && all_chars f s'
  end.

(** The characters a channel pattern is made of: the dot, the two
    wildcards, and anything that is not a regular-expression metacharacter. *)
Definition pattern_char (c : ascii) : bool :=
  Ascii.eqb c "." || Ascii.eqb c "*" || Ascii.eqb c "?" || negb (Re.is_meta c).

(** The token that line 494 produces for one pattern character. *)
Definition tok_of (c : ascii) : Re.tok :=
  if Ascii.eqb c "*" then Re.AnyStar
  else if Ascii.eqb c "?" then Re.Any
  else Re.Lit c.

Fixpoint toks_of (p : string) : list Re.tok :=
  match p with
  | EmptyString => []
  | String c p' => tok_of c :: toks_of p'
  end.

(** The text that line 494 produces for one pattern character. *)
Definition piece (c : ascii) : string :=
  if Ascii.eqb c "." then "\."
  else if Ascii.eqb c "*" then ".*"
  else if Ascii.eqb c "?" then "."
  else String c EmptyString.

Definition starts_with_star (s : string) : bool :=
  match s with
  | String c _ => Ascii.eqb c "*"
  | EmptyString => false
  end.

(** The keys [drop_duplicates] has met after walking through a frame. *)
Fixpoint seen_after (seen : list (string * string)) (df : DataFrame)
  : list (string * string) :=
  match df with
  | [] => seen
  | r :: df' =>
      if existsb (key_eqb (dedup_key r)) seen then seen_after seen df'
      else seen_after (dedup_key r :: seen) df'
  end.

(** Two Concierge objects that agree on everything but the two cached
    dataframes. *)
Definition same_configuration (st st' : Concierge) : Prop :=
  requested_starttime st' = requested_starttime st
  /\ requested_endtime st' = requested_endtime st
  /\ sncl_patterns st' = sncl_patterns st
  /\ dataselect_url st' = dataselect_url st
  /\ dataselect_client st' = dataselect_client st
  /\ event_url st' = event_url st
  /\ event_client st' = event_client st
  /\ station_url st' = station_url st
  /\ station_client st' = station_client st
  /\ resp_dir st' = resp_dir st.

(** [sep not in s] for a one-character [sep]. *)
Definition free_of (sep : ascii) (s : string) : bool :=
  all_chars (fun c => negb (Ascii.eqb c sep)) s.

(** A row as this module writes it: the identifier is the dot-join of
    the four codes, and the three instrument-scale columns are [None]
    (lines 322-324, 380-383, 480-482). *)
Definition canonical_row (r : Row) : Prop :=
  snclId r = join_sncl (network r) (station r) (location r) (channel r)
  /\ scale r = None /\ scalefreq r = None /\ scaleunits r = None.

(** The invariant of the cached catalog. *)
Definition canonical_cache (st : Concierge) : Prop :=
  forall cat, availability st = Some cat -> Forall canonical_row cat.

(** Some stretch of [s] matches the whole pattern [P], dots included. *)
Definition has_matching_substring (P s : string) : Prop :=
  exists pre mid post, s = pre ++ mid ++ post /\ wildcard_match P mid = true.

(** Two Concierge objects that differ at most in
    [self.filtered_availability]. *)
Definition same_catalog (st st' : Concierge) : Prop :=
  same_configuration st st' /\ availability st' = availability st.

(** A start time that [str] prints with a four-digit year (ObsPy's range),
    or no start time at all. *)
Definition four_digit_year (t : option UTCDateTime) : Prop :=
  match t with
  | None => True
  | Some t => 0 <= year t <= 9999
  end.

(** [x] is a row of the channel and the epoch start of [r]. *)
Definition same_epoch (r x : Row) : bool :=
  String.eqb (snclId x) (snclId r)
  && match starttime x, starttime r with
     | Some t1, Some t2 => t1 =? t2
     | None, None => true
     | _, _ => false
     end.

(** [x] has the identifier of [r] and the start-time string of [r]. *)
Definition same_key (r x : Row) : bool :=
  String.eqb (snclId x) (snclId r)
  && String.eqb (astype_str (starttime x)) (astype_str (starttime r)).

(** The same Concierge constructed over another pattern list. *)
Definition with_patterns (st : Concierge) (patterns : list string) : Concierge :=
  mkConcierge (requested_starttime st) (requested_endtime st) patterns
    (availability st) (filtered_availability st)
    (dataselect_url st) (dataselect_client st) (event_url st) (event_client st)
    (station_url st) (station_client st) (resp_dir st).

(** What one evaluated pattern appends to [sncl_pattern_dataframes]
    (lines 549-554): its frame when that has rows, nothing otherwise. *)
Definition collected (w : World) (st : Concierge) (a : AvArgs) (sncl_pattern : string)
  : list DataFrame :=
  match pattern_frame w st a sncl_pattern with
  | Ok (Some (r :: df)) => [r :: df]
  | _ => []
  end.

(* ================================================================== *)
(** ** A small concrete installation                                   *)
(* ================================================================== *)

Module Demo.

Definition files : list string :=
  [ "/data/IU.ANMO.00.BHZ.2013.001.M";
    "/data/IU.ANMO.00.BHZ.2013.002.M";
    "/data/IU.ANMO.00.BHZ.2013.003.M";
    "/data/IU.ANMO.00.BHZ.2013.365.M";
    "/data/IU.ANMO.00.BHZ.2014.001.M";
    "/data/IU.ANMO.00.LHZ.2013.001.M";
    "/data/GE.KBS.10.BHZ.2013.001.M" ].

Definition chan (code loc : string) (lat lon : Q) (t0 t1 : UTCDateTime) : Channel :=
  mkChannel code loc (Some (Fin lat)) (Some (Fin lon)) (Some (Fin 1850)) (Some (Fin 100))
            (Some (Fin 0)) (Some (Fin (-90))) (Some "Streckeisen STS-2") (Some (Fin 20)) t0 t1.

Definition t2010 : UTCDateTime := UTC.make 2010 1 1 0 0 0.
Definition t2599 : UTCDateTime := UTC.make 2599 12 31 23 59 59.

(** ANMO in New Mexico, KBS on Svalbard, and a buoy on the equator. *)
Definition inventory : Inventory :=
  mkInventory
    [ mkNetwork "IU"
        [ mkStation "ANMO"
            [ chan "BHZ" "00" (34946 # 1000) (-(106457 # 1000)) t2010 t2599;
              chan "LHZ" "00" (34946 # 1000) (-(106457 # 1000)) t2010 t2599 ] ];
      mkNetwork "GE"
        [ mkStation "KBS" [ chan "BHZ" "10" (78915 # 1000) (11938 # 1000) t2010 t2599 ];
          mkStation "EQTR" [ chan "BHZ" "00" 0 (10 # 1) t2010 t2599 ] ] ].

Definition events : list Event :=
  [ mkEvent "smi:local/eventid=1" (UTC.make 2013 1 1 6 0 0) 10 20 10000 "MW" (55 # 10) "A";
    mkEvent "smi:local/eventid=2" (UTC.make 2013 1 1 12 0 0) 10 20 10000 "MW" (60 # 10) "B";
    mkEvent "smi:local/eventid=3" (UTC.make 2013 1 1 18 0 0) 10 20 10000 "MW" (64 # 10) "C" ].

(** A flat-earth stand-in for the geodesy: one degree is 111195 m. *)
Definition flat_distance (lat0 lon0 lat lon : Q) : option Q :=
  Some ((Qabs (lat - lat0) + Qabs (lon - lon0)) * 111195)%Q.

Definition flat_degrees (km : Q) : Q := (km * 1000 / 111195)%Q.

(** The installation over a given set of waveform files. *)
Definition installation (files : list string) : World :=
  {| URL_MAPPINGS := [("IRIS", "http://service.iris.edu"); ("USGS", "http://earthquake.usgs.gov")];
     Client_ok := fun _ => true;
     path_exists := fun p => existsb (String.eqb p) ["/data"; "/meta/station.xml"; "/meta/events.xml"];
     abspath := fun p => p;
     glob := fun pattern => filter (wildcard_match pattern) files;
     file_bytes := fun path => list_byte_of_string path;
     read_inventory := fun _ => Some inventory;
     get_stations := fun _ => Some inventory;
     gps2dist_azimuth := flat_distance;
     kilometer2degrees := flat_degrees;
     PyStream := list Byte.byte;
     RStream := list Byte.byte * StreamMeta;
     obspy_read_file := fun path => Some (list_byte_of_string path);
     obspy_read_bytes := fun b => match b with [] => None | _ => Some b end;
     slice := fun s _ _ => s;
     get_timing_and_data_quality := fun _ => Some [0; 0; 0; 0; 0; 0; 0; 0];
     R_Stream := fun s m => Some (s, m);
     traces_len := fun r => List.length (fst r);
     R_getDataselect := fun _ => None;
     read_events := fun _ => Some events;
     re_sub_eventid := fun s => s;
     irisseismic_getEvent := fun _ => None |}.

Definition world : World := installation files.

(** Local waveform files, local StationXML, local QuakeML. *)
Definition local_concierge (patterns : list string) (t0 t1 : UTCDateTime) : Concierge :=
  mkConcierge t0 t1 patterns None None
    "/data" None (Some "/meta/events.xml") None (Some "/meta/station.xml") None None.

(** Local StationXML, waveforms from the remote service. *)
Definition local_metadata_concierge (patterns : list string) (t0 t1 : UTCDateTime)
  : Concierge :=
  mkConcierge t0 t1 patterns None None
    "http://service.iris.edu" (Some "IRIS") None None (Some "/meta/station.xml") None None.

(** Remote station service and remote waveforms. *)
Definition remote_concierge (patterns : list string) (t0 t1 : UTCDateTime) : Concierge :=
  mkConcierge t0 t1 patterns None None
    "http://service.iris.edu" (Some "IRIS") None None
    (Some "http://service.iris.edu") (Some "IRIS") None.

Definition no_args : AvArgs := mkAvArgs None None None None None None None None None None.

(** The same installation after the files have been removed and the
    StationXML has become unreadable. *)
Definition emptied_world : World :=
  {| URL_MAPPINGS := URL_MAPPINGS world;
     Client_ok := Client_ok world;
     path_exists := fun _ => false;
     abspath := abspath world;
     glob := fun _ => [];
     file_bytes := fun _ => [];
     read_inventory := fun _ => None;
     get_stations := fun _ => None;
     gps2dist_azimuth := gps2dist_azimuth world;
     kilometer2degrees := kilometer2degrees world;
     PyStream := PyStream world;
     RStream := RStream world;
     obspy_read_file := fun _ => None;
     obspy_read_bytes := fun _ => None;
     slice := slice world;
     get_timing_and_data_quality := fun _ => None;
     R_Stream := R_Stream world;
     traces_len := traces_len world;
     R_getDataselect := fun _ => None;
     read_events := fun _ => None;
     re_sub_eventid := re_sub_eventid world;
     irisseismic_getEvent := fun _ => None |}.

(** A radius search around a point near ANMO. *)
Definition near_anmo (minradius maxradius : option Q) : AvArgs :=
  mkAvArgs None None None None None None (Some 35%Q) (Some (-106)%Q) minradius maxradius.

(** A radius search around a point on the equator, half a degree from
    the buoy. *)
Definition near_buoy (minradius maxradius : option Q) : AvArgs :=
  mkAvArgs None None None None None None (Some 0%Q) (Some (105 # 10)) minradius maxradius.

Definition anmo_row : Row :=
  channel_row (mkNetwork "IU" []) (mkStation "ANMO" [])
    (chan "BHZ" "00" (34946 # 1000) (-(106457 # 1000)) t2010 t2599).

Definition buoy_row : Row :=
  channel_row (mkNetwork "GE" []) (mkStation "EQTR" [])
    (chan "BHZ" "00" 0 (10 # 1) t2010 t2599).

Definition jan1 : UTCDateTime := UTC.make 2013 1 1 0 0 0.
Definition jan2 : UTCDateTime := UTC.make 2013 1 2 0 0 0.

(** The installation with the file of 2013-01-02 missing. *)
Definition without_day_2 : World :=
  installation
    (filter (fun f => negb (String.eqb f "/data/IU.ANMO.00.BHZ.2013.002.M")) files).

(** A request for IU.ANMO.00.BHZ over the window of the Concierge. *)
Definition anmo_bhz : DsArgs :=
  mkDsArgs (Some "IU") (Some "ANMO") (Some "00") (Some "BHZ")
    None None None None false false.

Definition jan4 : UTCDateTime := UTC.make 2013 1 4 0 0 0.

(** ANMO with its sensor replaced in June 2012: two epochs of one
    channel. *)
Definition t2012 : UTCDateTime := UTC.make 2012 6 1 0 0 0.

Definition two_epochs : Inventory :=
  mkInventory
    [ mkNetwork "IU"
        [ mkStation "ANMO"
            [ chan "BHZ" "00" (34946 # 1000) (-(106457 # 1000)) t2010 t2012;
              chan "BHZ" "00" (34946 # 1000) (-(106457 # 1000)) t2012 t2599 ] ] ].

Definition two_epoch_world : World :=
  {| URL_MAPPINGS := URL_MAPPINGS world;
     Client_ok := Client_ok world;
     path_exists := path_exists world;
     abspath := abspath world;
     glob := glob world;
     file_bytes := file_bytes world;
     read_inventory := fun _ => Some two_epochs;
     get_stations := fun _ => Some two_epochs;
     gps2dist_azimuth := gps2dist_azimuth world;
     kilometer2degrees := kilometer2degrees world;
     PyStream := PyStream world;
     RStream := RStream world;
     obspy_read_file := obspy_read_file world;
     obspy_read_bytes := obspy_read_bytes world;
     slice := slice world;
     get_timing_and_data_quality := get_timing_and_data_quality world;
     R_Stream := R_Stream world;
     traces_len := traces_len world;
     R_getDataselect := R_getDataselect world;
     read_events := read_events world;
     re_sub_eventid := re_sub_eventid world;
     irisseismic_getEvent := irisseismic_getEvent world |}.

Definition first_epoch_row : Row :=
  channel_row (mkNetwork "IU" []) (mkStation "ANMO" [])
    (chan "BHZ" "00" (34946 # 1000) (-(106457 # 1000)) t2010 t2012).

Definition second_epoch_row : Row :=
  channel_row (mkNetwork "IU" []) (mkStation "ANMO" [])
    (chan "BHZ" "00" (34946 # 1000) (-(106457 # 1000)) t2012 t2599).

Definition kbs_row : Row :=
  channel_row (mkNetwork "GE" []) (mkStation "KBS" [])
    (chan "BHZ" "10" (78915 # 1000) (11938 # 1000) t2010 t2599).

(** A temporary station at a given point. *)
Definition station_at (lat lon : Q) : Row :=
  channel_row (mkNetwork "XX" []) (mkStation "TEMP" [])
    (chan "BHZ" "00" lat lon t2010 t2599).

(** A call that overrides network, station and location with the star. *)
Definition star_args : AvArgs :=
  mkAvArgs (Some "*") (Some "*") (Some "*") None None None None None None None.

(** A catalog with one event below the default magnitude, at the surface. *)
Definition small_and_large : list Event :=
  [ mkEvent "smi:local/eventid=4" (UTC.make 2013 1 1 3 0 0) 10 20 0 "MW" (48 # 10) "D";
    mkEvent "smi:local/eventid=5" (UTC.make 2013 1 1 9 0 0) 10 20 10000 "MW" (61 # 10) "E" ].

Definition small_and_large_world : World :=
  {| URL_MAPPINGS := URL_MAPPINGS world;
     Client_ok := Client_ok world;
     path_exists := path_exists world;
     abspath := abspath world;
     glob := glob world;
     file_bytes := file_bytes world;
     read_inventory := read_inventory world;
     get_stations := get_stations world;
     gps2dist_azimuth := gps2dist_azimuth world;
     kilometer2degrees := kilometer2degrees world;
     PyStream := PyStream world;
     RStream := RStream world;
     obspy_read_file := obspy_read_file world;
     obspy_read_bytes := obspy_read_bytes world;
     slice := slice world;
     get_timing_and_data_quality := get_timing_and_data_quality world;
     R_Stream := R_Stream world;
     traces_len := traces_len world;
     R_getDataselect := R_getDataselect world;
     read_events := fun _ => Some small_and_large;
     re_sub_eventid := re_sub_eventid world;
     irisseismic_getEvent := irisseismic_getEvent world |}.

(** A call of [get_event] that passes no argument. *)
Definition no_keywords : EvCall := mkEvCall None None None None None None None.

End Demo.

(* ================================================================== *)
(** ** Basic facts                                                     *)
(* ================================================================== *)

Lemma key_eqb_spec (k1 k2 : string * string) : reflect (k1 = k2) (key_eqb k1 k2).
Proof.
  destruct k1 as [a1 b1], k2 as [a2 b2]. unfold key_eqb. simpl.
  destruct (String.eqb_spec a1 a2) as [Ha | Ha]; simpl.
  - destruct (String.eqb_spec b1 b2) as [Hb | Hb]; constructor; congruence.
  - constructor. congruence.
Qed.

Lemma key_eqb_refl (k : string * string) : key_eqb k k = true.
Proof. destruct (key_eqb_spec k k); congruence. Qed.

Lemma key_eqb_sym (k1 k2 : string * string) : key_eqb k1 k2 = key_eqb k2 k1.
Proof.
  destruct (key_eqb_spec k1 k2), (key_eqb_spec k2 k1); congruence.
Qed.

Lemma existsb_key_in (k : string * string) (seen : list (string * string)) :
  existsb (key_eqb k) seen = true <-> In k seen.
Proof.
  rewrite existsb_exists. split.
  - intros [x [Hin Heq]]. destruct (key_eqb_spec k x); congruence.
  - intros Hin. exists k. split; [assumption | apply key_eqb_refl].
Qed.

(** *** Facts about [drop_duplicates] *)

Lemma drop_duplicates_from_incl (df : DataFrame) :
  forall seen r, In r (drop_duplicates_from seen df) -> In r df.
Proof.
  induction df as [| x df IH]; intros seen r Hin; simpl in *.
  - assumption.
  - destruct (existsb (key_eqb (dedup_key x)) seen).
    + right. eapply IH; eassumption.
    + destruct Hin as [-> | Hin]; [now left | right; eapply IH; eassumption].
Qed.

Lemma drop_duplicates_from_count (k : string * string) (df : DataFrame) :
  forall seen,
    count_key k (drop_duplicates_from seen df) =
    if existsb (key_eqb k) seen then 0%nat
    else if has_key k df then 1%nat else 0%nat.
Proof.
  induction df as [| x df IH]; intros seen; simpl.
  - destruct (existsb (key_eqb k) seen); reflexivity.
  - destruct (existsb (key_eqb (dedup_key x)) seen) eqn:Hx.
    + rewrite IH. destruct (existsb (key_eqb k) seen) eqn:Hk; [reflexivity |].
      destruct (key_eqb_spec (dedup_key x) k) as [Heq | Hne]; [| reflexivity].
      rewrite Heq in Hx. congruence.
    + unfold count_key in *. simpl.
      destruct (key_eqb_spec (dedup_key x) k) as [Heq | Hne]; simpl.
      * rewrite IH. simpl. rewrite <- Heq, key_eqb_refl. simpl.
        rewrite Hx. reflexivity.
      * rewrite IH. simpl.
        destruct (key_eqb_spec k (dedup_key x)); [congruence |]. reflexivity.
Qed.

Lemma drop_duplicates_nil_iff (df : DataFrame) : drop_duplicates df = [] <-> df = [].
Proof.
  split; [| intros ->; reflexivity].
  destruct df as [| x df]; [reflexivity |]. unfold drop_duplicates. simpl. discriminate.
Qed.



Lemma drop_duplicates_from_app (f g : DataFrame) :
  forall seen,
    drop_duplicates_from seen (f ++ g)%list
    = (drop_duplicates_from seen f ++ drop_duplicates_from (seen_after seen f) g)%list.
Proof.
  induction f as [| r f IH]; intros seen; simpl; [reflexivity |].
  destruct (existsb (key_eqb (dedup_key r)) seen); simpl; rewrite IH; reflexivity.
Qed.



(** *** Facts about [merge_availability] and [get_availability] *)

Lemma merge_availability_some (st : Concierge) (frames : list DataFrame) (av : DataFrame) :
  snd (merge_availability st frames) = Ok (Some av) ->
  av = drop_duplicates (List.concat frames) /\ av <> [].
Proof.
  unfold merge_availability. destruct frames as [| f frames]; simpl; [discriminate |].
  destruct (drop_duplicates (f ++ List.concat frames)%list) eqn:E; simpl; [discriminate |].
  intros H. injection H as <-. split; [reflexivity | discriminate].
Qed.

Lemma merge_availability_never_raises (st : Concierge) (frames : list DataFrame) (e : exn) :
  snd (merge_availability st frames) <> Raise e.
Proof.
  unfold merge_availability. destruct frames as [| f frames]; simpl; [discriminate |].
  destruct (drop_duplicates (f ++ List.concat frames)%list); simpl; discriminate.
Qed.

Lemma merge_availability_result (st st' : Concierge) (frames : list DataFrame) :
  snd (merge_availability st' frames) = snd (merge_availability st frames).
Proof.
  unfold merge_availability. destruct frames as [| f frames]; [reflexivity |].
  destruct (drop_duplicates (List.concat (f :: frames))); reflexivity.
Qed.

Lemma get_availability_unfold (w : World) (st : Concierge) (a : AvArgs) :
  get_availability w st a =
  match frames_of w st a with
  | Raise e => (fst (build_local_availability w st a), Raise e)
  | Ok frames => merge_availability (fst (build_local_availability w st a)) frames
  end.
Proof.
  unfold get_availability, frames_of.
  destruct (build_local_availability w st a) as [st1 [u | e]]; simpl; [| reflexivity].
  destruct (pattern_loop w st1 a 0 [] (sncl_patterns st1)); reflexivity.
Qed.

Lemma build_local_availability_cached (w : World) (st : Concierge) (a : AvArgs)
    (cat : DataFrame) :
  availability st = Some cat -> build_local_availability w st a = (st, Ok tt).
Proof.
  intros Hav. unfold build_local_availability. rewrite Hav.
  destruct (station_client st); reflexivity.
Qed.

Lemma merge_availability_keeps_catalog (st : Concierge) (frames : list DataFrame) :
  availability (fst (merge_availability st frames)) = availability st
  /\ station_client (fst (merge_availability st frames)) = station_client st.
Proof.
  unfold merge_availability. destruct frames as [| f frames]; simpl; [split; reflexivity |].
  destruct (drop_duplicates (f ++ List.concat frames)%list); simpl; split; reflexivity.
Qed.

(** The pattern loop only ever appends frames that have rows. *)
Lemma pattern_loop_nonempty (w : World) (st : Concierge) (a : AvArgs) (patterns : list string) :
  forall n acc frames,
    pattern_loop w st a n acc patterns = Ok frames ->
    Forall (fun df => df <> []) acc ->
    Forall (fun df => df <> []) frames.
Proof.
  induction patterns as [| p rest IH]; intros n acc frames Hloop Hacc; simpl in Hloop.
  - injection Hloop as <-. assumption.
  - destruct (is_star (a_network a) && is_star (a_station a) && is_star (a_location a)
              && (1 <? n + 1)).
    + eapply IH; eassumption.
    + destruct (pattern_frame w st a p) as [[[| r df] |] | e]; try discriminate.
      * eapply IH; eassumption.
      * eapply IH; [eassumption |].
        apply Forall_app. split; [assumption |]. constructor; [discriminate | constructor].
      * eapply IH; eassumption.
Qed.

Lemma concat_nonempty (frames : list DataFrame) :
  frames <> [] -> Forall (fun df => df <> []) frames -> List.concat frames <> [].
Proof.
  destruct frames as [| f frames]; [congruence |].
  intros _ Hall. inversion Hall as [| ? ? Hf _]; subst.
  destruct f; [congruence |]. simpl. discriminate.
Qed.

(** With the three wildcard overrides, every pass after the first is
    skipped. *)
Lemma pattern_loop_suppressed (w : World) (st : Concierge) (a : AvArgs) (patterns : list string) :
  is_star (a_network a) = true -> is_star (a_station a) = true ->
  is_star (a_location a) = true ->
  forall n acc, 1 <= n -> pattern_loop w st a n acc patterns = Ok acc.
Proof.
  intros Hn Hs Hl. induction patterns as [| p rest IH]; intros n acc Hge; simpl.
  - reflexivity.
  - rewrite Hn, Hs, Hl. simpl.
    destruct (Z.ltb_spec 1 (n + 1)); [| lia].
    apply IH. lia.
Qed.

(** *** No path of [get_availability] raises [NoAvailableDataError] *)

Lemma quiet_ok {A : Type} (x : A) : quiet (Ok x).
Proof. intros e H. discriminate. Qed.

Lemma quiet_bind {A B : Type} (r : result A) (k : A -> result B) :
  quiet r -> (forall x, quiet (k x)) -> quiet (bind r k).
Proof.
  intros Hr Hk e. destruct r as [x | e']; simpl.
  - apply Hk.
  - intros H. injection H as <-. apply Hr. reflexivity.
Qed.

Lemma quiet_regex {A : Type} (o : option A) : quiet (regex o).
Proof. destruct o; intros e H; [discriminate | injection H as <-; reflexivity]. Qed.

Lemma quiet_external {A : Type} (o : option A) : quiet (external o).
Proof. destruct o; intros e H; [discriminate | injection H as <-; reflexivity]. Qed.

Lemma quiet_str_contains (pat : string) (df : DataFrame) : quiet (str_contains pat df).
Proof.
  unfold str_contains. apply quiet_bind; [apply quiet_regex | intros; apply quiet_ok].
Qed.

Lemma quiet_filterM {A : Type} (f : A -> result bool) (l : list A) :
  (forall x, quiet (f x)) -> quiet (filterM f l).
Proof.
  intros Hf. induction l as [| x l IH]; simpl; [apply quiet_ok |].
  apply quiet_bind; [apply Hf | intros b].
  apply quiet_bind; [apply IH | intros; apply quiet_ok].
Qed.

Lemma quiet_parse_sncl_pattern (p : string) : quiet (parse_sncl_pattern p).
Proof.
  unfold parse_sncl_pattern. intros e.
  destruct (PyStr.split "." p) as [| ? [| ? [| ? [| ? [| ? ?]]]]];
    intros H; try discriminate; injection H as <-; reflexivity.
Qed.

Lemma quiet_file_sncl (f : string) : quiet (file_sncl f).
Proof.
  unfold file_sncl. intros e.
  destruct (PyStr.last_item (PyStr.split "/" f)) as [b |];
    [| intros H; injection H as <-; reflexivity].
  destruct (PyStr.split "." b) as [| ? [| ? [| ? [| ? ?]]]];
    intros H; try discriminate; injection H as <-; reflexivity.
Qed.

Lemma quiet_basename_sncl (f : string) : quiet (basename_sncl f).
Proof.
  unfold basename_sncl. intros e.
  destruct (PyStr.last_item (PyStr.split "/" f)) as [b |];
    [| intros H; injection H as <-; reflexivity].
  destruct (PyStr.split "." b) as [| ? [| ? [| ? [| ? ?]]]];
    intros H; try discriminate; injection H as <-; reflexivity.
Qed.

Lemma quiet_add_local_files (files : list string) :
  forall df, quiet (snd (add_local_files df files)).
Proof.
  induction files as [| f rest IH]; intros df; simpl; [apply quiet_ok |].
  destruct (file_sncl f) as [[[[n s] l] c] | e] eqn:Ef; simpl.
  - destruct (str_contains (join_sncl n s l c) df) as [hits | e] eqn:Ec; simpl.
    + destruct (existsb (fun b => b) hits); apply IH.
    + intros e' H. injection H as <-. eapply quiet_str_contains; eassumption.
  - intros e' H. injection H as <-. eapply quiet_file_sncl; eassumption.
Qed.

Lemma quiet_build_patterns (w : World) (st : Concierge) (a : AvArgs) (t : UTCDateTime)
    (patterns : list string) :
  forall df stored, quiet (snd (build_patterns w st a t df stored patterns)).
Proof.
  induction patterns as [| p rest IH]; intros df stored; cbn [build_patterns];
    [apply quiet_ok |].
  destruct (parse_sncl_pattern p) as [[[[n s] l] c] | e] eqn:Ep; cbn [snd].
  - destruct (dataselect_client st); [apply IH |].
    destruct (glob w _) as [| f fs] eqn:Eg; [apply IH |].
    pose proof (quiet_add_local_files (f :: fs) df) as Hq.
    destruct (add_local_files df (f :: fs)) as [df' [u | e]]; cbn [snd] in *.
    + apply IH.
    + assumption.
  - intros e' H. injection H as <-. eapply quiet_parse_sncl_pattern; eassumption.
Qed.

Lemma quiet_build_local_availability (w : World) (st : Concierge) (a : AvArgs) :
  quiet (snd (build_local_availability w st a)).
Proof.
  unfold build_local_availability.
  destruct (station_client st); [apply quiet_ok |].
  destruct (availability st); [apply quiet_ok |].
  unfold read_station_metadata.
  destruct (station_url st) as [url |].
  - destruct (read_inventory w url) as [inv |]; simpl.
    + match goal with
      | |- context [build_patterns ?w ?st ?a ?t ?df ?b ?ps] =>
          pose proof (quiet_build_patterns w st a t ps df b) as Hq;
          destruct (build_patterns w st a t df b ps) as [[df' stored] r]
      end.
      assumption.
    + intros e H. injection H as <-. reflexivity.
  - simpl.
    match goal with
    | |- context [build_patterns ?w ?st ?a ?t ?df ?b ?ps] =>
        pose proof (quiet_build_patterns w st a t ps df b) as Hq;
        destruct (build_patterns w st a t df b ps) as [[df' stored] r]
    end.
    assumption.
Qed.

Lemma quiet_files_mask (df : DataFrame) (files : list string) :
  forall mask, quiet (files_mask df mask files).
Proof.
  induction files as [| f rest IH]; intros mask; simpl; [apply quiet_ok |].
  apply quiet_bind; [apply quiet_basename_sncl | intros sncl].
  apply quiet_bind; [apply quiet_str_contains | intros hits]. apply IH.
Qed.

Lemma quiet_radius_keep (w : World) (a : AvArgs) (r : Row) : quiet (radius_keep w a r).
Proof.
  unfold radius_keep.
  destruct (truthy_cell (latitude r) && truthy_cell (longitude r)); [| apply quiet_ok].
  destruct (latitude r) as [[qlat |] |], (longitude r) as [[qlon |] |];
    simpl; try apply quiet_ok.
  apply quiet_bind; [| intros; apply quiet_ok].
  unfold distance_degrees.
  destruct (a_latitude a), (a_longitude a);
    try (intros e H; injection H as <-; reflexivity).
  apply quiet_bind; [apply quiet_external | intros; apply quiet_ok].
Qed.

Lemma quiet_pattern_frame (w : World) (st : Concierge) (a : AvArgs) (p : string) :
  quiet (pattern_frame w st a p).
Proof.
  unfold pattern_frame.
  apply quiet_bind; [apply quiet_parse_sncl_pattern | intros [[[n s] l] c]].
  match goal with |- quiet (match ?src with _ => _ end) => destruct src as [df |] end;
    [| apply quiet_ok].
  apply quiet_bind.
  { unfold subset_by_pattern.
    apply quiet_bind; [apply quiet_str_contains | intros; apply quiet_ok]. }
  intros df1. apply quiet_bind.
  { unfold subset_by_local_files.
    destruct (dataselect_client st); [apply quiet_ok |].
    destruct (glob w _); [apply quiet_ok |].
    apply quiet_bind; [apply quiet_str_contains | intros mask0].
    apply quiet_bind; [apply quiet_files_mask | intros; apply quiet_ok]. }
  intros [df2 |]; [| apply quiet_ok].
  apply quiet_bind; [| intros; apply quiet_ok].
  unfold subset_by_distance.
  destruct (is_some (a_maxradius a) || is_some (a_minradius a)); [| apply quiet_ok].
  apply quiet_filterM. intros r. apply quiet_radius_keep.
Qed.

Lemma quiet_pattern_loop (w : World) (st : Concierge) (a : AvArgs) (patterns : list string) :
  forall n acc, quiet (pattern_loop w st a n acc patterns).
Proof.
  induction patterns as [| p rest IH]; intros n acc; simpl; [apply quiet_ok |].
  destruct (is_star (a_network a) && is_star (a_station a) && is_star (a_location a)
            && (1 <? n + 1)); [apply IH |].
  destruct (pattern_frame w st a p) as [[[| r df] |] | e] eqn:Ef; try apply IH.
  intros e' H. injection H as <-. eapply quiet_pattern_frame; eassumption.
Qed.

Lemma quiet_frames_of (w : World) (st : Concierge) (a : AvArgs) : quiet (frames_of w st a).
Proof.
  unfold frames_of.
  pose proof (quiet_build_local_availability w st a) as Hb.
  destruct (snd (build_local_availability w st a)) as [u | e].
  - apply quiet_pattern_loop.
  - intros e' H. injection H as <-. apply Hb. reflexivity.
Qed.

Lemma frames_of_nonempty (w : World) (st : Concierge) (a : AvArgs) (frames : list DataFrame) :
  frames_of w st a = Ok frames -> Forall (fun df => df <> []) frames.
Proof.
  unfold frames_of. destruct (snd (build_local_availability w st a)); [| discriminate].
  intros H. eapply pattern_loop_nonempty; [eassumption | constructor].
Qed.

(** *** Facts about the radius filter *)

Lemma filterM_In {A : Type} (f : A -> result bool) (l : list A) :
  forall l', filterM f l = Ok l' ->
  forall x, In x l' <-> In x l /\ f x = Ok true.
Proof.
  induction l as [| y l IH]; intros l' H x; simpl in H.
  - injection H as <-. simpl. tauto.
  - destruct (f y) as [b |] eqn:Ey; simpl in H; [| discriminate].
    destruct (filterM f l) as [rest |] eqn:Er; simpl in H; [| discriminate].
    injection H as <-. specialize (IH rest eq_refl x).
    destruct b; simpl; split.
    + intros [Heq | Hin].
      * subst y. split; [left; reflexivity | assumption].
      * apply IH in Hin. destruct Hin as [Hin Hx]. split; [right |]; assumption.
    + intros [[Heq | Hin] Hx]; [left; assumption |].
      right. apply IH. split; assumption.
    + intros Hin. apply IH in Hin. destruct Hin as [Hin Hx]. split; [right |]; assumption.
    + intros [[Heq | Hin] Hx]; [subst y; congruence |].
      apply IH. split; assumption.
Qed.

Lemma within_radius_iff (a : AvArgs) (d : Q) :
  is_some (a_maxradius a) || is_some (a_minradius a) = true ->
  (0 <= d)%Q ->
  (within_radius a d = true <-> in_radius_interval a d).
Proof.
  intros Hsup Hd. unfold within_radius, in_radius_interval.
  assert (Habs : (Qabs d == d)%Q) by (apply Qabs_pos; assumption).
  destruct (a_minradius a) as [mn |], (a_maxradius a) as [mx |]; simpl in Hsup.
  - rewrite andb_true_iff, !Qle_bool_iff, Habs. split.
    + intros [H1 H2]. split; intros ? E; injection E as <-; assumption.
    + intros [H1 H2]. split; [apply H2 | apply H1]; reflexivity.
  - rewrite Qle_bool_iff, Habs. split.
    + intros H. split; intros ? E; [injection E as <-; assumption | discriminate].
    + intros [H1 _]. apply H1. reflexivity.
  - rewrite Qle_bool_iff, Habs. split.
    + intros H. split; intros ? E; [discriminate | injection E as <-; assumption].
    + intros [_ H2]. apply H2. reflexivity.
  - discriminate.
Qed.

Lemma radius_keep_finite (w : World) (a : AvArgs) (r : Row) (qlat qlon d : Q) :
  latitude r = Some (Fin qlat) -> longitude r = Some (Fin qlon) ->
  ~ (qlat == 0)%Q -> ~ (qlon == 0)%Q ->
  distance_degrees w a qlat qlon = Ok d ->
  radius_keep w a r = Ok (within_radius a d).
Proof.
  intros Hlat Hlon Hz1 Hz2 Hd. unfold radius_keep. rewrite Hlat, Hlon. simpl.
  destruct (Qeq_bool qlat 0) eqn:E1; [apply Qeq_bool_iff in E1; contradiction |].
  destruct (Qeq_bool qlon 0) eqn:E2; [apply Qeq_bool_iff in E2; contradiction |].
  simpl. rewrite Hd. reflexivity.
Qed.

Lemma zero_or_missing_falsy (c : option pyfloat) : zero_or_missing c -> truthy_cell c = false.
Proof.
  intros [-> | [q [-> Hq]]]; simpl; [reflexivity |].
  apply Qeq_bool_iff in Hq. rewrite Hq. reflexivity.
Qed.

(** *** Facts about the translation of patterns (line 494) *)

Lemma str_app_assoc (s t u : string) : (s ++ t) ++ u = s ++ (t ++ u).
Proof. induction s as [| a s IH]; simpl; [reflexivity | rewrite IH; reflexivity]. Qed.

Lemma replace_app c by_ s t :
  PyStr.replace c by_ (s ++ t) = PyStr.replace c by_ s ++ PyStr.replace c by_ t.
Proof.
  induction s as [| a s IH]; simpl; [reflexivity |].
  destruct (Ascii.eqb a c); rewrite IH.
  - rewrite str_app_assoc. reflexivity. 
  - reflexivity.
Qed.

Lemma py_pattern_of_cons c p :
  py_pattern_of (String c p) = piece c ++ py_pattern_of p.
Proof.
  unfold py_pattern_of, piece.
  change (String c p) with (String c EmptyString ++ p).
  rewrite !replace_app.
  f_equal.
  destruct (Ascii.eqb_spec c "."); [subst; reflexivity |].
  destruct (Ascii.eqb_spec c "*"); [subst; reflexivity |].
  destruct (Ascii.eqb_spec c "?"); [subst; reflexivity |].
  simpl.
  destruct (Ascii.eqb_spec c "."); [contradiction |]. simpl.
  destruct (Ascii.eqb_spec c "*"); [contradiction |]. simpl.
  destruct (Ascii.eqb_spec c "?"); [contradiction |]. reflexivity.
Qed.

Lemma py_pattern_of_no_leading_star p : starts_with_star (py_pattern_of p) = false.
Proof.
  destruct p as [| c p]; [reflexivity |].
  rewrite py_pattern_of_cons. unfold piece.
  destruct (Ascii.eqb_spec c "."); [reflexivity |].
  destruct (Ascii.eqb_spec c "*"); [reflexivity |].
  destruct (Ascii.eqb_spec c "?"); [reflexivity |].
  simpl. destruct (Ascii.eqb_spec c "*"); [contradiction | reflexivity].
Qed.

Lemma compile_dot (r : string) :
  starts_with_star r = false ->
  Re.compile (String "." r) = option_map (cons Re.Any) (Re.compile r).
Proof.
  destruct r as [| a r]; [reflexivity |].
  intros H. simpl in H.
  destruct a as [[] [] [] [] [] [] [] []]; try reflexivity; discriminate H.
Qed.

Lemma compile_py_pattern p :
  all_chars pattern_char p = true ->
  Re.compile (py_pattern_of p) = Some (toks_of p).
Proof.
  induction p as [| c p IH]; [reflexivity |].
  simpl. intros H. apply andb_true_iff in H. destruct H as [Hc Hp].
  specialize (IH Hp). rewrite py_pattern_of_cons.
  unfold piece, tok_of, pattern_char in *.
  destruct (Ascii.eqb_spec c ".") as [-> | Hdot].
  { simpl. rewrite IH. reflexivity. }
  destruct (Ascii.eqb_spec c "*") as [-> | Hstar].
  { simpl. rewrite IH. reflexivity. }
  destruct (Ascii.eqb_spec c "?") as [-> | Hqm].
  { change ("." ++ py_pattern_of p) with (String "." (py_pattern_of p)).
    rewrite compile_dot by apply py_pattern_of_no_leading_star.
    rewrite IH. reflexivity. }
  simpl in Hc. apply negb_true_iff in Hc.
  change (String c "" ++ py_pattern_of p) with (String c (py_pattern_of p)).
  cbn [Re.compile]. rewrite Hc.
  destruct (Ascii.eqb_spec c "\") as [-> | _]; [discriminate Hc |].
  destruct (Ascii.eqb_spec c ".") as [-> | _]; [discriminate Hc |].
  rewrite IH. reflexivity.
Qed.

Lemma wildcard_star (p s : string) :
  wildcard_match (String "*" p) s
  = wildcard_match p s
    || match s with
       | String _ s' => wildcard_match (String "*" p) s'
       | EmptyString => false
       end.
Proof. destruct s; reflexivity. Qed.

Lemma wildcard_question (p s : string) :
  wildcard_match (String "?" p) s
  = match s with
    | String _ s' => wildcard_match p s'
    | EmptyString => false
    end.
Proof. reflexivity. Qed.

Lemma wildcard_literal (c : ascii) (p s : string) :
  c <> "*"%char -> c <> "?"%char ->
  wildcard_match (String c p) s
  = match s with
    | String a s' => Ascii.eqb a c && wildcard_match p s'
    | EmptyString => false
    end.
Proof.
  intros H1 H2. simpl.
  destruct (Ascii.eqb_spec c "*"); [contradiction |].
  destruct (Ascii.eqb_spec c "?"); [contradiction |]. reflexivity.
Qed.

Lemma match_here_star (p : list Re.tok) (s : string) :
  Re.match_here (Re.AnyStar :: p) s
  = Re.match_here p s
    || match s with
       | String a s' => Re.dot_ok a && Re.match_here (Re.AnyStar :: p) s'
       | EmptyString => false
       end.
Proof. destruct s; reflexivity. Qed.

(** An anchored wildcard match is in particular a match of the
    translated pattern at the first character. *)
Lemma wildcard_match_here (p : string) :
  forall s, all_chars Re.dot_ok s = true ->
            wildcard_match p s = true -> Re.match_here (toks_of p) s = true.
Proof.
  induction p as [| c p IH]; intros s Hs Hm; [reflexivity |].
  cbn [toks_of]. unfold tok_of.
  destruct (Ascii.eqb_spec c "*") as [-> | Hstar].
  - induction s as [| a s IHs].
    + rewrite wildcard_star in Hm. rewrite match_here_star.
      rewrite orb_false_r in *. apply IH; assumption.
    + rewrite wildcard_star in Hm. rewrite match_here_star.
      simpl in Hs. apply andb_true_iff in Hs. destruct Hs as [Ha Hs].
      apply orb_true_iff in Hm. destruct Hm as [Hm | Hm].
      * rewrite IH; [reflexivity | simpl; rewrite Ha, Hs; reflexivity | assumption].
      * rewrite Ha, (IHs Hs Hm). apply orb_true_r.
  - destruct (Ascii.eqb_spec c "?") as [-> | Hqm].
    + rewrite wildcard_question in Hm. destruct s as [| a s]; [discriminate |].
      simpl in Hs. apply andb_true_iff in Hs. destruct Hs as [Ha Hs].
      cbn [Re.match_here]. rewrite Ha. apply IH; assumption.
    + rewrite wildcard_literal in Hm by assumption.
      destruct s as [| a s]; [discriminate |].
      simpl in Hs. apply andb_true_iff in Hs. destruct Hs as [Ha Hs].
      apply andb_true_iff in Hm. destruct Hm as [Hac Hm].
      cbn [Re.match_here]. rewrite Hac. apply IH; assumption.
Qed.

Lemma wildcard_match_nil (s : string) : wildcard_match "" s = true -> s = "".
Proof. destruct s; [reflexivity | discriminate]. Qed.

(** Matching concatenates: this lifts the four component matches to the
    dot-joined strings. *)
Lemma wildcard_match_app (p q : string) :
  forall s t, wildcard_match p s = true -> wildcard_match q t = true ->
              wildcard_match (p ++ q) (s ++ t) = true.
Proof.
  induction p as [| c p IH]; intros s t Hp Hq.
  - apply wildcard_match_nil in Hp. subst s. assumption.
  - change (String c p ++ q) with (String c (p ++ q)).
    destruct (Ascii.eqb_spec c "*") as [-> | Hstar].
    + induction s as [| a s IHs].
      * rewrite wildcard_star in Hp. rewrite orb_false_r in Hp.
        rewrite wildcard_star. rewrite (IH "" t Hp Hq). reflexivity.
      * rewrite wildcard_star in Hp.
        change (String a s ++ t) with (String a (s ++ t)).
        rewrite wildcard_star.
        apply orb_true_iff in Hp. destruct Hp as [Hp | Hp].
        -- change (String a (s ++ t)) with (String a s ++ t).
           rewrite (IH _ t Hp Hq). reflexivity.
        -- rewrite (IHs Hp). apply orb_true_r.
    + destruct (Ascii.eqb_spec c "?") as [-> | Hqm].
      * rewrite wildcard_question in Hp. destruct s as [| a s]; [discriminate |].
        change (String a s ++ t) with (String a (s ++ t)).
        rewrite wildcard_question. apply IH; assumption.
      * rewrite wildcard_literal in Hp by assumption.
        destruct s as [| a s]; [discriminate |].
        apply andb_true_iff in Hp. destruct Hp as [Hac Hp].
        change (String a s ++ t) with (String a (s ++ t)).
        rewrite wildcard_literal by assumption.
        rewrite Hac. apply IH; assumption.
Qed.

Lemma split_nonempty (sep : ascii) (s : string) : PyStr.split sep s <> [].
Proof.
  destruct s as [| c s]; simpl; [discriminate |].
  destruct (Ascii.eqb c sep); [discriminate |].
  destruct (PyStr.split sep s); discriminate.
Qed.

(** [sep.join(s.split(sep)) == s] *)
Lemma join_split (sep : ascii) (s : string) :
  String.concat (String sep "") (PyStr.split sep s) = s.
Proof.
  induction s as [| c s IH]; [reflexivity |].
  simpl. pose proof (split_nonempty sep s) as Hne.
  destruct (Ascii.eqb_spec c sep) as [-> | Hc].
  - destruct (PyStr.split sep s) as [| h t]; [congruence |].
    simpl in *. rewrite IH. reflexivity.
  - destruct (PyStr.split sep s) as [| h t]; [congruence |].
    simpl in *. destruct t; simpl in *; rewrite <- IH; reflexivity.
Qed.

Lemma spec_match_whole (P I : string) :
  spec_match P I = true -> wildcard_match P I = true.
Proof.
  unfold spec_match. intros H.
  rewrite <- (join_split "." P), <- (join_split "." I).
  destruct (PyStr.split "." P) as [| p1 [| p2 [| p3 [| p4 [| ? ?]]]]]; try discriminate.
  destruct (PyStr.split "." I) as [| i1 [| i2 [| i3 [| i4 [| ? ?]]]]]; try discriminate.
  apply andb_true_iff in H. destruct H as [H H4].
  apply andb_true_iff in H. destruct H as [H H3].
  apply andb_true_iff in H. destruct H as [H1 H2].
  simpl.
  repeat (apply wildcard_match_app;
          [assumption || reflexivity |]); try assumption.
Qed.

(** X18.  The direction of the pattern-matching requirement that the code
    does satisfy for the patterns of a preference file: when the pattern
    is made of dots, the wildcards [*] and [?] and characters that are no
    regular-expression metacharacters, and the identifier has no newline,
    an identifier that matches the pattern under the anchored wildcard
    semantics is retained by the subsetting of lines 492-497. *)
Lemma anchored_match_is_retained (P : string) (r : Row) :
  all_chars pattern_char P = true ->
  all_chars Re.dot_ok (snclId r) = true ->
  spec_match P (snclId r) = true ->
  subset_by_pattern P [r] = Ok [r].
Proof.
  intros HP HI Hm. unfold subset_by_pattern, str_contains.
  rewrite (compile_py_pattern P HP). simpl.
  assert (Hs : Re.search_toks (toks_of P) (snclId r) = true).
  { pose proof (wildcard_match_here P _ HI (spec_match_whole _ _ Hm)) as Hh.
    destruct (snclId r); simpl; rewrite Hh; reflexivity. }
  rewrite Hs. reflexivity.
Qed.

(** *** The start time as a string determines the start time *)

Lemma days_from_civil_from_days (n : Z) :
  let '(y, m, d) := civil_from_days n in
  days_from_civil y m d = n /\ 1 <= m <= 12 /\ 1 <= d <= 31.
Proof.
  unfold civil_from_days, days_from_civil.
  set (z := n + 719468).
  set (era := z / 146097).
  set (doe := z - era * 146097).
  set (yoe := (doe - doe / 1460 + doe / 36524 - doe / 146096) / 365).
  set (doy := doe - (365 * yoe + yoe / 4 - yoe / 100)).
  set (mp := (5 * doy + 2) / 153).
  assert (Hdoe : 0 <= doe < 146097) by (unfold doe, era; Z.div_mod_to_equations; lia).
  assert (Hyoe : 0 <= yoe < 400) by (unfold yoe; Z.div_mod_to_equations; lia).
  assert (Hdoy : 0 <= doy < 366) by (unfold doy, yoe; Z.div_mod_to_equations; lia).
  assert (Hmp : 0 <= mp < 12) by (unfold mp; Z.div_mod_to_equations; lia).
  assert (Hd : 1 <= doy - (153 * mp + 2) / 5 + 1 <= 31)
    by (unfold mp; Z.div_mod_to_equations; lia).
  cbv zeta.
  destruct (Z.ltb_spec mp 10).
  - destruct (Z.leb_spec (mp + 3) 2); [lia |].
    destruct (Z.ltb_spec 2 (mp + 3)); [| lia].
    split; [| lia].
    replace (yoe + era * 400 + 0) with (era * 400 + yoe) by lia.
    replace ((era * 400 + yoe) / 400) with era by (Z.div_mod_to_equations; lia).
    replace (mp + 3 - 3) with mp by lia.
    replace (era * 400 + yoe - era * 400) with yoe by lia.
    unfold doy, doe, z. lia.
  - destruct (Z.leb_spec (mp - 9) 2); [| lia].
    destruct (Z.ltb_spec 2 (mp - 9)); [lia |].
    split; [| lia].
    replace (yoe + era * 400 + 1 - 1) with (era * 400 + yoe) by lia.
    replace ((era * 400 + yoe) / 400) with era by (Z.div_mod_to_equations; lia).
    replace (mp - 9 + 9) with mp by lia.
    replace (era * 400 + yoe - era * 400) with yoe by lia.
    unfold doy, doe, z. lia.
Qed.

Lemma str_length_app (s t : string) :
  String.length (s ++ t) = (String.length s + String.length t)%nat.
Proof. induction s as [| a s IH]; simpl; [reflexivity | rewrite IH; reflexivity]. Qed.

Lemma zpad_length (w : nat) (n : Z) : String.length (PyStr.zpad w n) = w.
Proof.
  revert n. induction w as [| w IH]; intros n; simpl; [reflexivity |].
  rewrite str_length_app, IH. simpl. lia.
Qed.

Lemma append_inj (s1 s2 t1 t2 : string) :
  String.length s1 = String.length s2 -> s1 ++ t1 = s2 ++ t2 -> s1 = s2 /\ t1 = t2.
Proof.
  revert s2. induction s1 as [| a s1 IH]; intros [| b s2] Hlen H; simpl in *;
    try discriminate.
  - split; [reflexivity | exact H].
  - injection H as -> H. injection Hlen as Hlen.
    destruct (IH s2 Hlen H) as [-> ->]. split; reflexivity.
Qed.

Lemma digit_inj (n m : Z) : PyStr.digit n = PyStr.digit m -> n mod 10 = m mod 10.
Proof.
  unfold PyStr.digit. intros H.
  apply (f_equal nat_of_ascii) in H.
  rewrite !nat_ascii_embedding in H.
  - assert (0 <= n mod 10 < 10) by (apply Z.mod_pos_bound; lia).
    assert (0 <= m mod 10 < 10) by (apply Z.mod_pos_bound; lia). lia.
  - assert (0 <= m mod 10 < 10) by (apply Z.mod_pos_bound; lia). lia.
  - assert (0 <= n mod 10 < 10) by (apply Z.mod_pos_bound; lia). lia.
Qed.

Lemma zpad_inj (w : nat) :
  forall n m, 0 <= n < 10 ^ Z.of_nat w -> 0 <= m < 10 ^ Z.of_nat w ->
              PyStr.zpad w n = PyStr.zpad w m -> n = m.
Proof.
  induction w as [| w IH]; intros n m Hn Hm H.
  - simpl in Hn, Hm. lia.
  - rewrite Nat2Z.inj_succ, Z.pow_succ_r in Hn, Hm by lia.
    simpl in H. apply append_inj in H; [| rewrite !zpad_length; reflexivity].
    destruct H as [Hhi Hlo]. injection Hlo as Hlo. apply digit_inj in Hlo.
    assert (Hdiv : n / 10 = m / 10).
    { apply IH; [| | exact Hhi]; Z.div_mod_to_equations; lia. }
    Z.div_mod_to_equations. lia.
Qed.

(** Split an equation between two printed times at the next field. *)
Ltac peel_field H x :=
  apply append_inj in H;
  [| first [rewrite !zpad_length; reflexivity | reflexivity]];
  destruct H as [x H].

Ltac peel_separator H :=
  apply append_inj in H; [| reflexivity]; destruct H as [_ H].

Lemma time_of_fields (t : UTCDateTime) :
  t = ((days_from_civil (year t) (month t) (day t) * 86400
        + hour t * 3600 + minute t * 60 + second t) * 1000000 + microsecond t)
  /\ 1 <= month t <= 12 /\ 1 <= day t <= 31
  /\ 0 <= hour t < 24 /\ 0 <= minute t < 60 /\ 0 <= second t < 60
  /\ 0 <= microsecond t < 1000000.
Proof.
  unfold year, month, day, hour, minute, second, microsecond, usec_of_day, day_number,
    usec_per_day, usec_per_sec.
  pose proof (days_from_civil_from_days (t / (86400 * 1000000))) as H.
  destruct (civil_from_days (t / (86400 * 1000000))) as [[y m] d]. simpl.
  destruct H as (-> & Hm & Hd).
  repeat split; try lia; Z.div_mod_to_equations; lia.
Qed.

Lemma str_injective (t1 t2 : UTCDateTime) :
  0 <= year t1 <= 9999 -> 0 <= year t2 <= 9999 -> UTC.str t1 = UTC.str t2 -> t1 = t2.
Proof.
  intros Hy1 Hy2 H. unfold UTC.str in H.
  pose proof (time_of_fields t1) as (E1 & ? & ? & ? & ? & ? & ?).
  pose proof (time_of_fields t2) as (E2 & ? & ? & ? & ? & ? & ?).
  peel_field H Hy. peel_separator H. peel_field H Hmo. peel_separator H.
  peel_field H Hd. peel_separator H. peel_field H Hh. peel_separator H.
  peel_field H Hmi. peel_separator H. peel_field H Hs. peel_separator H.
  peel_field H Hus.
  apply zpad_inj in Hy; [| simpl; lia | simpl; lia].
  apply zpad_inj in Hmo; [| simpl; lia | simpl; lia].
  apply zpad_inj in Hd; [| simpl; lia | simpl; lia].
  apply zpad_inj in Hh; [| simpl; lia | simpl; lia].
  apply zpad_inj in Hmi; [| simpl; lia | simpl; lia].
  apply zpad_inj in Hs; [| simpl; lia | simpl; lia].
  apply zpad_inj in Hus; [| simpl; lia | simpl; lia].
  rewrite E1, E2. congruence.
Qed.

Lemma str_length (t : UTCDateTime) : String.length (UTC.str t) = 27%nat.
Proof.
  unfold UTC.str. rewrite !str_length_app, !zpad_length. reflexivity.
Qed.

(** [astype('str')] tells any two start times apart. *)
Lemma astype_str_injective (t1 t2 : option UTCDateTime) :
  four_digit_year t1 -> four_digit_year t2 ->
  astype_str t1 = astype_str t2 -> t1 = t2.
Proof.
  destruct t1 as [t1 |], t2 as [t2 |]; simpl; intros H1 H2 H.
  - f_equal. apply str_injective; assumption.
  - apply (f_equal String.length) in H. rewrite str_length in H. discriminate H.
  - apply (f_equal String.length) in H. rewrite str_length in H. discriminate H.
  - reflexivity.
Qed.

Lemma same_key_is_key_eqb (r x : Row) :
  same_key r x = key_eqb (dedup_key x) (dedup_key r).
Proof. reflexivity. Qed.

Lemma same_epoch_is_same_key (r x : Row) :
  four_digit_year (starttime r) -> four_digit_year (starttime x) ->
  same_epoch r x = same_key r x.
Proof.
  intros Hr Hx. unfold same_epoch, same_key. f_equal.
  destruct (String.eqb_spec (astype_str (starttime x)) (astype_str (starttime r))) as [E | E].
  - apply astype_str_injective in E; [| assumption | assumption]. rewrite E.
    destruct (starttime r); [apply Z.eqb_refl | reflexivity].
  - destruct (starttime x) as [t1 |] eqn:E1, (starttime r) as [t2 |] eqn:E2;
      try reflexivity; [| contradiction E; reflexivity].
    destruct (Z.eqb_spec t1 t2) as [-> | _]; [contradiction E; reflexivity | reflexivity].
Qed.

(* ================================================================== *)
(** ** The pattern matcher (claim C1)                                  *)
(* ================================================================== *)

(** C1.  The subsetting of lines 492-497 is a regular-expression search,
    not an anchored match: the pattern [IU.ANMO.00.BH] retains the
    identifier [IU.ANMO.00.BHZ] and so does [U.ANMO.00.BHZ], although
    neither matches it component by component; a whole call of
    [get_availability] over a local StationXML returns the row. *)
Theorem subset_by_pattern_is_unanchored :
  subset_by_pattern "IU.ANMO.00.BH" [file_row "IU" "ANMO" "00" "BHZ"]
    = Ok [file_row "IU" "ANMO" "00" "BHZ"]
  /\ spec_match "IU.ANMO.00.BH" "IU.ANMO.00.BHZ" = false
  /\ subset_by_pattern "U.ANMO.00.BHZ" [file_row "IU" "ANMO" "00" "BHZ"]
    = Ok [file_row "IU" "ANMO" "00" "BHZ"]
  /\ spec_match "U.ANMO.00.BHZ" "IU.ANMO.00.BHZ" = false
  /\ option_map (map snclId)
       match snd (get_availability Demo.world
                    (Demo.local_metadata_concierge ["IU.ANMO.00.BH"] Demo.jan1 Demo.jan2)
                    Demo.no_args) with
       | Ok x => x
       | Raise _ => None
       end
     = Some ["IU.ANMO.00.BHZ"].
Proof. repeat split; vm_compute; reflexivity. Qed.

(* ================================================================== *)
(** ** The empty result (claim C2)                                     *)
(* ================================================================== *)

(** C2, as stated, fails: with a pattern for which nothing is available
    the call returns [None] normally and raises nothing. *)
Lemma no_data_returns_None_not_raise :
  let st := Demo.local_concierge ["XX.*.*.*"] Demo.jan1 Demo.jan2 in
  frames_of Demo.world st Demo.no_args = Ok []
  /\ snd (get_availability Demo.world st Demo.no_args) = Ok None
  /\ forall msg, snd (get_availability Demo.world st Demo.no_args)
                 <> Raise (NoAvailableDataError msg).
Proof.
  repeat split; try (vm_compute; reflexivity).
  intros msg. vm_compute. discriminate.
Qed.

(** C2, amended.  [get_availability] never raises [NoAvailableDataError];
    a pattern that yields nothing adds no frame and the loop goes on; the
    call returns [None] exactly when every pattern yielded nothing, and the
    non-empty de-duplicated catalog otherwise. *)
Theorem get_availability_empty_result (w : World) (st : Concierge) (a : AvArgs)
    (frames : list DataFrame) :
  frames_of w st a = Ok frames ->
  (forall msg, snd (get_availability w st a) <> Raise (NoAvailableDataError msg))
  /\ (frames = [] <-> snd (get_availability w st a) = Ok None)
  /\ (frames <> [] ->
      snd (get_availability w st a) = Ok (Some (drop_duplicates (List.concat frames)))
      /\ drop_duplicates (List.concat frames) <> []).
Proof.
  intros Hf. pose proof (frames_of_nonempty _ _ _ Hf) as Hne.
  rewrite get_availability_unfold, Hf.
  split; [intros msg; apply merge_availability_never_raises |].
  assert (Hcat : frames <> [] -> drop_duplicates (List.concat frames) <> []).
  { intros Hnil Hd. apply (proj1 (drop_duplicates_nil_iff _)) in Hd.
    exact (concat_nonempty Hnil Hne Hd). }
  unfold merge_availability. destruct frames as [| f frames].
  - simpl. split; [tauto | congruence].
  - specialize (Hcat ltac:(discriminate)).
    destruct (drop_duplicates (List.concat (f :: frames))) as [| r av] eqn:E;
      [congruence |].
    simpl. split; [split; discriminate |]. intros _. split; [reflexivity | discriminate].
Qed.

Lemma get_availability_empty_result_witness :
  let st := Demo.local_concierge ["XX.*.*.*"; "IU.ANMO.00.BHZ"] Demo.jan1 Demo.jan2 in
  exists frames,
    frames_of Demo.world st Demo.no_args = Ok frames
    /\ frames <> []
    /\ snd (get_availability Demo.world st Demo.no_args)
       = Ok (Some (drop_duplicates (List.concat frames))).
Proof.
  intros st.
  destruct (frames_of Demo.world st Demo.no_args) as [frames | e] eqn:E;
    [| vm_compute in E; discriminate E].
  exists frames. 
  assert (Hne : frames <> []).
  { intros ->. vm_compute in E. discriminate E. }
  split; [reflexivity |]. split; [exact Hne |].
  exact (proj1 (proj2 (proj2 (get_availability_empty_result _ _ _ E)) Hne)).
Defined.

(* ================================================================== *)
(** ** De-duplication of the merged catalog (claim C5)                 *)
(* ================================================================== *)

(** C5.  The catalog returned by [get_availability] is the concatenation
    of the per-pattern frames with duplicates removed, and the key of the
    de-duplication is the pair of the identifier and the start time as a
    string: for every row [r] of the per-pattern frames the catalog has
    exactly one row with the [snclId] of [r] and the start-time string of
    [r] (so no key is lost, and of the rows that share a key one
    survives), and every row of the catalog is one of the input rows.
    The string tells start times apart: with years of four digits, the
    catalog has exactly one row with the [snclId] and the start time of
    [r], so two epochs of one channel are both kept. *)
Theorem merged_catalog_has_each_key_once (w : World) (st : Concierge) (a : AvArgs)
    (av : DataFrame) :
  snd (get_availability w st a) = Ok (Some av) ->
  exists frames,
    frames_of w st a = Ok frames
    /\ av = drop_duplicates (List.concat frames)
    /\ (forall k, count_key k av = if has_key k (List.concat frames) then 1%nat else 0%nat)
    /\ (forall r, In r av -> In r (List.concat frames))
    /\ (forall r, In r (List.concat frames) ->
          List.length (filter (same_key r) av) = 1%nat)
    /\ (Forall (fun r => four_digit_year (starttime r)) (List.concat frames) ->
        forall r, In r (List.concat frames) ->
          List.length (filter (same_epoch r) av) = 1%nat).
Proof.
  rewrite get_availability_unfold.
  destruct (frames_of w st a) as [frames | e]; [| simpl; discriminate].
  intros H. apply merge_availability_some in H. destruct H as [-> _].
  assert (Hcount : forall k,
             count_key k (drop_duplicates (List.concat frames))
             = if has_key k (List.concat frames) then 1%nat else 0%nat).
  { intros k. unfold drop_duplicates. rewrite drop_duplicates_from_count. reflexivity. }
  assert (Hincl : forall r, In r (drop_duplicates (List.concat frames)) ->
                            In r (List.concat frames)).
  { intros r. apply drop_duplicates_from_incl. }
  assert (Hkey : forall r, In r (List.concat frames) ->
             List.length (filter (same_key r) (drop_duplicates (List.concat frames))) = 1%nat).
  { intros r Hin. specialize (Hcount (dedup_key r)).
    assert (Hhas : has_key (dedup_key r) (List.concat frames) = true).
    { apply existsb_exists. exists r. split; [exact Hin | apply key_eqb_refl]. }
    rewrite Hhas in Hcount. unfold count_key in Hcount. rewrite <- Hcount.
    apply f_equal. apply filter_ext. intros x. apply same_key_is_key_eqb. }
  exists frames. split; [reflexivity |]. split; [reflexivity |].
  split; [exact Hcount |]. split; [exact Hincl |]. split; [exact Hkey |].
  intros Hyears r Hin. rewrite <- (Hkey r Hin). apply f_equal.
  apply filter_ext_in. intros x Hx. rewrite Forall_forall in Hyears.
  apply same_epoch_is_same_key; apply Hyears; [exact Hin | apply Hincl; exact Hx].
Qed.

Lemma merged_catalog_has_each_key_once_witness :
  let st := Demo.remote_concierge ["IU.*.*.BHZ"; "*.ANMO.*.*"] Demo.jan1 Demo.jan2 in
  exists frames av,
    frames_of Demo.two_epoch_world st Demo.no_args = Ok frames
    /\ List.concat frames
       = [Demo.first_epoch_row; Demo.second_epoch_row;
          Demo.first_epoch_row; Demo.second_epoch_row]
    /\ snd (get_availability Demo.two_epoch_world st Demo.no_args) = Ok (Some av)
    /\ av = [Demo.first_epoch_row; Demo.second_epoch_row]
    /\ forall r, In r (List.concat frames) ->
         List.length (filter (same_epoch r) av) = 1%nat.
Proof.
  intros st.
  destruct (snd (get_availability Demo.two_epoch_world st Demo.no_args))
    as [[av |] | e] eqn:E; try (vm_compute in E; discriminate E).
  destruct (merged_catalog_has_each_key_once _ _ _ E)
    as [frames [Hf [Hav [_ [_ [_ Hepoch]]]]]].
  exists frames, av. split; [exact Hf |].
  assert (Hcat : List.concat frames
                 = [Demo.first_epoch_row; Demo.second_epoch_row;
                    Demo.first_epoch_row; Demo.second_epoch_row]).
  { vm_compute in Hf. injection Hf as <-. vm_compute. reflexivity. }
  split; [exact Hcat |]. split; [reflexivity |]. split.
  - rewrite Hav, Hcat. vm_compute. reflexivity.
  - apply Hepoch. rewrite Hcat.
    repeat (apply Forall_cons; [vm_compute; split; discriminate |]). apply Forall_nil.
Defined.

(* ================================================================== *)
(** ** Loop suppression (claim C6)                                     *)
(* ================================================================== *)

(** The pattern loop does not look at the pattern list of the object it
    runs on: it is handed the list. *)
Lemma pattern_loop_with_patterns (w : World) (st : Concierge) (a : AvArgs)
    (ps patterns : list string) :
  forall n acc,
    pattern_loop w (with_patterns st ps) a n acc patterns = pattern_loop w st a n acc patterns.
Proof.
  induction patterns as [| p rest IH]; intros n acc; [reflexivity |].
  cbn [pattern_loop].
  change (pattern_frame w (with_patterns st ps) a p) with (pattern_frame w st a p).
  destruct (is_star (a_network a) && is_star (a_station a) && is_star (a_location a)
            && (1 <? n + 1)); [apply IH |].
  destruct (pattern_frame w st a p) as [[[| r df] |] | e]; try apply IH. reflexivity.
Qed.

(** With a remote station service, or with the catalog already stored,
    a call goes straight to the pattern loop. *)
Lemma get_availability_without_build (w : World) (st : Concierge) (a : AvArgs)
    (ps : list string) :
  station_client st <> None \/ availability st <> None ->
  snd (get_availability w (with_patterns st ps) a)
  = match pattern_loop w st a 0 [] ps with
    | Raise e => Raise e
    | Ok frames => snd (merge_availability st frames)
    end.
Proof.
  intros H. unfold get_availability.
  assert (Hb : build_local_availability w (with_patterns st ps) a
               = (with_patterns st ps, Ok tt)).
  { unfold build_local_availability.
    change (station_client (with_patterns st ps)) with (station_client st).
    change (availability (with_patterns st ps)) with (availability st).
    destruct (station_client st); [reflexivity |].
    destruct (availability st); [reflexivity |].
    destruct H as [H | H]; contradiction H; reflexivity. }
  rewrite Hb. change (sncl_patterns (with_patterns st ps)) with ps.
  rewrite pattern_loop_with_patterns.
  destruct (pattern_loop w st a 0 [] ps) as [frames | e]; [| reflexivity].
  apply merge_availability_result.
Qed.

(** Without the three star overrides no pass is skipped: the loop
    evaluates every pattern, in order, until one raises. *)
Lemma pattern_loop_unsuppressed (w : World) (st : Concierge) (a : AvArgs)
    (patterns : list string) :
  is_star (a_network a) && is_star (a_station a) && is_star (a_location a) = false ->
  (forall q, In q patterns -> exists f, pattern_frame w st a q = Ok f) ->
  forall n acc,
    pattern_loop w st a n acc patterns
    = Ok (acc ++ flat_map (collected w st a) patterns)%list.
Proof.
  intros Hstar. induction patterns as [| p rest IH]; intros Hok n acc.
  - simpl. rewrite app_nil_r. reflexivity.
  - cbn [pattern_loop flat_map]. rewrite Hstar. cbn [andb].
    destruct (Hok p (or_introl eq_refl)) as [f Hf].
    assert (Hrest : forall q, In q rest -> exists f, pattern_frame w st a q = Ok f)
      by (intros q Hq; apply Hok; right; exact Hq).
    unfold collected at 1. rewrite Hf.
    destruct f as [[| r df] |]; rewrite (IH Hrest); try reflexivity.
    rewrite <- app_assoc. reflexivity.
Qed.

(** C6, as stated, fails: patterns of the shape [*.*.*.channel] in the
    pattern list are not suppressed.  A repeated [*.*.*.BHZ] is evaluated
    twice (two frames are collected, not one), and with [*.*.*.LHZ] as the
    second pattern its rows reach the returned catalog. *)
Lemma wildcard_patterns_in_list_are_all_evaluated :
  let st := Demo.remote_concierge ["*.*.*.BHZ"; "*.*.*.BHZ"] Demo.jan1 Demo.jan2 in
  let st' := Demo.remote_concierge ["*.*.*.BHZ"; "*.*.*.LHZ"] Demo.jan1 Demo.jan2 in
  pattern_loop Demo.world st Demo.no_args 0 [] ["*.*.*.BHZ"; "*.*.*.BHZ"]
    <> pattern_loop Demo.world st Demo.no_args 0 [] ["*.*.*.BHZ"]
  /\ option_map (map (map snclId))
       match pattern_loop Demo.world st Demo.no_args 0 [] ["*.*.*.BHZ"; "*.*.*.BHZ"] with
       | Ok x => Some x
       | Raise _ => None
       end
     = Some [ ["IU.ANMO.00.BHZ"; "GE.KBS.10.BHZ"; "GE.EQTR.00.BHZ"];
              ["IU.ANMO.00.BHZ"; "GE.KBS.10.BHZ"; "GE.EQTR.00.BHZ"] ]
  /\ option_map (map snclId)
       match snd (get_availability Demo.world st' Demo.no_args) with
       | Ok x => x
       | Raise _ => None
       end
     = Some ["IU.ANMO.00.BHZ"; "GE.KBS.10.BHZ"; "GE.EQTR.00.BHZ"; "IU.ANMO.00.LHZ"].
Proof.
  repeat split; try (vm_compute; reflexivity).
  vm_compute. discriminate.
Qed.

(** C6, amended.  The suppression is keyed on the override arguments of
    the call, and it is the loop of lines 391-554 that it shortens.  When
    [get_availability] is called with network, station and location all
    equal to the star, that loop evaluates only the first pattern of the
    list: every later pass is skipped (its pattern is not even parsed) and
    adds no frame; so, when the station metadata is remote or the local
    catalog is already stored, the call returns what it returns for the
    list cut down to its first pattern.  Without these three overrides
    nothing is skipped, whatever the shape of the patterns: as long as no
    evaluation raises, every pattern of the list is evaluated, in order,
    and each non-empty frame is collected. *)
Theorem wildcard_overrides_evaluate_first_pattern_only (w : World) (st : Concierge)
    (a : AvArgs) :
  (a_network a = Some "*" -> a_station a = Some "*" -> a_location a = Some "*" ->
   forall p rest,
     pattern_loop w st a 0 [] (p :: rest) = pattern_loop w st a 0 [] [p]
     /\ (station_client st <> None \/ availability st <> None ->
         snd (get_availability w (with_patterns st (p :: rest)) a)
         = snd (get_availability w (with_patterns st [p]) a)))
  /\ (is_star (a_network a) && is_star (a_station a) && is_star (a_location a) = false ->
      forall patterns,
        (forall q, In q patterns -> exists f, pattern_frame w st a q = Ok f) ->
        pattern_loop w st a 0 [] patterns = Ok (flat_map (collected w st a) patterns)).
Proof.
  split.
  - intros Hn Hs Hl p rest.
    assert (Sn : is_star (a_network a) = true) by (rewrite Hn; reflexivity).
    assert (Ss : is_star (a_station a) = true) by (rewrite Hs; reflexivity).
    assert (Sl : is_star (a_location a) = true) by (rewrite Hl; reflexivity).
    assert (Hloop : pattern_loop w st a 0 [] (p :: rest) = pattern_loop w st a 0 [] [p]).
    { cbn [pattern_loop]. rewrite Sn, Ss, Sl. simpl (true && true && true && (1 <? 0 + 1)).
      destruct (pattern_frame w st a p) as [[[| r df] |] | e]; try reflexivity;
        apply pattern_loop_suppressed; (assumption || lia). }
    split; [exact Hloop |].
    intros Hsrc. rewrite !get_availability_without_build by exact Hsrc.
    rewrite Hloop. reflexivity.
  - intros Hstar patterns Hok.
    apply (pattern_loop_unsuppressed w st a patterns Hstar Hok 0 []).
Qed.

Lemma wildcard_overrides_evaluate_first_pattern_only_witness :
  let st := Demo.remote_concierge [] Demo.jan1 Demo.jan2 in
  let first_call := Demo.local_concierge [] Demo.jan1 Demo.jan2 in
  (snd (get_availability Demo.world
          (with_patterns st ["IU.ANMO.00.BHZ"; "IU.ANMO.00.LHZ"]) Demo.star_args)
   = snd (get_availability Demo.world (with_patterns st ["IU.ANMO.00.BHZ"]) Demo.star_args)
   /\ option_map (map snclId)
        match snd (get_availability Demo.world (with_patterns st ["IU.ANMO.00.BHZ"])
                     Demo.star_args) with
        | Ok x => x
        | Raise _ => None
        end
      = Some ["IU.ANMO.00.BHZ"; "GE.KBS.10.BHZ"; "GE.EQTR.00.BHZ"])
  /\ (snd (get_availability Demo.world
             (with_patterns first_call ["IU.ANMO.00.BHZ"; "IU.ANMO"]) Demo.star_args)
      = Raise (ValueError "Could not parse sncl_pattern IU.ANMO")
      /\ option_map (map snclId)
           match snd (get_availability Demo.world
                        (with_patterns first_call ["IU.ANMO.00.BHZ"]) Demo.star_args) with
           | Ok x => x
           | Raise _ => None
           end
         = Some ["IU.ANMO.00.BHZ"; "GE.KBS.10.BHZ"])
  /\ option_map (map (map snclId))
       match pattern_loop Demo.world st Demo.no_args 0 [] ["*.*.*.LHZ"; "*.*.*.BHZ"] with
       | Ok x => Some x
       | Raise _ => None
       end
     = Some [ ["IU.ANMO.00.LHZ"];
              ["IU.ANMO.00.BHZ"; "GE.KBS.10.BHZ"; "GE.EQTR.00.BHZ"] ].
Proof.
  intros st first_call.
  pose proof (@wildcard_overrides_evaluate_first_pattern_only Demo.world st Demo.star_args)
    as [Hstar _].
  pose proof (@wildcard_overrides_evaluate_first_pattern_only Demo.world st Demo.no_args)
    as [_ Hplain].
  split; [split |]; [| vm_compute; reflexivity |].
  - apply (Hstar eq_refl eq_refl eq_refl "IU.ANMO.00.BHZ" ["IU.ANMO.00.LHZ"]).
    left. discriminate.
  - split; [split; vm_compute; reflexivity |].
    rewrite (Hplain eq_refl ["*.*.*.LHZ"; "*.*.*.BHZ"]).
    + vm_compute. reflexivity.
    + intros q [<- | [<- | []]]; eexists; vm_compute; reflexivity.
Defined.


(* ================================================================== *)
(** ** The cached local catalog (claim C8)                             *)
(* ================================================================== *)

(** C8.  Once a call with a local station-metadata source has stored the
    catalog, every later call, whatever its arguments and whatever has
    become of the files in the meantime, skips the build (no StationXML
    read, no directory scan: the build step returns the state as it is)
    and leaves the stored catalog unchanged. *)
Theorem local_catalog_is_built_once (st : Concierge) (cat : DataFrame)
    (calls : list (World * AvArgs)) :
  station_client st = None ->
  availability st = Some cat ->
  availability (after_calls st calls) = Some cat
  /\ station_client (after_calls st calls) = None
  /\ forall w a,
       build_local_availability w (after_calls st calls) a = (after_calls st calls, Ok tt)
       /\ availability (fst (get_availability w (after_calls st calls) a)) = Some cat.
Proof.
  revert st. induction calls as [| [w1 a1] calls IH]; intros st Hcl Hav.
  - simpl. split; [assumption |]. split; [assumption |]. intros w a.
    pose proof (build_local_availability_cached w st a Hav) as Hb.
    split; [assumption |].
    rewrite get_availability_unfold. unfold frames_of. rewrite Hb. simpl.
    destruct (pattern_loop w st a 0 [] (sncl_patterns st)) as [frames | e]; simpl.
    + rewrite (proj1 (merge_availability_keeps_catalog st frames)). assumption.
    + assumption.
  - simpl. apply IH.
    + rewrite get_availability_unfold. unfold frames_of.
      rewrite (build_local_availability_cached w1 st a1 Hav). simpl.
      destruct (pattern_loop w1 st a1 0 [] (sncl_patterns st)) as [frames | e]; simpl.
      * rewrite (proj2 (merge_availability_keeps_catalog st frames)). assumption.
      * assumption.
    + rewrite get_availability_unfold. unfold frames_of.
      rewrite (build_local_availability_cached w1 st a1 Hav). simpl.
      destruct (pattern_loop w1 st a1 0 [] (sncl_patterns st)) as [frames | e]; simpl.
      * rewrite (proj1 (merge_availability_keeps_catalog st frames)). assumption.
      * assumption.
Qed.

Lemma local_catalog_is_built_once_witness :
  let st0 := Demo.local_concierge ["IU.ANMO.00.*"; "GE.*.*.BHZ"] Demo.jan1 Demo.jan2 in
  let st1 := fst (get_availability Demo.world st0 Demo.no_args) in
  let a2 := mkAvArgs (Some "GE") None None None (Some Demo.jan2) None None None None None in
  exists cat,
    availability st1 = Some cat
    /\ List.length cat = 4%nat
    /\ availability (after_calls st1 [(Demo.emptied_world, a2); (Demo.world, Demo.no_args)])
       = Some cat.
Proof.
  intros st0 st1 a2.
  destruct (availability st1) as [cat |] eqn:E; [| vm_compute in E; discriminate E].
  exists cat. split; [reflexivity |]. split.
  - vm_compute in E. injection E as <-. reflexivity.
  - apply (@local_catalog_is_built_once st1 cat
             [(Demo.emptied_world, a2); (Demo.world, Demo.no_args)]).
    + reflexivity.
    + exact E.
Defined.

(* ================================================================== *)
(** ** The radius filter (claims C9 and C10)                           *)
(* ================================================================== *)

(** C9, as stated, fails at the two boundaries when the radii do not form
    an interval around them.  With minradius 2 and maxradius 1 the station
    one degree north of the reference point, at distance exactly
    maxradius, is dropped; with maxradius -1 and no minradius the station
    at the reference point, at distance 0, is dropped. *)
Lemma degenerate_radii_drop_boundary_rows :
  let north := Demo.station_at 36 (-106) in
  let centre := Demo.station_at 35 (-106) in
  let a := Demo.near_anmo (Some 2%Q) (Some 1%Q) in
  let a' := Demo.near_anmo None (Some (-1)%Q) in
  (exists d, distance_degrees Demo.world a 36 (-106) = Ok d /\ (d == 1)%Q)
  /\ radius_keep Demo.world a north = Ok false
  /\ subset_by_distance Demo.world a [north] = Ok []
  /\ (exists d, distance_degrees Demo.world a' 35 (-106) = Ok d /\ (d == 0)%Q)
  /\ radius_keep Demo.world a' centre = Ok false
  /\ subset_by_distance Demo.world a' [centre] = Ok [].
Proof.
  intros north centre a a'.
  split; [eexists; split; vm_compute; reflexivity |].
  split; [vm_compute; reflexivity |]. split; [vm_compute; reflexivity |].
  split; [eexists; split; vm_compute; reflexivity |].
  split; vm_compute; reflexivity.
Qed.

(** C9, amended.  Take a row with finite, non-zero coordinates, a radius
    filter with a reference point, and let [d] be the distance that the
    geodesy returns for the two points, [gps2dist_azimuth] in meters
    turned into degrees by [kilometer2degrees].  The row is marked "KEEP"
    and survives the subsetting iff [d] lies in the interval from
    minradius to maxradius, a missing bound being open.  So a row at
    distance exactly maxradius is kept iff minradius is unset or at most
    maxradius (the comparison with maxradius is inclusive), and a row at
    distance zero is kept iff minradius is unset or at most zero and
    maxradius is unset or at least zero. *)
Theorem radius_filter_keeps_rows_within_bounds (w : World) (a : AvArgs) (r : Row)
    (lat0 lon0 qlat qlon meters d : Q) :
  latitude r = Some (Fin qlat) -> longitude r = Some (Fin qlon) ->
  ~ (qlat == 0)%Q -> ~ (qlon == 0)%Q ->
  is_some (a_maxradius a) || is_some (a_minradius a) = true ->
  a_latitude a = Some lat0 -> a_longitude a = Some lon0 ->
  gps2dist_azimuth w lat0 lon0 qlat qlon = Some meters ->
  kilometer2degrees w (meters / 1000) = d ->
  (0 <= d)%Q ->
  (radius_keep w a r = Ok true <-> in_radius_interval a d)
  /\ (forall df df', In r df -> subset_by_distance w a df = Ok df' ->
        (In r df' <-> in_radius_interval a d))
  /\ (forall mx, a_maxradius a = Some mx -> (d == mx)%Q ->
        (radius_keep w a r = Ok true <->
         a_minradius a = None \/ exists mn, a_minradius a = Some mn /\ (mn <= mx)%Q))
  /\ ((d == 0)%Q ->
        (radius_keep w a r = Ok true <->
         (a_minradius a = None \/ exists mn, a_minradius a = Some mn /\ (mn <= 0)%Q)
         /\ (a_maxradius a = None \/ exists mx, a_maxradius a = Some mx /\ (0 <= mx)%Q))).
Proof.
  intros Hlat Hlon Hz1 Hz2 Hsup Hlat0 Hlon0 Hgps Hdeg Hpos.
  assert (Hd : distance_degrees w a qlat qlon = Ok d).
  { unfold distance_degrees. rewrite Hlat0, Hlon0, Hgps. simpl. rewrite Hdeg. reflexivity. }
  pose proof (radius_keep_finite w a r Hlat Hlon Hz1 Hz2 Hd) as Hkeep.
  pose proof (within_radius_iff a Hsup Hpos) as Hiff.
  assert (Hmain : radius_keep w a r = Ok true <-> in_radius_interval a d).
  { rewrite Hkeep. rewrite <- Hiff. split; [intros H; injection H as ->; reflexivity |].
    intros ->. reflexivity. }
  split; [exact Hmain |]. split; [| split].
  - intros df df' Hin Hsub. unfold subset_by_distance in Hsub. rewrite Hsup in Hsub.
    rewrite (filterM_In _ _ Hsub r). rewrite Hmain. tauto.
  - intros mx Hmx Heq. rewrite Hmain. unfold in_radius_interval. split.
    + intros [Hmn _]. destruct (a_minradius a) as [mn |]; [| left; reflexivity].
      right. exists mn. split; [reflexivity |]. rewrite <- Heq. apply Hmn. reflexivity.
    + intros Hmn. split.
      * intros mn E. destruct Hmn as [Hnone | [mn' [E' Hle]]]; [congruence |].
        rewrite E in E'. injection E' as <-. rewrite Heq. assumption.
      * intros mx' E. rewrite Hmx in E. injection E as <-. rewrite Heq. apply Qle_refl.
  - intros Hzero. rewrite Hmain. unfold in_radius_interval. split.
    + intros [Hmn Hmx]. split.
      * destruct (a_minradius a) as [mn |]; [| left; reflexivity].
        right. exists mn. split; [reflexivity |]. rewrite <- Hzero. apply Hmn. reflexivity.
      * destruct (a_maxradius a) as [mx |]; [| left; reflexivity].
        right. exists mx. split; [reflexivity |]. rewrite <- Hzero. apply Hmx. reflexivity.
    + intros [Hmn Hmx]. split.
      * intros mn E. destruct Hmn as [Hnone | [mn' [E' Hle]]]; [congruence |].
        rewrite E in E'. injection E' as <-. rewrite Hzero. assumption.
      * intros mx E. destruct Hmx as [Hnone | [mx' [E' Hle]]]; [congruence |].
        rewrite E in E'. injection E' as <-. rewrite Hzero. assumption.
Qed.

Lemma radius_filter_keeps_rows_within_bounds_witness :
  let a := Demo.near_anmo (Some (1 # 2)) (Some (3 # 2)) in
  let edge := Demo.station_at 36 (-(1065 # 10)) in
  subset_by_distance Demo.world a [Demo.kbs_row; Demo.anmo_row; edge]
  = Ok [Demo.anmo_row; edge]
  /\ (exists d, distance_degrees Demo.world a 36 (-(1065 # 10)) = Ok d /\ (d == 3 # 2)%Q)
  /\ radius_keep Demo.world a edge = Ok true
  /\ (exists d, distance_degrees Demo.world a (78915 # 1000) (11938 # 1000) = Ok d
                /\ ~ in_radius_interval a d)
  /\ ~ In Demo.kbs_row [Demo.anmo_row; edge].
Proof.
  intros a edge.
  assert (Hsub : subset_by_distance Demo.world a [Demo.kbs_row; Demo.anmo_row; edge]
                 = Ok [Demo.anmo_row; edge]) by (vm_compute; reflexivity).
  split; [exact Hsub |].
  split; [eexists; split; vm_compute; reflexivity |].
  split.
  - refine (proj2 (proj1 (proj2 (proj2
              (@radius_filter_keeps_rows_within_bounds Demo.world a edge
                 35 (-106) 36 (-(1065 # 10))
                 ((Qabs (36 - 35) + Qabs (-(1065 # 10) - -106)) * 111195)%Q
                 (kilometer2degrees Demo.world
                    (((Qabs (36 - 35) + Qabs (-(1065 # 10) - -106)) * 111195) / 1000))
                 eq_refl eq_refl _ _ eq_refl eq_refl eq_refl eq_refl eq_refl _)))
              (3 # 2)%Q eq_refl _) _).
    + intros H. discriminate H.
    + intros H. discriminate H.
    + vm_compute. discriminate.
    + vm_compute. reflexivity.
    + right. exists (1 # 2)%Q. split; [reflexivity |]. vm_compute. discriminate.
  - assert (Hfar : ~ in_radius_interval a
                     (kilometer2degrees Demo.world
                        (((Qabs ((78915 # 1000) - 35) + Qabs ((11938 # 1000) - -106)) * 111195)
                         / 1000))).
    { intros [_ Hmx]. specialize (Hmx (3 # 2)%Q eq_refl). vm_compute in Hmx.
      apply Hmx. reflexivity. }
    split.
    + eexists. split; [reflexivity | exact Hfar].
    + intros Hin. apply Hfar.
      refine (proj1 (proj1 (proj2
                (@radius_filter_keeps_rows_within_bounds Demo.world a Demo.kbs_row
                   35 (-106) (78915 # 1000) (11938 # 1000)
                   ((Qabs ((78915 # 1000) - 35) + Qabs ((11938 # 1000) - -106)) * 111195)%Q
                   _ eq_refl eq_refl _ _ eq_refl eq_refl eq_refl eq_refl eq_refl _))
                [Demo.kbs_row; Demo.anmo_row; edge] [Demo.anmo_row; edge] _ Hsub) Hin).
      * intros H. discriminate H.
      * intros H. discriminate H.
      * vm_compute. discriminate.
      * left. reflexivity.
Defined.

(** C10.  A row whose latitude or longitude is [None] or exactly zero is
    never marked "KEEP": whenever a radius filter is supplied it is absent
    from the result, whatever its distance from the reference point. *)
Theorem radius_filter_drops_zero_coordinates (w : World) (a : AvArgs) (r : Row) :
  zero_or_missing (latitude r) \/ zero_or_missing (longitude r) ->
  radius_keep w a r = Ok false
  /\ (forall df df',
        is_some (a_maxradius a) || is_some (a_minradius a) = true ->
        subset_by_distance w a df = Ok df' -> ~ In r df').
Proof.
  intros Hzero.
  assert (Hkeep : radius_keep w a r = Ok false).
  { unfold radius_keep.
    destruct Hzero as [H | H]; apply zero_or_missing_falsy in H; rewrite H.
    - reflexivity.
    - rewrite andb_false_r. reflexivity. }
  split; [exact Hkeep |].
  intros df df' Hsup Hsub Hin. unfold subset_by_distance in Hsub. rewrite Hsup in Hsub.
  apply (filterM_In _ _ Hsub r) in Hin. destruct Hin as [_ Hin]. congruence.
Qed.

Lemma radius_filter_drops_zero_coordinates_witness :
  let a := Demo.near_buoy None (Some 1%Q) in
  (exists d, distance_degrees Demo.world a 0 (10 # 1) = Ok d /\ within_radius a d = true)
  /\ radius_keep Demo.world a Demo.buoy_row = Ok false
  /\ subset_by_distance Demo.world a [Demo.buoy_row] = Ok [].
Proof.
  intros a. split; [| split].
  - eexists. split; vm_compute; reflexivity.
  - apply (@radius_filter_drops_zero_coordinates Demo.world a Demo.buoy_row).
    left. right. exists 0%Q. split; reflexivity.
  - vm_compute. reflexivity.
Defined.

(* ================================================================== *)
(** ** Endpoint classification (claim C3)                              *)
(* ================================================================== *)

(** The sibling case that works: a value that begins with ["http://"]
    and is no alias is classified as remote. *)
Lemma http_endpoint_is_remote (w : World) (what url : string) :
  assoc url (URL_MAPPINGS w) = None ->
  String.prefix "http://" url = true ->
  Client_ok w url = true ->
  resolve_endpoint w what url = Ok (url, Some url).
Proof.
  intros Halias Hpre Hok. unfold resolve_endpoint, has_http_scheme, make_client.
  rewrite Halias. cbn [PyStr.str_or].
  destruct url as [| c url]; [discriminate Hpre |].
  cbn [PyStr.str_in]. rewrite Hpre. cbn [orb]. rewrite Hok. reflexivity.
Qed.

(** C3 fails on the code.  The test [("http://" or "https://") in url]
    only looks for ["http://"], so a value that begins with ["https://"],
    is no alias and is no existing path, is rejected with the
    configuration error in all three data classes, and the constructor
    fails. *)
Theorem https_endpoint_is_rejected (w : World) (ur : UserRequest) :
  let url := "https://service.iris.edu" in
  assoc url (URL_MAPPINGS w) = None ->
  path_exists w (abspath w url) = false ->
  ur_dataselect_url ur = Some url ->
  has_http_scheme url = false
  /\ init_dataselect w (Some url)
     = Raise (ValueError "Cannot find preference file dataselect_url: 'https://service.iris.edu'")
  /\ init_event w (Some url)
     = Raise (ValueError "Cannot find preference file event_url: 'https://service.iris.edu'")
  /\ init_station w (Some url)
     = Raise (ValueError "Cannot find preference file station_url: 'https://service.iris.edu'")
  /\ Concierge_init w ur
     = Raise (ValueError "Cannot find preference file dataselect_url: 'https://service.iris.edu'").
Proof.
  intros url Halias Hpath Hur.
  assert (Hscheme : has_http_scheme url = false) by (vm_compute; reflexivity).
  split; [exact Hscheme |].
  assert (Hres : forall what,
             resolve_endpoint w what url
             = Raise (ValueError ("Cannot find preference file " ++ what ++ ": '" ++ url ++ "'"))).
  { intros what. unfold resolve_endpoint. rewrite Halias, Hscheme, Hpath. reflexivity. }
  split; [| split; [| split]].
  - simpl. rewrite Hres. reflexivity.
  - simpl. fold url. rewrite Hres. reflexivity.
  - simpl. fold url. rewrite Hres. reflexivity.
  - unfold Concierge_init. rewrite Hur. simpl. fold url. rewrite Hres. reflexivity.
Qed.

Lemma https_endpoint_is_rejected_witness :
  let ur := mkUserRequest Demo.jan1 Demo.jan2 ["IU.ANMO.00.BHZ"]
              (Some "https://service.iris.edu") (Some "USGS") (Some "IRIS") None in
  let ur' := mkUserRequest Demo.jan1 Demo.jan2 ["IU.ANMO.00.BHZ"]
               (Some "http://service.iris.edu") (Some "USGS") (Some "/meta/station.xml") None in
  Concierge_init Demo.world ur
  = Raise (ValueError "Cannot find preference file dataselect_url: 'https://service.iris.edu'")
  /\ option_map
       (fun c => (kind_of (Some (dataselect_url c)) (dataselect_client c),
                  kind_of (event_url c) (event_client c),
                  kind_of (station_url c) (station_client c)))
       match Concierge_init Demo.world ur' with Ok c => Some c | Raise _ => None end
     = Some (Remote, Remote, LocalPath).
Proof.
  intros ur ur'. split; [| vm_compute; reflexivity].
  apply (@https_endpoint_is_rejected Demo.world ur); reflexivity.
Defined.

(* ================================================================== *)
(** ** Multi-day assembly (claim C4)                                   *)
(* ================================================================== *)

(** Within the day loop: the first day without a file raises the
    retrieval error that names its file pattern. *)
Lemma day_loop_raises_on_missing_day (w : World) (st : Concierge) (d : DsArgs)
    (t0 : UTCDateTime) (before : list Z) (day : Z) (after : list Z) :
  (forall dd, In dd before -> glob w (day_filepattern st d (day_start t0 dd)) <> []) ->
  glob w (day_filepattern st d (day_start t0 day)) = [] ->
  forall x fp,
    day_loop w st d t0 x fp (before ++ day :: after)
    = Raise (Exception_ ("No files found matching '"
                         ++ day_filepattern st d (day_start t0 day) ++ "'")).
Proof.
  intros Hbefore Hmiss. induction before as [| b before IH]; intros x fp; simpl.
  - rewrite Hmiss. reflexivity.
  - destruct (glob w (day_filepattern st d (day_start t0 b))) as [| path paths] eqn:E.
    + exfalso. apply (Hbefore b); [left; reflexivity | assumption].
    + apply IH. intros dd Hin. apply Hbefore. right. assumption.
Qed.

(** With a file for every day the loop concatenates, in day order, the
    bytes of the first matching file of each day and ends with the last
    day's file as [filepath]. *)
Lemma day_loop_concatenates (w : World) (st : Concierge) (d : DsArgs) (t0 : UTCDateTime)
    (days : list Z) :
  (forall dd, In dd days -> glob w (day_filepattern st d (day_start t0 dd)) <> []) ->
  forall x fp,
    day_loop w st d t0 x fp days
    = Ok ((x ++ flat_map
                  (fun dd => file_bytes w (hd "" (glob w (day_filepattern st d (day_start t0 dd)))))
                  days)%list,
          fold_left
            (fun _ dd => Some (hd "" (glob w (day_filepattern st d (day_start t0 dd)))))
            days fp).
Proof.
  induction days as [| day days IH]; intros Hall x fp; simpl.
  - rewrite app_nil_r. reflexivity.
  - destruct (glob w (day_filepattern st d (day_start t0 day))) as [| path paths] eqn:E.
    + exfalso. apply (Hall day); [left; reflexivity | assumption].
    + rewrite IH; [| intros dd Hin; apply Hall; right; assumption].
      simpl. rewrite <- app_assoc. reflexivity.
Qed.

(** X20.  A missing day in a request that the day count recognises as
    multi-day: the call raises the retrieval error that names the file
    pattern of the first missing day, before anything is parsed, and leaves
    the Concierge as it was. *)
Lemma get_dataselect_raises_on_missing_day (w : World) (st : Concierge) (d : DsArgs)
    (before : list Z) (day : Z) (after : list Z) :
  let t0 := override (d_starttime d) (requested_starttime st) in
  let t1 := override (d_endtime d) (requested_endtime st) in
  dataselect_client st = None ->
  nday_of t0 t1 <> 1 ->
  range (nday_of t0 t1) = (before ++ day :: after)%list ->
  (forall dd, In dd before -> glob w (day_filepattern st d (day_start t0 dd)) <> []) ->
  glob w (day_filepattern st d (day_start t0 day)) = [] ->
  get_dataselect w st d
  = (st, Raise (Exception_ ("No files found matching '"
                            ++ day_filepattern st d (day_start t0 day) ++ "'"))).
Proof.
  intros t0 t1 Hcl Hn Hrange Hbefore Hmiss. unfold get_dataselect. rewrite Hcl.
  fold t0 t1. destruct (Z.eqb_spec (nday_of t0 t1) 1) as [E | _]; [contradiction |].
  unfold read_multi_day. rewrite Hrange.
  rewrite (day_loop_raises_on_missing_day w st d t0 before day after Hbefore Hmiss).
  reflexivity.
Qed.

(** With a file for every day of a request that the day count recognises
    as multi-day, the stream is read from the concatenation of the days'
    files, sliced and enriched once. *)
Lemma get_dataselect_reads_every_day (w : World) (st : Concierge) (d : DsArgs) :
  let t0 := override (d_starttime d) (requested_starttime st) in
  let t1 := override (d_endtime d) (requested_endtime st) in
  let first_file dd := hd "" (glob w (day_filepattern st d (day_start t0 dd))) in
  let x := flat_map (fun dd => file_bytes w (first_file dd)) (range (nday_of t0 t1)) in
  let filepath := fold_left (fun _ dd => Some (first_file dd)) (range (nday_of t0 t1)) None in
  dataselect_client st = None ->
  nday_of t0 t1 <> 1 ->
  (forall dd, In dd (range (nday_of t0 t1)) ->
              glob w (day_filepattern st d (day_start t0 dd)) <> []) ->
  get_dataselect w st d
  = match obspy_read_bytes w x with
    | None => (st, Raise (reraise filepath ExternalError))
    | Some py_stream =>
        match slice_and_enrich w st d py_stream t0 t1 filepath with
        | (st1, Raise e) => (st1, Raise (reraise filepath e))
        | (st1, Ok r_stream) => (st1, require_traces w r_stream)
        end
    end.
Proof.
  intros t0 t1 first_file x filepath Hcl Hn Hall. unfold get_dataselect. rewrite Hcl.
  fold t0 t1. destruct (Z.eqb_spec (nday_of t0 t1) 1) as [E | _]; [contradiction |].
  unfold read_multi_day. rewrite (day_loop_concatenates w st d t0 _ Hall). reflexivity.
Qed.

(** The scenario of the specification inside one year: three days, all
    files present, one stream over the three files in day order; with the
    middle day's file removed, the retrieval error naming its pattern. *)
Example three_day_window_in_one_year :
  let st := Demo.local_concierge ["IU.ANMO.00.BHZ"] Demo.jan1 (UTC.make 2013 1 4 0 0 0) in
  let d := mkDsArgs (Some "IU") (Some "ANMO") (Some "00") (Some "BHZ")
             None None None None false false in
  let without_day_2 :=
    Demo.installation
      (filter (fun f => negb (String.eqb f "/data/IU.ANMO.00.BHZ.2013.002.M")) Demo.files) in
  nday_of Demo.jan1 (UTC.make 2013 1 4 0 0 0) = 3
  /\ option_map fst
       match snd (get_dataselect Demo.world st d) with Ok r => Some r | Raise _ => None end
     = Some (list_byte_of_string
               ("/data/IU.ANMO.00.BHZ.2013.001.M" ++ "/data/IU.ANMO.00.BHZ.2013.002.M"
                ++ "/data/IU.ANMO.00.BHZ.2013.003.M"))
  /\ snd (get_dataselect without_day_2 st d)
     = Raise (Exception_ "No files found matching '/data/IU.ANMO.00.BHZ.2013.002*'").
Proof. repeat split; vm_compute; reflexivity. Qed.

(** C4 fails on the code.  The day count of line 631 subtracts days of
    the year, so for a window that crosses New Year it is not positive: for
    the three-day window from 2013-12-31 to 2014-01-02 it is -363, the day
    loop does not run, no file is read, and the call raises whatever the
    directory holds, also when every day's file is present. *)
Theorem year_crossing_window_never_returns (w : World) (st : Concierge) (d : DsArgs) :
  dataselect_client st = None ->
  d_starttime d = Some (UTC.make 2013 12 31 0 0 0) ->
  d_endtime d = Some (UTC.make 2014 1 2 0 0 0) ->
  nday_of (UTC.make 2013 12 31 0 0 0) (UTC.make 2014 1 2 0 0 0) = -363
  /\ range (-363) = []
  /\ get_dataselect w st d = (st, Raise UnboundLocalError).
Proof.
  intros Hcl Hs He. split; [vm_compute; reflexivity |]. split; [reflexivity |].
  unfold get_dataselect. rewrite Hcl, Hs, He. cbn [override].
  replace (nday_of (UTC.make 2013 12 31 0 0 0) (UTC.make 2014 1 2 0 0 0)) with (-363)
    by (vm_compute; reflexivity).
  cbn [Z.eqb]. unfold read_multi_day. cbn [range Z.to_nat seq map day_loop].
  destruct (obspy_read_bytes w []) as [py_stream |]; [| reflexivity].
  unfold slice_and_enrich. reflexivity.
Qed.

Lemma year_crossing_window_never_returns_witness :
  let st := Demo.local_concierge ["IU.ANMO.00.BHZ"] Demo.jan1 Demo.jan2 in
  let d := mkDsArgs (Some "IU") (Some "ANMO") (Some "00") (Some "BHZ")
             (Some (UTC.make 2013 12 31 0 0 0)) (Some (UTC.make 2014 1 2 0 0 0))
             None None false false in
  glob Demo.world (day_filepattern st d (UTC.make 2013 12 31 0 0 0))
    = ["/data/IU.ANMO.00.BHZ.2013.365.M"]
  /\ glob Demo.world (day_filepattern st d (UTC.make 2014 1 1 0 0 0))
    = ["/data/IU.ANMO.00.BHZ.2014.001.M"]
  /\ get_dataselect Demo.world st d = (st, Raise UnboundLocalError).
Proof.
  intros st d. split; [vm_compute; reflexivity |]. split; [vm_compute; reflexivity |].
  apply (proj2 (proj2 (@year_crossing_window_never_returns Demo.world st d
                         eq_refl eq_refl eq_refl))).
Defined.

(* ================================================================== *)
(** ** The local event reader (claim C7)                               *)
(* ================================================================== *)

Lemma reindex_index (events : list EventRow) :
  map fst (reindex events) = map Z.of_nat (seq 1 (List.length events))
  /\ List.length (reindex events) = List.length events.
Proof.
  unfold reindex.
  assert (H : forall (l1 : list Z) (l2 : list EventRow),
             List.length l1 = List.length l2 ->
             map fst (combine l1 l2) = l1 /\ List.length (combine l1 l2) = List.length l2).
  { induction l1 as [| a l1 IH]; intros [| b l2] Hlen; simpl in *; try discriminate.
    - split; reflexivity.
    - injection Hlen as Hlen. destruct (IH l2 Hlen) as [H1 H2]. rewrite H1, H2.
      split; reflexivity. }
  apply H. rewrite length_map, length_seq. reflexivity.
Qed.

Lemma local_events_reindexed (w : World) (st : Concierge) (v : EvArgs) (events : EventFrame) :
  local_events w st v = Ok events -> exists rows, events = reindex rows.
Proof.
  unfold local_events. destruct (read_events w (event_url st)) as [cat |]; [| discriminate].
  destruct (map (event_row w) cat) as [| r rows]; [discriminate |].
  match goal with
  | |- context [filter_magtype ?m ?l] => destruct (filter_magtype m l) as [evs | e]
  end; simpl; [| discriminate].
  intros H. injection H as <-. eexists. reflexivity.
Qed.

(** C7, as stated, fails: a filter that leaves no event makes the local
    branch return [None], not an empty collection. *)
Lemma get_event_zero_events_returns_None :
  let st := Demo.local_concierge [] Demo.jan1 Demo.jan2 in
  let v := mkEvArgs None None (Some 7%Q) None None None None in
  local_events Demo.world st v = Ok []
  /\ get_event Demo.world st v = Ok None
  /\ get_event Demo.world st v <> Ok (Some []).
Proof.
  repeat split; try (vm_compute; reflexivity).
  vm_compute. discriminate.
Qed.

(** C7, amended.  With a local event source and a catalog that parses to
    at least one event, filters that leave no event make [get_event] return
    [None] (no error is raised and no empty collection is returned); a
    result with events is returned as it is, indexed from 1 to the number
    of events. *)
Theorem get_event_local_result (w : World) (st : Concierge) (v : EvArgs)
    (events : EventFrame) :
  event_client st = None ->
  local_events w st v = Ok events ->
  (events = [] -> get_event w st v = Ok None)
  /\ (events <> [] -> get_event w st v = Ok (Some events))
  /\ map fst events = map Z.of_nat (seq 1 (List.length events))
  /\ get_event w st v <> Ok (Some []).
Proof.
  intros Hcl Hloc. unfold get_event. rewrite Hcl, Hloc. simpl.
  destruct (local_events_reindexed _ _ _ Hloc) as [rows ->].
  destruct (reindex_index rows) as [Hidx Hlen].
  split; [| split; [| split]].
  - intros ->. reflexivity.
  - destruct (reindex rows); [congruence | reflexivity].
  - rewrite Hlen. exact Hidx.
  - destruct (reindex rows); discriminate.
Qed.

Lemma get_event_local_result_witness :
  let st := Demo.local_concierge [] Demo.jan1 Demo.jan2 in
  let v := mkEvArgs None None (Some 6%Q) None None None None in
  exists events,
    get_event Demo.world st v = Ok (Some events)
    /\ map (fun ir => (fst ir, eventLocationName (snd ir))) events = [(1, "B"); (2, "C")].
Proof.
  intros st v.
  destruct (local_events Demo.world st v) as [events | e] eqn:E;
    [| vm_compute in E; discriminate E].
  exists events. split.
  - apply (proj1 (proj2 (@get_event_local_result Demo.world st v events eq_refl E))).
    intros ->. vm_compute in E. discriminate E.
  - vm_compute in E. injection E as <-. reflexivity.
Defined.

(* ================================================================== *)
(** ** Further properties of the module                                *)
(* ================================================================== *)

(** *** The attributes that the methods never assign *)

Lemma same_configuration_refl (st : Concierge) : same_configuration st st.
Proof. unfold same_configuration. repeat split. Qed.

Lemma same_configuration_trans (st1 st2 st3 : Concierge) :
  same_configuration st1 st2 -> same_configuration st2 st3 -> same_configuration st1 st3.
Proof.
  unfold same_configuration.
  intros (A1 & A2 & A3 & A4 & A5 & A6 & A7 & A8 & A9 & A10)
         (B1 & B2 & B3 & B4 & B5 & B6 & B7 & B8 & B9 & B10).
  repeat split; congruence.
Qed.

Lemma build_local_availability_configuration (w : World) (st : Concierge) (a : AvArgs) :
  same_configuration st (fst (build_local_availability w st a)).
Proof.
  unfold build_local_availability.
  destruct (station_client st); [apply same_configuration_refl |].
  destruct (availability st); [apply same_configuration_refl |].
  destruct (read_station_metadata w st); [| apply same_configuration_refl].
  match goal with
  | |- context [build_patterns ?w ?st ?a ?t ?df ?b ?ps] =>
      destruct (build_patterns w st a t df b ps) as [[df' stored] r]
  end.
  destruct stored; [| apply same_configuration_refl].
  unfold same_configuration. simpl. repeat split.
Qed.

Lemma merge_availability_configuration (st : Concierge) (frames : list DataFrame) :
  same_configuration st (fst (merge_availability st frames)).
Proof.
  unfold merge_availability. destruct frames as [| f frames];
    [apply same_configuration_refl |].
  destruct (drop_duplicates (List.concat (f :: frames)));
    [apply same_configuration_refl |].
  unfold same_configuration. simpl. repeat split.
Qed.

Lemma get_availability_configuration (w : World) (st : Concierge) (a : AvArgs) :
  same_configuration st (fst (get_availability w st a)).
Proof.
  rewrite get_availability_unfold.
  pose proof (build_local_availability_configuration w st a) as Hb.
  destruct (frames_of w st a) as [frames | e]; [| exact Hb].
  eapply same_configuration_trans; [exact Hb |]. apply merge_availability_configuration.
Qed.

Lemma enrich_configuration (w : World) (st : Concierge) (d : DsArgs) (py : PyStream w)
    (t0 t1 : UTCDateTime) (flags : list Z) :
  same_configuration st (fst (enrich w st d py t0 t1 flags)).
Proof.
  unfold enrich.
  match goal with
  | |- context [get_availability ?w ?st ?a] =>
      pose proof (get_availability_configuration w st a) as Hg;
      destruct (get_availability w st a) as [st1 [[[| row rows] |] | e]]
  end; exact Hg.
Qed.

Lemma slice_and_enrich_configuration (w : World) (st : Concierge) (d : DsArgs)
    (py : PyStream w) (t0 t1 : UTCDateTime) (fp : option string) :
  same_configuration st (fst (slice_and_enrich w st d py t0 t1 fp)).
Proof.
  unfold slice_and_enrich. destruct fp as [path |]; [| apply same_configuration_refl].
  destruct (get_timing_and_data_quality w path); [| apply same_configuration_refl].
  apply enrich_configuration.
Qed.

(** X1.  Neither [get_availability] nor [get_dataselect] assigns any
    attribute of the Concierge other than the two cached dataframes: the
    request window, the pattern list and the three endpoints with their
    clients are the same after the call, whether it returns or raises. *)
Theorem calls_keep_the_configuration (w : World) (st : Concierge) (a : AvArgs) (d : DsArgs) :
  same_configuration st (fst (get_availability w st a))
  /\ same_configuration st (fst (get_dataselect w st d)).
Proof.
  split; [apply get_availability_configuration |].
  unfold get_dataselect.
  destruct (dataselect_client st); [apply same_configuration_refl |].
  destruct (_ =? 1).
  - unfold read_single_day. destruct (glob w _) as [| fp fps]; [apply same_configuration_refl |].
    destruct (obspy_read_file w fp) as [py |]; [| apply same_configuration_refl].
    match goal with
    | |- context [slice_and_enrich ?w ?st ?d ?py ?t0 ?t1 ?f] =>
        pose proof (slice_and_enrich_configuration w st d py t0 t1 f) as Hs;
        destruct (slice_and_enrich w st d py t0 t1 f) as [st1 [r | e]]
    end; exact Hs.
  - unfold read_multi_day. destruct (day_loop _ _ _ _ _ _ _) as [[x fp] | e];
      [| apply same_configuration_refl].
    destruct (obspy_read_bytes w x) as [py |]; [| apply same_configuration_refl].
    match goal with
    | |- context [slice_and_enrich ?w ?st ?d ?py ?t0 ?t1 ?f] =>
        pose proof (slice_and_enrich_configuration w st d py t0 t1 f) as Hs;
        destruct (slice_and_enrich w st d py t0 t1 f) as [st1 [r | e]]
    end; exact Hs.
Qed.

(** X2.  [self.filtered_availability] is assigned exactly when the call
    returns a dataframe, and then it is that dataframe; a call that returns
    [None] or raises leaves the attribute as it was, so it may hold the
    result of an earlier call with other arguments. *)
Theorem filtered_availability_is_last_result (w : World) (st : Concierge) (a : AvArgs) :
  filtered_availability (fst (get_availability w st a))
  = match snd (get_availability w st a) with
    | Ok (Some av) => Some av
    | _ => filtered_availability st
    end.
Proof.
  rewrite get_availability_unfold.
  assert (Hb : filtered_availability (fst (build_local_availability w st a))
               = filtered_availability st).
  { unfold build_local_availability.
    destruct (station_client st); [reflexivity |].
    destruct (availability st); [reflexivity |].
    destruct (read_station_metadata w st); [| reflexivity].
    match goal with
    | |- context [build_patterns ?w ?st ?a ?t ?df ?b ?ps] =>
        destruct (build_patterns w st a t df b ps) as [[df' stored] r]
    end.
    destruct stored; reflexivity. }
  destruct (frames_of w st a) as [frames | e]; [| exact Hb].
  unfold merge_availability. destruct frames as [| f frames]; [exact Hb |].
  destruct (drop_duplicates (List.concat (f :: frames))); [exact Hb | reflexivity].
Qed.

(** *** What a constructed Concierge holds *)

Lemma resolve_endpoint_ok (w : World) (what url u : string) (cl : option Client) :
  resolve_endpoint w what url = Ok (u, cl) ->
  (cl = None /\ u = abspath w url /\ path_exists w u = true
   /\ assoc url (URL_MAPPINGS w) = None /\ has_http_scheme url = false)
  \/ (cl = Some url /\ Client_ok w url = true
      /\ (assoc url (URL_MAPPINGS w) = Some u
          \/ (u = url /\ has_http_scheme url = true))).
Proof.
  unfold resolve_endpoint, make_client.
  destruct (assoc url (URL_MAPPINGS w)) as [canonical |] eqn:Ea.
  - destruct (Client_ok w url) eqn:Ec; simpl; [| discriminate].
    intros H. injection H as <- <-. right. auto.
  - destruct (has_http_scheme url) eqn:Eh.
    + destruct (Client_ok w url) eqn:Ec; simpl; [| discriminate].
      intros H. injection H as <- <-. right. auto.
    + destruct (path_exists w (abspath w url)) eqn:Ep; [| discriminate].
      intros H. injection H as <- <-. left. auto.
Qed.

(** X3.  A Concierge that [__init__] has constructed starts with both
    caches empty, has a waveform endpoint (a missing [dataselect_url] does
    not construct), and every endpoint without a client is an existing
    path: the waveform directory, the QuakeML file, the StationXML file and
    the RESP directory it holds all passed [os.path.exists].  The event and
    station endpoints are unconfigured exactly when their preference is
    absent. *)
Theorem constructed_concierge_is_consistent (w : World) (ur : UserRequest) (c : Concierge) :
  Concierge_init w ur = Ok c ->
  availability c = None /\ filtered_availability c = None
  /\ sncl_patterns c = ur_sncls ur
  /\ (exists v, ur_dataselect_url ur = Some v)
  /\ (dataselect_client c = None -> path_exists w (dataselect_url c) = true)
  /\ (forall u, event_client c = None -> event_url c = Some u -> path_exists w u = true)
  /\ (forall u, station_client c = None -> station_url c = Some u -> path_exists w u = true)
  /\ (forall d, resp_dir c = Some d -> path_exists w d = true)
  /\ (event_url c = None <-> ur_event_url ur = None)
  /\ (station_url c = None <-> ur_station_url ur = None).
Proof.
  unfold Concierge_init.
  destruct (init_dataselect w (ur_dataselect_url ur)) as [[du dc] |] eqn:Ed;
    simpl; [| discriminate].
  destruct (init_event w (ur_event_url ur)) as [[eu ec] |] eqn:Ee; simpl; [| discriminate].
  destruct (init_station w (ur_station_url ur)) as [[su sc] |] eqn:Es;
    simpl; [| discriminate].
  destruct (init_resp_dir w (ur_resp_dir ur)) as [rd |] eqn:Er; simpl; [| discriminate].
  intros H. injection H as <-. simpl.
  split; [reflexivity |]. split; [reflexivity |]. split; [reflexivity |].
  split; [| split; [| split; [| split; [| split; [| split]]]]].
  - unfold init_dataselect in Ed. destruct (ur_dataselect_url ur) as [v |]; [| discriminate].
    exists v. reflexivity.
  - intros Hc. subst dc. unfold init_dataselect in Ed.
    destruct (ur_dataselect_url ur) as [v |]; [| discriminate].
    apply resolve_endpoint_ok in Ed.
    destruct Ed as [(_ & _ & Hp & _) | (Hc & _)]; [assumption | discriminate].
  - intros u Hc Hu. subst ec eu. unfold init_event in Ee.
    destruct (ur_event_url ur) as [v |]; [| discriminate].
    destruct (resolve_endpoint w "event_url" v) as [[u' cl] |] eqn:E; simpl in Ee;
      [| discriminate].
    injection Ee as Hu Hc. subst u' cl. apply resolve_endpoint_ok in E.
    destruct E as [(_ & _ & Hp & _) | (Hc & _)]; [assumption | discriminate].
  - intros u Hc Hu. subst sc su. unfold init_station in Es.
    destruct (ur_station_url ur) as [v |]; [| discriminate].
    destruct (resolve_endpoint w "station_url" v) as [[u' cl] |] eqn:E; simpl in Es;
      [| discriminate].
    injection Es as Hu Hc. subst u' cl. apply resolve_endpoint_ok in E.
    destruct E as [(_ & _ & Hp & _) | (Hc & _)]; [assumption | discriminate].
  - intros d Hd. subst rd. unfold init_resp_dir in Er.
    destruct (ur_resp_dir ur) as [v |]; [| discriminate].
    destruct (is_some (assoc v (URL_MAPPINGS w))); [discriminate |].
    destruct (path_exists w (abspath w v)) eqn:Ep; [| discriminate].
    injection Er as <-. assumption.
  - unfold init_event in Ee. destruct (ur_event_url ur) as [v |].
    + destruct (resolve_endpoint w "event_url" v) as [[u' cl] |]; simpl in Ee;
        [| discriminate].
      injection Ee as <- <-. split; discriminate.
    + injection Ee as <- <-. split; reflexivity.
  - unfold init_station in Es. destruct (ur_station_url ur) as [v |].
    + destruct (resolve_endpoint w "station_url" v) as [[u' cl] |]; simpl in Es;
        [| discriminate].
      injection Es as <- <-. split; discriminate.
    + injection Es as <- <-. split; reflexivity.
Qed.

Lemma constructed_concierge_is_consistent_witness :
  let ur := mkUserRequest Demo.jan1 Demo.jan2 ["IU.ANMO.00.BHZ"]
              (Some "/data") None (Some "/meta/station.xml") (Some "IRIS") in
  exists c,
    Concierge_init Demo.world ur = Ok c
    /\ dataselect_client c = None
    /\ path_exists Demo.world (dataselect_url c) = true
    /\ event_url c = None.
Proof.
  intros ur.
  destruct (Concierge_init Demo.world ur) as [c | e] eqn:E;
    [| vm_compute in E; discriminate E].
  exists c.
  pose proof (@constructed_concierge_is_consistent Demo.world ur c E)
    as (_ & _ & _ & _ & Hd & _ & _ & _ & He & _).
  assert (Hcl : dataselect_client c = None).
  { vm_compute in E. injection E as <-. reflexivity. }
  split; [reflexivity |]. split; [exact Hcl |]. split; [exact (Hd Hcl) |].
  apply He. reflexivity.
Defined.

(** *** An empty waveform directory *)





(** *** Splitting and joining identifiers *)

Lemma split_free (sep : ascii) (s : string) :
  free_of sep s = true -> PyStr.split sep s = [s].
Proof.
  induction s as [| c s IH]; [reflexivity |].
  unfold free_of. simpl. intros H. apply andb_true_iff in H. destruct H as [Hc Hs].
  apply negb_true_iff in Hc. rewrite Hc. rewrite (IH Hs). reflexivity.
Qed.

Lemma split_app_sep (sep : ascii) (s t : string) :
  free_of sep s = true ->
  PyStr.split sep (s ++ String sep t) = s :: PyStr.split sep t.
Proof.
  induction s as [| c s IH]; intros Hs.
  - simpl. rewrite Ascii.eqb_refl. reflexivity.
  - unfold free_of in Hs. simpl in Hs. apply andb_true_iff in Hs. destruct Hs as [Hc Hs].
    apply negb_true_iff in Hc. simpl. rewrite Hc. rewrite (IH Hs). reflexivity.
Qed.

Lemma split_pieces_free (sep : ascii) (s : string) :
  Forall (fun piece => free_of sep piece = true) (PyStr.split sep s).
Proof.
  induction s as [| c s IH]; simpl.
  - constructor; [reflexivity | constructor].
  - destruct (Ascii.eqb c sep) eqn:Ec.
    + constructor; [reflexivity | assumption].
    + destruct (PyStr.split sep s) as [| h t]; [constructor; [| constructor] |].
      * unfold free_of. simpl. rewrite Ec. reflexivity.
      * apply Forall_cons_iff in IH. destruct IH as [Hh Ht]. constructor; [| assumption].
        unfold free_of in *. simpl. rewrite Ec, Hh. reflexivity.
Qed.

(** X5.  Parsing a pattern and joining its parts are inverse to each
    other: a pattern that parses is the dot-join of its four parts, none of
    which holds a dot, and four dot-free parts joined by dots parse back to
    themselves.  So a call without overrides resolves every listed pattern
    to itself. *)
Theorem parse_and_join_are_inverse (n s l c : string) :
  (forall p, parse_sncl_pattern p = Ok (n, s, l, c) ->
             join_sncl n s l c = p
             /\ free_of "." n = true /\ free_of "." s = true
             /\ free_of "." l = true /\ free_of "." c = true)
  /\ (free_of "." n = true -> free_of "." s = true ->
      free_of "." l = true -> free_of "." c = true ->
      parse_sncl_pattern (join_sncl n s l c) = Ok (n, s, l, c)).
Proof.
  split.
  - intros p Hp. unfold parse_sncl_pattern in Hp.
    pose proof (join_split "." p) as Hj. pose proof (split_pieces_free "." p) as Hf.
    destruct (PyStr.split "." p) as [| p1 [| p2 [| p3 [| p4 [| ? ?]]]]]; try discriminate.
    injection Hp as -> -> -> ->.
    apply Forall_cons_iff in Hf. destruct Hf as [H1 Hf].
    apply Forall_cons_iff in Hf. destruct Hf as [H2 Hf].
    apply Forall_cons_iff in Hf. destruct Hf as [H3 Hf].
    apply Forall_cons_iff in Hf. destruct Hf as [H4 _].
    split; [exact Hj |]. auto.
  - intros Hn Hs Hl Hc. unfold parse_sncl_pattern, join_sncl.
    change (n ++ "." ++ s ++ "." ++ l ++ "." ++ c)
      with (n ++ String "." (s ++ String "." (l ++ String "." c))).
    rewrite (@split_app_sep "." n _ Hn), (@split_app_sep "." s _ Hs),
      (@split_app_sep "." l _ Hl).
    rewrite (@split_free "." c Hc). reflexivity.
Qed.

Lemma parse_and_join_are_inverse_witness :
  parse_sncl_pattern (join_sncl "IU" "ANMO" "" "BH?") = Ok ("IU", "ANMO", "", "BH?").
Proof.
  apply (proj2 (parse_and_join_are_inverse "IU" "ANMO" "" "BH?")); reflexivity.
Defined.

(** *** A malformed pattern *)

Lemma parse_sncl_pattern_malformed (p : string) :
  List.length (PyStr.split "." p) <> 4%nat ->
  parse_sncl_pattern p = Raise (ValueError ("Could not parse sncl_pattern " ++ p)).
Proof.
  unfold parse_sncl_pattern.
  destruct (PyStr.split "." p) as [| ? [| ? [| ? [| ? [| ? ?]]]]]; simpl;
    intros H; try reflexivity. congruence.
Qed.

(** X6.  Without the three wildcard overrides a malformed pattern (not
    exactly four dot-separated parts) is never skipped: wherever it stands
    in the list, once the patterns before it have been evaluated without an
    exception, the loop raises [ValueError] naming it, and with a remote
    station service the whole call raises it and leaves the Concierge
    untouched. *)
Theorem malformed_pattern_raises (w : World) (st : Concierge) (a : AvArgs)
    (before : list string) (p : string) (after : list string) :
  is_star (a_network a) && is_star (a_station a) && is_star (a_location a) = false ->
  (forall q, In q before -> exists r, pattern_frame w st a q = Ok r) ->
  List.length (PyStr.split "." p) <> 4%nat ->
  (forall n acc,
      pattern_loop w st a n acc (before ++ p :: after)
      = Raise (ValueError ("Could not parse sncl_pattern " ++ p)))
  /\ (station_client st <> None -> sncl_patterns st = (before ++ p :: after)%list ->
      get_availability w st a
      = (st, Raise (ValueError ("Could not parse sncl_pattern " ++ p)))).
Proof.
  intros Hstar Hbefore Hbad.
  assert (Hloop : forall n acc,
             pattern_loop w st a n acc (before ++ p :: after)
             = Raise (ValueError ("Could not parse sncl_pattern " ++ p))).
  { induction before as [| q before IH]; intros n acc; cbn [app pattern_loop];
      rewrite Hstar; cbn [andb].
    - unfold pattern_frame. rewrite (parse_sncl_pattern_malformed p Hbad). reflexivity.
    - destruct (Hbefore q (or_introl eq_refl)) as [r ->].
      assert (Hb : forall q', In q' before -> exists r, pattern_frame w st a q' = Ok r)
        by (intros q' Hin; apply Hbefore; right; assumption).
      destruct r as [[| row df] |]; apply (IH Hb). }
  split; [exact Hloop |].
  intros Hcl Hpat. unfold get_availability, build_local_availability.
  destruct (station_client st); [| congruence].
  rewrite Hpat, Hloop. reflexivity.
Qed.

Lemma malformed_pattern_raises_witness :
  let st := Demo.remote_concierge ["IU.ANMO.00.BHZ"; "IU.ANMO.BHZ"; "GE.*.*.*"]
              Demo.jan1 Demo.jan2 in
  get_availability Demo.world st Demo.no_args
  = (st, Raise (ValueError "Could not parse sncl_pattern IU.ANMO.BHZ")).
Proof.
  intros st.
  refine (proj2 (@malformed_pattern_raises Demo.world st Demo.no_args
                   ["IU.ANMO.00.BHZ"] "IU.ANMO.BHZ" ["GE.*.*.*"] eq_refl _ _) _ eq_refl).
  - intros q [<- | []]. eexists. vm_compute. reflexivity.
  - vm_compute. intros H. discriminate H.
  - discriminate.
Defined.

(** *** Where the rows of a result come from *)

Lemma select_incl (df : DataFrame) :
  forall mask r, In r (select df mask) -> In r df.
Proof.
  induction df as [| x df IH]; intros mask r Hin; [destruct mask; contradiction |].
  destruct mask as [| b mask]; [contradiction |]. simpl in Hin.
  destruct b; [destruct Hin as [-> | Hin]; [now left |] |]; right; eapply IH; eassumption.
Qed.

Lemma Forall_select (P : Row -> Prop) (df : DataFrame) (mask : list bool) :
  Forall P df -> Forall P (select df mask).
Proof.
  intros H. apply Forall_forall. intros r Hin.
  eapply Forall_forall; [exact H | eapply select_incl; eassumption].
Qed.

Lemma Forall_filterM (P : Row -> Prop) (f : Row -> result bool) (df df' : DataFrame) :
  filterM f df = Ok df' -> Forall P df -> Forall P df'.
Proof.
  intros Hf H. apply Forall_forall. intros r Hin.
  apply (filterM_In _ _ Hf r) in Hin. destruct Hin as [Hin _].
  eapply Forall_forall; eassumption.
Qed.

Lemma subset_by_pattern_rows (P : Row -> Prop) (pat : string) (df df' : DataFrame) :
  subset_by_pattern pat df = Ok df' -> Forall P df -> Forall P df'.
Proof.
  unfold subset_by_pattern.
  destruct (str_contains (py_pattern_of pat) df) as [mask |]; simpl; [| discriminate].
  intros H. injection H as <-. apply Forall_select.
Qed.

Lemma subset_by_local_files_rows (P : Row -> Prop) (w : World) (st : Concierge)
    (filepattern : string) (df df' : DataFrame) :
  subset_by_local_files w st filepattern df = Ok (Some df') -> Forall P df -> Forall P df'.
Proof.
  unfold subset_by_local_files.
  destruct (dataselect_client st); [intros H; injection H as <-; auto |].
  destruct (glob w filepattern) as [| f fs]; [discriminate |].
  destruct (str_contains "MASK WITH ALL FALSE" df) as [mask0 |]; cbn [bind];
    [| discriminate].
  destruct (files_mask df mask0 (f :: fs)) as [mask |]; cbn [bind]; [| discriminate].
  intros H. injection H as <-. apply Forall_select.
Qed.

Lemma subset_by_distance_rows (P : Row -> Prop) (w : World) (a : AvArgs)
    (df df' : DataFrame) :
  subset_by_distance w a df = Ok df' -> Forall P df -> Forall P df'.
Proof.
  unfold subset_by_distance.
  destruct (is_some (a_maxradius a) || is_some (a_minradius a)).
  - apply Forall_filterM.
  - intros H. injection H as <-. auto.
Qed.

Lemma pattern_frame_rows (P : Row -> Prop) (w : World) (st : Concierge) (a : AvArgs)
    (p : string) (df : DataFrame) :
  match station_client st with
  | None => forall cat, availability st = Some cat -> Forall P cat
  | Some _ => forall inv, Forall P (inventory_rows (fun _ => true) inv)
  end ->
  pattern_frame w st a p = Ok (Some df) -> Forall P df.
Proof.
  intros Hsrc. unfold pattern_frame.
  destruct (parse_sncl_pattern p) as [[[[n s] l] c] | e]; simpl; [| discriminate].
  match goal with
  | |- match ?src with _ => _ end = _ -> _ =>
      assert (Hs : forall df0, src = Some df0 -> Forall P df0);
        [| destruct src as [df0 |]; [specialize (Hs df0 eq_refl) | discriminate]]
  end.
  { intros df0. destruct (station_client st).
    - destruct (get_stations w _) as [inv |]; [| discriminate].
      intros H. injection H as <-. apply Hsrc.
    - apply Hsrc. }
  destruct (subset_by_pattern _ df0) as [df1 |] eqn:E1; simpl; [| discriminate].
  destruct (subset_by_local_files w st _ df1) as [[df2 |] |] eqn:E2; simpl;
    try discriminate.
  destruct (subset_by_distance w a df2) as [df3 |] eqn:E3; simpl; [| discriminate].
  intros H. injection H as <-.
  eapply subset_by_distance_rows; [exact E3 |].
  eapply subset_by_local_files_rows; [exact E2 |].
  eapply subset_by_pattern_rows; [exact E1 | exact Hs].
Qed.

Lemma pattern_loop_rows (P : Row -> Prop) (w : World) (st : Concierge) (a : AvArgs) :
  match station_client st with
  | None => forall cat, availability st = Some cat -> Forall P cat
  | Some _ => forall inv, Forall P (inventory_rows (fun _ => true) inv)
  end ->
  forall patterns n acc frames,
    pattern_loop w st a n acc patterns = Ok frames ->
    Forall (Forall P) acc -> Forall (Forall P) frames.
Proof.
  intros Hsrc. induction patterns as [| p rest IH]; intros n acc frames Hloop Hacc;
    cbn [pattern_loop] in Hloop.
  - injection Hloop as <-. assumption.
  - destruct (is_star (a_network a) && is_star (a_station a) && is_star (a_location a)
              && (1 <? n + 1)); [eapply IH; eassumption |].
    destruct (pattern_frame w st a p) as [[df |] | e] eqn:Ef; [| | discriminate].
    + pose proof (@pattern_frame_rows P w st a p df Hsrc Ef) as Hdf.
      destruct df as [| r df]; [eapply IH; eassumption |].
      eapply IH; [eassumption |]. apply Forall_app. split; [assumption |].
      constructor; [assumption | constructor].
    + eapply IH; eassumption.
Qed.

Lemma Forall_concat (P : Row -> Prop) (frames : list DataFrame) :
  Forall (Forall P) frames -> Forall P (List.concat frames).
Proof.
  induction 1 as [| f frames Hf _ IH]; simpl; [constructor |].
  apply Forall_app. split; assumption.
Qed.

Lemma merged_rows (P : Row -> Prop) (st : Concierge) (frames : list DataFrame)
    (av : DataFrame) :
  Forall (Forall P) frames ->
  snd (merge_availability st frames) = Ok (Some av) -> Forall P av.
Proof.
  intros Hf Hm. apply merge_availability_some in Hm. destruct Hm as [-> _].
  apply Forall_forall. intros r Hin. apply drop_duplicates_from_incl in Hin.
  eapply Forall_forall; [apply Forall_concat; exact Hf | exact Hin].
Qed.

(** X7.  With a local station-metadata source and the catalog already
    stored, every row that [get_availability] returns is a row of the
    stored catalog: the subsetting by pattern, by local files and by
    distance and the de-duplication only ever remove rows. *)
Theorem returned_rows_come_from_the_catalog (w : World) (st : Concierge) (a : AvArgs)
    (cat av : DataFrame) :
  station_client st = None ->
  availability st = Some cat ->
  snd (get_availability w st a) = Ok (Some av) ->
  forall r, In r av -> In r cat.
Proof.
  intros Hcl Hav Hres. rewrite get_availability_unfold in Hres. unfold frames_of in Hres.
  rewrite (build_local_availability_cached w st a Hav) in Hres. simpl in Hres.
  destruct (pattern_loop w st a 0 [] (sncl_patterns st)) as [frames |] eqn:El;
    [| discriminate].
  assert (Hall : Forall (Forall (fun r => In r cat)) frames).
  { eapply (@pattern_loop_rows (fun r => In r cat) w st a); [| exact El | constructor].
    rewrite Hcl. intros cat' E. rewrite Hav in E. injection E as <-.
    apply Forall_forall. auto. }
  intros r Hin.
  exact (proj1 (Forall_forall _ _) (@merged_rows _ st frames av Hall Hres) r Hin).
Qed.

Lemma returned_rows_come_from_the_catalog_witness :
  let st0 := Demo.local_concierge ["IU.ANMO.00.*"; "GE.*.*.BHZ"] Demo.jan1 Demo.jan2 in
  let st1 := fst (get_availability Demo.world st0 Demo.no_args) in
  let a := mkAvArgs None None None (Some "BH?") None None None None None None in
  exists cat av,
    availability st1 = Some cat
    /\ snd (get_availability Demo.world st1 a) = Ok (Some av)
    /\ map snclId av = ["IU.ANMO.00.BHZ"; "GE.KBS.10.BHZ"]
    /\ forall r, In r av -> In r cat.
Proof.
  intros st0 st1 a.
  destruct (availability st1) as [cat |] eqn:Ec; [| vm_compute in Ec; discriminate Ec].
  destruct (snd (get_availability Demo.world st1 a)) as [[av |] | e] eqn:Ea;
    try (vm_compute in Ea; discriminate Ea).
  exists cat, av. split; [reflexivity |]. split; [reflexivity |]. split.
  - vm_compute in Ea. injection Ea as <-. reflexivity.
  - exact (@returned_rows_come_from_the_catalog Demo.world st1 a cat av eq_refl Ec Ea).
Defined.

(** *** The shape of the rows *)

Lemma channel_row_canonical (n : Network) (s : Station) (c : Channel) :
  canonical_row (channel_row n s c).
Proof. unfold canonical_row. simpl. repeat split. Qed.

Lemma file_row_canonical (n s l c : string) : canonical_row (file_row n s l c).
Proof. unfold canonical_row. simpl. repeat split. Qed.

Lemma inventory_rows_canonical (keep : Channel -> bool) (inv : Inventory) :
  Forall canonical_row (inventory_rows keep inv).
Proof.
  unfold inventory_rows. apply Forall_forall. intros r Hin.
  apply in_flat_map in Hin. destruct Hin as [n [_ Hin]].
  apply in_flat_map in Hin. destruct Hin as [s [_ Hin]].
  apply in_flat_map in Hin. destruct Hin as [c [_ Hin]].
  destruct (keep c); [| contradiction].
  destruct Hin as [<- | []]. apply channel_row_canonical.
Qed.

Lemma add_local_files_canonical (files : list string) :
  forall df, Forall canonical_row df -> Forall canonical_row (fst (add_local_files df files)).
Proof.
  induction files as [| f rest IH]; intros df Hdf; simpl; [assumption |].
  destruct (file_sncl f) as [[[[n s] l] c] |]; [| assumption].
  destruct (str_contains (join_sncl n s l c) df) as [hits |]; [| assumption].
  destruct (existsb (fun b => b) hits); apply IH; [assumption |].
  apply Forall_app. split; [assumption |].
  constructor; [apply file_row_canonical | constructor].
Qed.

Lemma build_patterns_canonical (w : World) (st : Concierge) (a : AvArgs) (t : UTCDateTime)
    (patterns : list string) :
  forall df stored,
    Forall canonical_row df ->
    Forall canonical_row (fst (fst (build_patterns w st a t df stored patterns))).
Proof.
  induction patterns as [| p rest IH]; intros df stored Hdf; cbn [build_patterns];
    [assumption |].
  destruct (parse_sncl_pattern p) as [[[[n s] l] c] |]; [| assumption].
  destruct (dataselect_client st); [apply IH; assumption |].
  destruct (glob w _) as [| f fs]; [apply IH; assumption |].
  pose proof (@add_local_files_canonical (f :: fs) df Hdf) as Hadd.
  destruct (add_local_files df (f :: fs)) as [df' [u | e]]; simpl in Hadd.
  - apply IH. assumption.
  - assumption.
Qed.

Lemma build_local_availability_canonical (w : World) (st : Concierge) (a : AvArgs) :
  canonical_cache st -> canonical_cache (fst (build_local_availability w st a)).
Proof.
  intros Hinv. unfold build_local_availability.
  destruct (station_client st); [assumption |].
  destruct (availability st) eqn:Eav; [assumption |].
  destruct (read_station_metadata w st) as [inv |]; [| assumption].
  match goal with
  | |- context [build_patterns ?w ?st ?a ?t ?df ?b ?ps] =>
      assert (Hb : Forall canonical_row (fst (fst (build_patterns w st a t df b ps))));
        [apply build_patterns_canonical | destruct (build_patterns w st a t df b ps)
                                              as [[df' stored] r]]
  end.
  { destruct inv as [inv |]; [apply inventory_rows_canonical | constructor]. }
  destruct stored; [| assumption].
  intros cat E. simpl in E. injection E as <-. exact Hb.
Qed.

Lemma returned_rows_canonical (w : World) (st : Concierge) (a : AvArgs) (av : DataFrame) :
  canonical_cache st ->
  snd (get_availability w st a) = Ok (Some av) -> Forall canonical_row av.
Proof.
  intros Hinv. pose proof (@build_local_availability_canonical w st a Hinv) as Hb.
  rewrite get_availability_unfold. unfold frames_of.
  destruct (build_local_availability w st a) as [st1 [u | e]] eqn:Eb; simpl in *;
    [| discriminate].
  destruct (pattern_loop w st1 a 0 [] (sncl_patterns st1)) as [frames |] eqn:El; simpl;
    [| discriminate].
  intros Hres. eapply merged_rows; [| exact Hres].
  eapply (@pattern_loop_rows canonical_row w st1 a); [| exact El | constructor].
  destruct (station_client st1); [intros inv; apply inventory_rows_canonical |].
  exact Hb.
Qed.

(** X8.  Every row that this module stores or returns has the identifier
    [network.station.location.channel] of its own four codes and carries no
    instrument scale, scale frequency or scale units: if that holds of the
    stored catalog before a call of [get_availability] (as it does of a
    newly constructed Concierge), it holds of the stored catalog after the
    call and of the dataframe the call returns. *)
Theorem rows_are_canonical (w : World) (st : Concierge) (a : AvArgs) :
  canonical_cache st ->
  canonical_cache (fst (get_availability w st a))
  /\ forall av, snd (get_availability w st a) = Ok (Some av) -> Forall canonical_row av.
Proof.
  intros Hinv. split; [| intros av; apply returned_rows_canonical; assumption].
  pose proof (@build_local_availability_canonical w st a Hinv) as Hb.
  rewrite get_availability_unfold.
  destruct (frames_of w st a) as [frames | e]; [| exact Hb].
  intros cat E. rewrite (proj1 (merge_availability_keeps_catalog _ frames)) in E.
  exact (Hb cat E).
Qed.

Lemma rows_are_canonical_witness :
  let st := Demo.local_concierge ["IU.ANMO.00.*"; "GE.*.*.BHZ"] Demo.jan1 Demo.jan2 in
  exists av,
    snd (get_availability Demo.world st Demo.no_args) = Ok (Some av)
    /\ Forall canonical_row av.
Proof.
  intros st.
  destruct (snd (get_availability Demo.world st Demo.no_args)) as [[av |] | e] eqn:E;
    try (vm_compute in E; discriminate E).
  exists av. split; [reflexivity |].
  refine (proj2 (@rows_are_canonical Demo.world st Demo.no_args _) av E).
  intros cat H. discriminate H.
Defined.

(** *** Local waveforms *)

Lemma get_dataselect_raises_on_missing_day_witness :
  let st := Demo.local_concierge ["IU.ANMO.00.BHZ"] Demo.jan1 Demo.jan4 in
  get_dataselect Demo.without_day_2 st Demo.anmo_bhz
  = (st, Raise (Exception_ "No files found matching '/data/IU.ANMO.00.BHZ.2013.002*'")).
Proof.
  intros st.
  refine (@get_dataselect_raises_on_missing_day Demo.without_day_2 st Demo.anmo_bhz
            [0] 1 [2] eq_refl _ eq_refl _ eq_refl).
  - vm_compute. intros H. discriminate H.
  - intros dd [<- | []]. vm_compute. intros H. discriminate H.
Defined.

Lemma range_nonpositive (n : Z) : n <= 0 -> range n = [].
Proof.
  intros H. unfold range. replace (Z.to_nat n) with 0%nat by lia. reflexivity.
Qed.

Lemma in_range (n dd : Z) : In dd (range n) <-> 0 <= dd < n.
Proof.
  unfold range. rewrite in_map_iff. split.
  - intros [k [<- Hk]]. apply in_seq in Hk. lia.
  - intros H. exists (Z.to_nat dd). split; [lia |]. apply in_seq. lia.
Qed.

Lemma range_last (n : Z) : 0 < n -> range n = (range (n - 1) ++ [n - 1])%list.
Proof.
  intros H. unfold range.
  replace (Z.to_nat n) with (S (Z.to_nat (n - 1))) by lia.
  rewrite seq_S, map_app. simpl. f_equal. f_equal. lia.
Qed.

(** X9.  The two ways in which a local request ends in
    [UnboundLocalError] instead of a retrieval error: when the day count of
    line 631 is zero or negative (the day loop does not run and [filepath]
    is never bound), and when the count is one and no file matches the
    day (nothing is raised at line 640 and [r_stream] is never bound).  The
    Concierge is left as it was. *)
Theorem unbound_local_cases (w : World) (st : Concierge) (d : DsArgs) :
  let t0 := override (d_starttime d) (requested_starttime st) in
  let t1 := override (d_endtime d) (requested_endtime st) in
  dataselect_client st = None ->
  nday_of t0 t1 <= 0 \/ (nday_of t0 t1 = 1 /\ glob w (day_filepattern st d t0) = []) ->
  get_dataselect w st d = (st, Raise UnboundLocalError).
Proof.
  intros t0 t1 Hcl Hcase. unfold get_dataselect. rewrite Hcl. fold t0 t1.
  destruct Hcase as [Hn | [Hn Hglob]].
  - destruct (Z.eqb_spec (nday_of t0 t1) 1) as [E | _]; [lia |].
    unfold read_multi_day. rewrite (range_nonpositive Hn). cbn [day_loop].
    destruct (obspy_read_bytes w []) as [py |]; reflexivity.
  - rewrite Hn. cbn [Z.eqb Pos.eqb]. unfold read_single_day. rewrite Hglob. reflexivity.
Qed.

Lemma unbound_local_cases_witness :
  let st := Demo.local_concierge ["IU.ANMO.00.BHZ"] Demo.jan1 Demo.jan2 in
  let over_new_year :=
    mkDsArgs (Some "IU") (Some "ANMO") (Some "00") (Some "BHZ")
      (Some (UTC.make 2013 12 31 12 0 0)) (Some (UTC.make 2014 1 1 12 0 0))
      None None false false in
  let no_such_channel :=
    mkDsArgs (Some "IU") (Some "ANMO") (Some "00") (Some "HHZ")
      None None None None false false in
  get_dataselect Demo.world st over_new_year = (st, Raise UnboundLocalError)
  /\ get_dataselect Demo.world st no_such_channel = (st, Raise UnboundLocalError).
Proof.
  intros st over_new_year no_such_channel. split.
  - apply (@unbound_local_cases Demo.world st over_new_year eq_refl).
    left. vm_compute. intros H. discriminate H.
  - apply (@unbound_local_cases Demo.world st no_such_channel eq_refl).
    right. split; vm_compute; reflexivity.
Defined.

Lemma fold_left_last_file (f : Z -> string) (days : list Z) (last_day : Z)
    (fp : option string) :
  fold_left (fun _ dd => Some (f dd)) (days ++ [last_day])%list fp = Some (f last_day).
Proof. rewrite fold_left_app. reflexivity. Qed.

(** X10.  A local request over [nday > 1] days with a file for every day:
    the bytes of the first matching file of each day are concatenated in
    day order and parsed once; the stream is sliced and enriched once, with
    the quality flags read from the last day's file; an exception of
    the parser or of the enrichment is re-raised as it is. *)
Theorem multi_day_stream_is_read_in_day_order (w : World) (st : Concierge) (d : DsArgs) :
  let t0 := override (d_starttime d) (requested_starttime st) in
  let t1 := override (d_endtime d) (requested_endtime st) in
  let nday := nday_of t0 t1 in
  let first_file dd := hd "" (glob w (day_filepattern st d (day_start t0 dd))) in
  dataselect_client st = None ->
  1 < nday ->
  (forall dd, 0 <= dd < nday -> glob w (day_filepattern st d (day_start t0 dd)) <> []) ->
  get_dataselect w st d
  = match obspy_read_bytes w (flat_map (fun dd => file_bytes w (first_file dd)) (range nday)) with
    | None => (st, Raise ExternalError)
    | Some py_stream =>
        match slice_and_enrich w st d py_stream t0 t1 (Some (first_file (nday - 1))) with
        | (st1, Raise e) => (st1, Raise e)
        | (st1, Ok r_stream) => (st1, require_traces w r_stream)
        end
    end.
Proof.
  intros t0 t1 nday first_file Hcl Hn Hall.
  rewrite (@get_dataselect_reads_every_day w st d Hcl).
  - fold t0 t1 nday.
    assert (Hfold : fold_left (fun (_ : option string) dd => Some (first_file dd))
                      (range nday) None
                    = Some (first_file (nday - 1))).
    { rewrite (@range_last nday) by lia. apply fold_left_last_file. }
    unfold first_file in *. rewrite Hfold. reflexivity.
  - fold t0 t1 nday. lia.
  - fold t0 t1 nday. intros dd Hin. apply Hall. apply in_range. assumption.
Qed.

Lemma multi_day_stream_is_read_in_day_order_witness :
  let st := Demo.local_concierge ["IU.ANMO.00.BHZ"] Demo.jan1 Demo.jan4 in
  option_map fst
    match snd (get_dataselect Demo.world st Demo.anmo_bhz) with
    | Ok r => Some r
    | Raise _ => None
    end
  = Some (list_byte_of_string
            ("/data/IU.ANMO.00.BHZ.2013.001.M" ++ "/data/IU.ANMO.00.BHZ.2013.002.M"
             ++ "/data/IU.ANMO.00.BHZ.2013.003.M")).
Proof.
  intros st.
  rewrite (@multi_day_stream_is_read_in_day_order Demo.world st Demo.anmo_bhz eq_refl).
  - vm_compute. reflexivity.
  - vm_compute. reflexivity.
  - intros dd Hdd.
    assert (Hn : nday_of (override (d_starttime Demo.anmo_bhz) (requested_starttime st))
                   (override (d_endtime Demo.anmo_bhz) (requested_endtime st)) = 3)
      by (vm_compute; reflexivity).
    rewrite Hn in Hdd.
    assert (Hcases : dd = 0 \/ dd = 1 \/ dd = 2) by lia.
    destruct Hcases as [-> | [-> | ->]]; vm_compute; intros H; discriminate H.
Defined.

(** *** What a local stream carries *)

Lemma canonical_cache_fresh (st : Concierge) : availability st = None -> canonical_cache st.
Proof. intros H cat E. congruence. Qed.

Lemma enrich_ok (w : World) (st : Concierge) (d : DsArgs) (py : PyStream w)
    (t0 t1 : UTCDateTime) (flags : list Z) (r : RStream w) :
  canonical_cache st ->
  snd (enrich w st d py t0 t1 flags) = Ok r ->
  exists meta,
    R_Stream w py meta = Some r
    /\ m_starttime meta = t0 /\ m_endtime meta = t1
    /\ m_scale meta = Fin 1 /\ m_scalefreq meta = Fin 1 /\ m_scaleunits meta = ""
    /\ m_act_flags meta = [0; 0; 0; 0; 0; 0; 0; 0]
    /\ m_io_flags meta = [0; 0; 0; 0; 0; 0; 0; 0]
    /\ m_dq_flags meta = flags.
Proof.
  intros Hinv. unfold enrich.
  match goal with
  | |- context [get_availability ?w ?st ?a] =>
      pose proof (fun av => @returned_rows_canonical w st a av Hinv) as Hrows;
      destruct (get_availability w st a) as [st1 [[[| row rows] |] | e]]
  end; simpl; try discriminate.
  specialize (Hrows (row :: rows) eq_refl). apply Forall_cons_iff in Hrows.
  destruct Hrows as [(_ & Hs & Hf & Hu) _]. rewrite Hs, Hf, Hu.
  match goal with
  | |- external (R_Stream w py ?m) = _ -> _ =>
      destruct (R_Stream w py m) as [r' |] eqn:Er; simpl; [| discriminate];
        intros H; injection H as <-; exists m
  end.
  repeat split; assumption || reflexivity.
Qed.

Lemma slice_and_enrich_ok (w : World) (st : Concierge) (d : DsArgs) (py : PyStream w)
    (t0 t1 : UTCDateTime) (fp : option string) (r : RStream w) :
  canonical_cache st ->
  snd (slice_and_enrich w st d py t0 t1 fp) = Ok r ->
  exists py' meta,
    R_Stream w py' meta = Some r
    /\ m_starttime meta = t0
    /\ m_endtime meta = (if d_inclusiveEnd d then t1 else t1 - 1)
    /\ m_scale meta = Fin 1 /\ m_scalefreq meta = Fin 1 /\ m_scaleunits meta = ""
    /\ m_act_flags meta = [0; 0; 0; 0; 0; 0; 0; 0]
    /\ m_io_flags meta = [0; 0; 0; 0; 0; 0; 0; 0].
Proof.
  intros Hinv. unfold slice_and_enrich.
  destruct fp as [path |]; [| discriminate].
  destruct (get_timing_and_data_quality w path) as [flags |]; [| discriminate].
  intros H. apply (enrich_ok _ _ _ _ _ _ Hinv) in H.
  destruct H as (meta & H1 & H2 & H3 & H4 & H5 & H6 & H7 & H8 & _).
  eexists. exists meta. split; [exact H1 |]. split; [exact H2 |].
  split; [rewrite H3; unfold sub_usec; reflexivity |]. auto 10.
Qed.

Lemma require_traces_ok (w : World) (r0 r : RStream w) :
  require_traces w r0 = Ok r -> r = r0 /\ traces_len w r <> 0%nat.
Proof.
  unfold require_traces. destruct (Nat.eqb_spec (traces_len w r0) 0); [discriminate |].
  intros H. injection H as <-. split; [reflexivity | assumption].
Qed.

(** X11.  Whatever stream a local [get_dataselect] returns has at least
    one trace and was built by [R_Stream] with the requested start time,
    the requested end time less one microsecond unless [inclusiveEnd], the
    default scale 1.0, scale frequency 1.0 and empty scale units, and
    all-zero activity and I/O flags: the instrument scale is never read
    from the metadata. *)
Theorem local_stream_metadata (w : World) (st : Concierge) (d : DsArgs) (r : RStream w) :
  let t0 := override (d_starttime d) (requested_starttime st) in
  let t1 := override (d_endtime d) (requested_endtime st) in
  dataselect_client st = None ->
  canonical_cache st ->
  snd (get_dataselect w st d) = Ok r ->
  traces_len w r <> 0%nat
  /\ exists py meta,
       R_Stream w py meta = Some r
       /\ m_starttime meta = t0
       /\ m_endtime meta = (if d_inclusiveEnd d then t1 else t1 - 1)
       /\ m_scale meta = Fin 1 /\ m_scalefreq meta = Fin 1 /\ m_scaleunits meta = ""
       /\ m_act_flags meta = [0; 0; 0; 0; 0; 0; 0; 0]
       /\ m_io_flags meta = [0; 0; 0; 0; 0; 0; 0; 0].
Proof.
  intros t0 t1 Hcl Hinv. unfold get_dataselect. rewrite Hcl. fold t0 t1.
  assert (Hfin : forall py fp,
             snd (match slice_and_enrich w st d py t0 t1 fp with
                  | (st1, Raise e) => (st1, Raise (reraise fp e))
                  | (st1, Ok r_stream) => (st1, require_traces w r_stream)
                  end) = Ok r ->
             traces_len w r <> 0%nat
             /\ exists py meta,
                  R_Stream w py meta = Some r
                  /\ m_starttime meta = t0
                  /\ m_endtime meta = (if d_inclusiveEnd d then t1 else t1 - 1)
                  /\ m_scale meta = Fin 1 /\ m_scalefreq meta = Fin 1
                  /\ m_scaleunits meta = ""
                  /\ m_act_flags meta = [0; 0; 0; 0; 0; 0; 0; 0]
                  /\ m_io_flags meta = [0; 0; 0; 0; 0; 0; 0; 0]).
  { intros py fp.
    pose proof (fun r0 => @slice_and_enrich_ok w st d py t0 t1 fp r0 Hinv) as Hs.
    destruct (slice_and_enrich w st d py t0 t1 fp) as [st1 [r0 | e]]; simpl;
      [| discriminate].
    intros H. apply require_traces_ok in H. destruct H as [-> Ht].
    split; [exact Ht |]. apply Hs. reflexivity. }
  destruct (nday_of t0 t1 =? 1).
  - unfold read_single_day. destruct (glob w _) as [| fp fps]; [discriminate |].
    destruct (obspy_read_file w fp) as [py |]; [| discriminate]. apply Hfin.
  - unfold read_multi_day. destruct (day_loop _ _ _ _ _ _ _) as [[x fp] | e];
      [| discriminate].
    destruct (obspy_read_bytes w x) as [py |].
    + apply Hfin.
    + destruct fp; discriminate.
Qed.

Lemma local_stream_metadata_witness :
  let st := Demo.local_concierge ["IU.ANMO.00.BHZ"] Demo.jan1 Demo.jan2 in
  exists r,
    snd (get_dataselect Demo.world st Demo.anmo_bhz) = Ok r
    /\ traces_len Demo.world r <> 0%nat
    /\ m_endtime (snd r) = Demo.jan2 - 1
    /\ m_scale (snd r) = Fin 1.
Proof.
  intros st.
  destruct (snd (get_dataselect Demo.world st Demo.anmo_bhz)) as [r | e] eqn:E;
    [| vm_compute in E; discriminate E].
  exists r. split; [reflexivity |].
  pose proof (@local_stream_metadata Demo.world st Demo.anmo_bhz r eq_refl
                (@canonical_cache_fresh st eq_refl) E)
    as [Ht _].
  split; [exact Ht |].
  vm_compute in E. injection E as <-. split; reflexivity.
Defined.

(** *** The subsetting by pattern as a substring search *)

Lemma all_chars_app (f : ascii -> bool) (s t : string) :
  all_chars f (s ++ t) = all_chars f s && all_chars f t.
Proof.
  induction s as [| c s IH]; simpl; [reflexivity |].
  rewrite IH. apply andb_assoc.
Qed.

Lemma wildcard_match_here_app (p : string) :
  forall mid post, all_chars Re.dot_ok mid = true ->
                   wildcard_match p mid = true ->
                   Re.match_here (toks_of p) (mid ++ post) = true.
Proof.
  induction p as [| c p IH]; intros mid post Hs Hm; [reflexivity |].
  cbn [toks_of]. unfold tok_of.
  destruct (Ascii.eqb_spec c "*") as [-> | Hstar].
  - induction mid as [| a mid IHm].
    + rewrite wildcard_star in Hm. rewrite orb_false_r in Hm.
      rewrite match_here_star. rewrite (IH "" post eq_refl Hm). reflexivity.
    + rewrite wildcard_star in Hm.
      simpl in Hs. apply andb_true_iff in Hs. destruct Hs as [Ha Hs].
      change (String a mid ++ post) with (String a (mid ++ post)).
      rewrite match_here_star.
      apply orb_true_iff in Hm. destruct Hm as [Hm | Hm].
      * change (String a (mid ++ post)) with (String a mid ++ post).
        rewrite IH; [reflexivity | simpl; rewrite Ha, Hs; reflexivity | assumption].
      * rewrite Ha, (IHm Hs Hm). apply orb_true_r.
  - destruct (Ascii.eqb_spec c "?") as [-> | Hqm].
    + rewrite wildcard_question in Hm. destruct mid as [| a mid]; [discriminate |].
      simpl in Hs. apply andb_true_iff in Hs. destruct Hs as [Ha Hs].
      change (String a mid ++ post) with (String a (mid ++ post)).
      cbn [Re.match_here]. rewrite Ha. apply IH; assumption.
    + rewrite wildcard_literal in Hm by assumption.
      destruct mid as [| a mid]; [discriminate |].
      simpl in Hs. apply andb_true_iff in Hs. destruct Hs as [Ha Hs].
      apply andb_true_iff in Hm. destruct Hm as [Hac Hm].
      change (String a mid ++ post) with (String a (mid ++ post)).
      cbn [Re.match_here]. rewrite Hac. apply IH; assumption.
Qed.

Lemma match_here_gives_prefix (p : string) :
  forall s, Re.match_here (toks_of p) s = true ->
            exists mid post, s = mid ++ post /\ wildcard_match p mid = true.
Proof.
  induction p as [| c p IH]; intros s Hm.
  - exists "", s. split; reflexivity.
  - cbn [toks_of] in Hm. unfold tok_of in Hm.
    destruct (Ascii.eqb_spec c "*") as [-> | Hstar].
    + induction s as [| a s IHs].
      * rewrite match_here_star, orb_false_r in Hm.
        destruct (IH _ Hm) as (mid & post & E & Hw).
        exists mid, post. split; [exact E |]. rewrite wildcard_star, Hw. reflexivity.
      * rewrite match_here_star in Hm. apply orb_true_iff in Hm.
        destruct Hm as [Hm | Hm].
        -- destruct (IH _ Hm) as (mid & post & E & Hw).
           exists mid, post. split; [exact E |]. rewrite wildcard_star, Hw. reflexivity.
        -- apply andb_true_iff in Hm. destruct Hm as [_ Hm].
           destruct (IHs Hm) as (mid & post & E & Hw).
           exists (String a mid), post. split; [rewrite E; reflexivity |].
           rewrite wildcard_star, Hw. apply orb_true_r.
    + destruct (Ascii.eqb_spec c "?") as [-> | Hqm].
      * cbn [Re.match_here] in Hm. destruct s as [| a s]; [discriminate |].
        apply andb_true_iff in Hm. destruct Hm as [_ Hm].
        destruct (IH _ Hm) as (mid & post & E & Hw).
        exists (String a mid), post. split; [rewrite E; reflexivity |].
        rewrite wildcard_question. exact Hw.
      * cbn [Re.match_here] in Hm. destruct s as [| a s]; [discriminate |].
        apply andb_true_iff in Hm. destruct Hm as [Hac Hm].
        destruct (IH _ Hm) as (mid & post & E & Hw).
        exists (String a mid), post. split; [rewrite E; reflexivity |].
        rewrite wildcard_literal by assumption. rewrite Hac, Hw. reflexivity.
Qed.

Lemma search_toks_iff (p : list Re.tok) (s : string) :
  Re.search_toks p s = true <-> exists pre rest, s = pre ++ rest /\ Re.match_here p rest = true.
Proof.
  induction s as [| a s IH]; simpl.
  - rewrite orb_false_r. split.
    + intros H. exists "", "". split; [reflexivity | exact H].
    + intros (pre & rest & E & H). destruct pre; [| discriminate].
      simpl in E. subst rest. exact H.
  - rewrite orb_true_iff, IH. split.
    + intros [H | (pre & rest & E & H)].
      * exists "", (String a s). split; [reflexivity | exact H].
      * exists (String a pre), rest. split; [rewrite E; reflexivity | exact H].
    + intros (pre & rest & E & H). destruct pre as [| b pre].
      * simpl in E. subst rest. left. exact H.
      * simpl in E. injection E as -> ->. right. exists pre, rest. split; [reflexivity | exact H].
Qed.

Lemma search_is_substring_match (P s : string) :
  all_chars Re.dot_ok s = true ->
  (Re.search_toks (toks_of P) s = true <-> has_matching_substring P s).
Proof.
  intros Hs. rewrite search_toks_iff. unfold has_matching_substring. split.
  - intros (pre & rest & E & Hm).
    destruct (match_here_gives_prefix P _ Hm) as (mid & post & E' & Hw).
    exists pre, mid, post. split; [rewrite E, E'; reflexivity | exact Hw].
  - intros (pre & mid & post & E & Hw). exists pre, (mid ++ post). split; [exact E |].
    apply wildcard_match_here_app; [| exact Hw].
    rewrite E, !all_chars_app in Hs.
    apply andb_true_iff in Hs. destruct Hs as [_ Hs].
    apply andb_true_iff in Hs. destruct Hs as [Hs _]. exact Hs.
Qed.

Lemma select_map_filter (f : Row -> bool) (df : DataFrame) :
  select df (map f df) = filter f df.
Proof.
  induction df as [| r df IH]; simpl; [reflexivity |].
  destruct (f r); rewrite IH; reflexivity.
Qed.

(** X12.  What the subsetting of lines 492-497 computes: for a pattern
    made of pattern characters (no regular-expression metacharacter other
    than the dot and the two wildcards) it never fails, and it keeps
    exactly the rows whose identifier has some substring that matches the
    whole pattern, dots being literal, the star standing for any run of
    characters and the question mark for one character. *)
Theorem subset_by_pattern_is_a_substring_search (P : string) (df : DataFrame) :
  all_chars pattern_char P = true ->
  Forall (fun r => all_chars Re.dot_ok (snclId r) = true) df ->
  exists df',
    subset_by_pattern P df = Ok df'
    /\ forall r, In r df' <-> In r df /\ has_matching_substring P (snclId r).
Proof.
  intros HP Hdf. unfold subset_by_pattern, str_contains.
  rewrite (compile_py_pattern P HP). simpl. rewrite select_map_filter.
  eexists. split; [reflexivity |].
  intros r. rewrite filter_In. split.
  - intros [Hin Hs]. split; [exact Hin |].
    apply search_is_substring_match; [| exact Hs].
    exact (proj1 (Forall_forall _ _) Hdf r Hin).
  - intros [Hin Hs]. split; [exact Hin |].
    apply search_is_substring_match; [| exact Hs].
    exact (proj1 (Forall_forall _ _) Hdf r Hin).
Qed.

Lemma subset_by_pattern_is_a_substring_search_witness :
  exists df',
    subset_by_pattern "ANMO.*.BH" [Demo.anmo_row; Demo.buoy_row] = Ok df'
    /\ forall r, In r df' <->
                 In r [Demo.anmo_row; Demo.buoy_row]
                 /\ has_matching_substring "ANMO.*.BH" (snclId r).
Proof.
  apply (@subset_by_pattern_is_a_substring_search "ANMO.*.BH"
           [Demo.anmo_row; Demo.buoy_row]).
  - reflexivity.
  - repeat constructor.
Defined.

Lemma anchored_match_is_retained_witness :
  spec_match "IU.A*.0?.BHZ" (snclId Demo.anmo_row) = true
  /\ subset_by_pattern "IU.A*.0?.BHZ" [Demo.anmo_row] = Ok [Demo.anmo_row].
Proof.
  split; [reflexivity |].
  apply (@anchored_match_is_retained "IU.A*.0?.BHZ" Demo.anmo_row); reflexivity.
Defined.

(** *** Which of two rows with one key survives *)

Lemma seen_after_keys (k : string * string) (df : DataFrame) :
  forall seen,
    existsb (key_eqb k) (seen_after seen df) = existsb (key_eqb k) seen || has_key k df.
Proof.
  induction df as [| r df IH]; intros seen; simpl; [rewrite orb_false_r; reflexivity |].
  destruct (existsb (key_eqb (dedup_key r)) seen) eqn:E; rewrite IH.
  - destruct (key_eqb_spec (dedup_key r) k) as [Heq | Hne]; [| reflexivity].
    simpl. rewrite <- Heq, E. reflexivity.
  - simpl. rewrite (key_eqb_sym k (dedup_key r)).
    destruct (key_eqb (dedup_key r) k); simpl.
    + rewrite orb_true_r. reflexivity.
    + reflexivity.
Qed.

(** A row whose key does not occur before it survives, alone of its key. *)
Lemma first_key_survives (st : Concierge) (frames : list DataFrame)
    (av pre post : DataFrame) (r : Row) :
  snd (merge_availability st frames) = Ok (Some av) ->
  List.concat frames = (pre ++ r :: post)%list ->
  has_key (dedup_key r) pre = false ->
  In r av
  /\ forall r', In r' av -> dedup_key r' = dedup_key r -> r' = r.
Proof.
  intros Hm Hcat Hkey. apply merge_availability_some in Hm. destruct Hm as [-> _].
  assert (Hin : In r (drop_duplicates (List.concat frames))).
  { rewrite Hcat. unfold drop_duplicates.
    rewrite drop_duplicates_from_app. apply in_or_app. right. simpl.
    rewrite seen_after_keys. simpl. rewrite Hkey. left. reflexivity. }
  split; [exact Hin |].
  intros r' Hin' Hk.
  pose proof (drop_duplicates_from_count (dedup_key r) (List.concat frames) []) as Hc.
  simpl in Hc. fold (drop_duplicates (List.concat frames)) in Hc.
  assert (Hhas : has_key (dedup_key r) (List.concat frames) = true).
  { rewrite Hcat. unfold has_key. rewrite existsb_app. simpl.
    rewrite key_eqb_refl. rewrite orb_true_r. reflexivity. }
  rewrite Hhas in Hc. unfold count_key in Hc.
  assert (H1 : In r (filter (fun x => key_eqb (dedup_key x) (dedup_key r))
                            (drop_duplicates (List.concat frames)))).
  { apply filter_In. split; [exact Hin | apply key_eqb_refl]. }
  assert (H2 : In r' (filter (fun x => key_eqb (dedup_key x) (dedup_key r))
                             (drop_duplicates (List.concat frames)))).
  { apply filter_In. split; [exact Hin' | rewrite Hk; apply key_eqb_refl]. }
  destruct (filter (fun x => key_eqb (dedup_key x) (dedup_key r))
                   (drop_duplicates (List.concat frames))) as [| x [| y l]];
    try discriminate Hc.
  destruct H1 as [<- | []]. destruct H2 as [<- | []]. reflexivity.
Qed.

(** X13.  Of the rows that share an identifier and a start time, the one
    that comes first in the concatenation of the per-pattern frames is
    the one in the merged catalog: a row that no earlier row equals in
    both [snclId] and start time survives the de-duplication and is the
    only row of its channel and epoch in the result, so the result of an
    earlier pattern takes precedence over the same channel-epoch found by
    a later one.  (Years of four digits, as [str] prints them.) *)
Theorem first_row_of_a_key_survives (st : Concierge) (frames : list DataFrame)
    (av pre post : DataFrame) (r : Row) :
  snd (merge_availability st frames) = Ok (Some av) ->
  List.concat frames = (pre ++ r :: post)%list ->
  Forall (fun x => four_digit_year (starttime x)) (List.concat frames) ->
  (forall x, In x pre -> snclId x = snclId r -> starttime x <> starttime r) ->
  In r av
  /\ forall r', In r' av -> snclId r' = snclId r -> starttime r' = starttime r -> r' = r.
Proof.
  intros Hm Hcat Hyears Hfirst.
  rewrite Forall_forall in Hyears.
  assert (Hkey : has_key (dedup_key r) pre = false).
  { destruct (has_key (dedup_key r) pre) eqn:E; [| reflexivity].
    apply existsb_exists in E. destruct E as [x [Hx Hk]].
    destruct (key_eqb_spec (dedup_key x) (dedup_key r)) as [Heq | Hne]; [| discriminate Hk].
    injection Heq as Hid Hstr. exfalso. apply (Hfirst x Hx Hid).
    apply astype_str_injective; [| | exact Hstr]; apply Hyears; rewrite Hcat;
      apply in_or_app; [left; exact Hx | right; left; reflexivity]. }
  destruct (first_key_survives st frames pre post r Hm Hcat Hkey) as [Hin Huniq].
  split; [exact Hin |].
  intros r' Hin' Hid Hstart. apply Huniq; [exact Hin' |].
  unfold dedup_key. rewrite Hid, Hstart. reflexivity.
Qed.

Lemma first_row_of_a_key_survives_witness :
  let later_row :=
    mkRow "IU" "ANMO" "00" "BHZ" None None None None None None None None None None None
          (starttime Demo.second_epoch_row) None "IU.ANMO.00.BHZ" in
  let st := Demo.remote_concierge [] Demo.jan1 Demo.jan2 in
  snd (merge_availability st [[Demo.first_epoch_row; Demo.second_epoch_row]; [later_row]])
  = Ok (Some [Demo.first_epoch_row; Demo.second_epoch_row])
  /\ In Demo.second_epoch_row [Demo.first_epoch_row; Demo.second_epoch_row].
Proof.
  intros later_row st. split; [vm_compute; reflexivity |].
  refine (proj1 (@first_row_of_a_key_survives st
                   [[Demo.first_epoch_row; Demo.second_epoch_row]; [later_row]]
                   [Demo.first_epoch_row; Demo.second_epoch_row]
                   [Demo.first_epoch_row] [later_row] Demo.second_epoch_row _ eq_refl _ _)).
  - vm_compute. reflexivity.
  - repeat (apply Forall_cons; [vm_compute; split; discriminate |]). apply Forall_nil.
  - intros x [<- | []] _ H. vm_compute in H. discriminate H.
Defined.

(** *** Rows without a number for a coordinate *)

(** X14.  A row whose latitude or longitude is NaN is never marked
    "KEEP" (lines 529-543): the geodesy is not called for it, so it raises
    nothing even without a reference point, and the row is absent from
    every radius-filtered result. *)
Theorem radius_filter_drops_nan_coordinates (w : World) (a : AvArgs) (r : Row) :
  latitude r = Some NaN \/ longitude r = Some NaN ->
  radius_keep w a r = Ok false
  /\ (forall df df',
        is_some (a_maxradius a) || is_some (a_minradius a) = true ->
        subset_by_distance w a df = Ok df' -> ~ In r df').
Proof.
  intros Hnan.
  assert (Hkeep : radius_keep w a r = Ok false).
  { unfold radius_keep.
    destruct Hnan as [H | H]; rewrite H.
    - destruct (longitude r) as [[q |] |]; simpl; try reflexivity.
      destruct (negb (Qeq_bool q 0)); reflexivity.
    - destruct (latitude r) as [[q |] |]; simpl; try reflexivity.
      destruct (negb (Qeq_bool q 0)); reflexivity. }
  split; [exact Hkeep |].
  intros df df' Hsup Hsub Hin. unfold subset_by_distance in Hsub. rewrite Hsup in Hsub.
  apply (filterM_In _ _ Hsub r) in Hin. destruct Hin as [_ Hin]. congruence.
Qed.

Lemma radius_filter_drops_nan_coordinates_witness :
  let r := mkRow "IU" "ANMO" "00" "BHZ" (Some NaN) (Some (Fin 10)) None None None None
                 None None None None None None None "IU.ANMO.00.BHZ" in
  let a := mkAvArgs None None None None None None None None None (Some 180%Q) in
  subset_by_distance Demo.world a [r; Demo.anmo_row] = Raise ExternalError
  /\ radius_keep Demo.world a r = Ok false
  /\ subset_by_distance Demo.world a [r] = Ok [].
Proof.
  intros r a. split; [vm_compute; reflexivity |]. split; [| vm_compute; reflexivity].
  exact (proj1 (@radius_filter_drops_nan_coordinates Demo.world a r (or_introl eq_refl))).
Defined.

(** *** The local event reader *)

Lemma filter_if_In (x : option Q) (test : Q -> EventRow -> bool) (events : list EventRow)
    (r : EventRow) :
  In r (filter_if x test events) ->
  In r events /\ forall q, x = Some q -> ~ (q == 0)%Q -> test q r = true.
Proof.
  unfold filter_if. destruct x as [q |]; [| intros H; split; [exact H | discriminate]].
  simpl. destruct (Qeq_bool q 0) eqn:E; simpl.
  - intros H. split; [exact H |]. intros q' Hq Hnz. injection Hq as <-.
    apply Qeq_bool_iff in E. contradiction.
  - intros H. apply filter_In in H. destruct H as [Hin Ht]. split; [exact Hin |].
    intros q' Hq _. injection Hq as <-. exact Ht.
Qed.

Lemma filter_magtype_In (magtype : option string) (events out : list EventRow)
    (r : EventRow) :
  filter_magtype magtype events = Ok out -> In r out -> In r events.
Proof.
  unfold filter_magtype. destruct magtype as [[| c pat] |];
    try (intros H; injection H as <-; auto).
  destruct (Re.compile (String c pat)) as [p |]; simpl; [| discriminate].
  intros H. injection H as <-. intros Hin. apply filter_In in Hin. tauto.
Qed.

(** X15.  Every event that the local branch of [get_event] returns comes
    from the parsed catalog, with its depth converted from meters to
    kilometers, lies in the time window (both ends inclusive), and
    satisfies every magnitude and depth bound that was supplied with a
    non-zero value. *)
Theorem local_events_respect_the_bounds (w : World) (st : Concierge) (v : EvArgs)
    (events : EventFrame) (i : Z) (r : EventRow) :
  local_events w st v = Ok events ->
  In (i, r) events ->
  (exists catalog e,
      read_events w (event_url st) = Some catalog /\ In e catalog
      /\ r = event_row w e /\ (ev_depth r == e_depth e / 1000)%Q)
  /\ override (v_starttime v) (requested_starttime st) <= time r
  /\ time r <= override (v_endtime v) (requested_endtime st)
  /\ (forall q, v_minmag v = Some q -> ~ (q == 0)%Q -> (q <= magnitude r)%Q)
  /\ (forall q, v_maxmag v = Some q -> ~ (q == 0)%Q -> (magnitude r <= q)%Q)
  /\ (forall q, v_mindepth v = Some q -> ~ (q == 0)%Q -> (q <= ev_depth r)%Q)
  /\ (forall q, v_maxdepth v = Some q -> ~ (q == 0)%Q -> (ev_depth r <= q)%Q).
Proof.
  unfold local_events.
  destruct (read_events w (event_url st)) as [catalog |]; [| discriminate].
  destruct (map (event_row w) catalog) as [| r0 rows] eqn:Emap; [discriminate |].
  rewrite <- Emap. clear Emap r0 rows.
  match goal with
  | |- context [filter_magtype ?m ?l] => destruct (filter_magtype m l) as [evs |] eqn:Em
  end; simpl; [| discriminate].
  intros H Hin. injection H as <-. unfold reindex in Hin. apply in_combine_r in Hin.
  apply filter_if_In in Hin. destruct Hin as [Hin Hmaxd].
  apply filter_if_In in Hin. destruct Hin as [Hin Hmind].
  apply (@filter_magtype_In _ _ _ r Em) in Hin.
  apply filter_if_In in Hin. destruct Hin as [Hin Hmaxm].
  apply filter_if_In in Hin. destruct Hin as [Hin Hminm].
  apply filter_In in Hin. destruct Hin as [Hin Hend].
  apply filter_In in Hin. destruct Hin as [Hin Hstart].
  apply in_map_iff in Hin. destruct Hin as [e [He Hcat]].
  split.
  { exists catalog, e. split; [reflexivity |]. split; [exact Hcat |].
    split; [symmetry; exact He |]. subst r. simpl. reflexivity. }
  split; [apply Z.leb_le; exact Hstart |]. split; [apply Z.leb_le; exact Hend |].
  split; [intros q Hq Hnz; apply Qle_bool_iff; exact (Hminm q Hq Hnz) |].
  split; [intros q Hq Hnz; apply Qle_bool_iff; exact (Hmaxm q Hq Hnz) |].
  split; [intros q Hq Hnz; apply Qle_bool_iff; exact (Hmind q Hq Hnz) |].
  intros q Hq Hnz; apply Qle_bool_iff; exact (Hmaxd q Hq Hnz).
Qed.

Lemma local_events_respect_the_bounds_witness :
  let st := Demo.local_concierge [] Demo.jan1 Demo.jan2 in
  let v := mkEvArgs None None (Some 6%Q) None (Some "MW") None (Some 50%Q) in
  exists events i r,
    local_events Demo.world st v = Ok events
    /\ In (i, r) events
    /\ (6 <= magnitude r)%Q /\ (ev_depth r <= 50)%Q.
Proof.
  intros st v.
  destruct (local_events Demo.world st v) as [[| [i r] events] | e] eqn:E;
    try (vm_compute in E; discriminate E).
  exists ((i, r) :: events), i, r. split; [reflexivity |]. split; [left; reflexivity |].
  pose proof (@local_events_respect_the_bounds Demo.world st v _ i r E (or_introl eq_refl))
    as (_ & _ & _ & Hmin & _ & _ & Hmax).
  split.
  - apply (Hmin 6%Q eq_refl). intros H. discriminate H.
  - apply (Hmax 50%Q eq_refl). intros H. discriminate H.
Defined.

Lemma filter_if_zero (q : Q) (test : Q -> EventRow -> bool) (events : list EventRow) :
  (q == 0)%Q -> filter_if (Some q) test events = events.
Proof.
  intros H. unfold filter_if. simpl. apply Qeq_bool_iff in H. rewrite H. reflexivity.
Qed.

(** X16.  A bound that is passed as zero is no bound: [if minmag:],
    [if maxmag:], [if mindepth:] and [if maxdepth:] test the truth of the
    number, so the local branch of [get_event] called with a magnitude or
    depth bound of 0 returns what it returns with that argument passed as
    [None] ([maxdepth=0] does not select surface events), and likewise an
    empty [magtype].  For [maxmag], [mindepth], [maxdepth] and [magtype],
    whose default is [None], that is the result of leaving the argument
    out.  For [minmag] it is not: the default of line 791 is 5.5, and
    [minmag=0] switches that filter off. *)
Theorem zero_bound_is_no_bound (w : World) (st : Concierge) (k : EvCall) (q : Q) :
  (q == 0)%Q ->
  let call := local_events_call w st in
  let s := k_starttime k in
  let e := k_endtime k in
  let mn := k_minmag k in
  let mx := k_maxmag k in
  let mt := k_magtype k in
  let md := k_mindepth k in
  let xd := k_maxdepth k in
  (call (mkEvCall s e (Some (Some q)) mx mt md xd)
   = call (mkEvCall s e (Some None) mx mt md xd)
   /\ call (mkEvCall s e None mx mt md xd)
      = call (mkEvCall s e (Some (Some default_minmag)) mx mt md xd))
  /\ (call (mkEvCall s e mn (Some (Some q)) mt md xd)
      = call (mkEvCall s e mn (Some None) mt md xd)
      /\ call (mkEvCall s e mn (Some (Some q)) mt md xd)
         = call (mkEvCall s e mn None mt md xd))
  /\ (call (mkEvCall s e mn mx mt (Some (Some q)) xd)
      = call (mkEvCall s e mn mx mt (Some None) xd)
      /\ call (mkEvCall s e mn mx mt (Some (Some q)) xd)
         = call (mkEvCall s e mn mx mt None xd))
  /\ (call (mkEvCall s e mn mx mt md (Some (Some q)))
      = call (mkEvCall s e mn mx mt md (Some None))
      /\ call (mkEvCall s e mn mx mt md (Some (Some q)))
         = call (mkEvCall s e mn mx mt md None))
  /\ (call (mkEvCall s e mn mx (Some (Some "")) md xd)
      = call (mkEvCall s e mn mx (Some None) md xd)
      /\ call (mkEvCall s e mn mx (Some (Some "")) md xd)
         = call (mkEvCall s e mn mx None md xd)).
Proof.
  intros Hq call s e mn mx mt md xd. subst call.
  unfold local_events_call, local_events, bind_defaults.
  cbn [v_starttime v_endtime v_minmag v_maxmag v_magtype v_mindepth v_maxdepth
       k_starttime k_endtime k_minmag k_maxmag k_magtype k_mindepth k_maxdepth override].
  destruct (read_events w (event_url st)) as [catalog |]; [| repeat split].
  destruct (map (event_row w) catalog) as [| r0 rows]; [repeat split |].
  repeat split; rewrite ?filter_if_zero by exact Hq; try reflexivity;
    match goal with
    | |- context [filter_magtype ?m ?l] => destruct (filter_magtype m l)
    end; cbn [bind]; rewrite ?filter_if_zero by exact Hq; reflexivity.
Qed.

Lemma zero_bound_is_no_bound_witness :
  let st := Demo.local_concierge [] Demo.jan1 Demo.jan2 in
  let call := local_events_call Demo.small_and_large_world st in
  let found (k : EvCall) :=
    option_map (map (fun ir => (magnitude (snd ir), ev_depth (snd ir))))
      match call k with
      | Ok events => Some events
      | Raise _ => None
      end in
  call (mkEvCall None None (Some (Some 0%Q)) None None None None)
  = call (mkEvCall None None (Some None) None None None None)
  /\ found (mkEvCall None None (Some (Some 0%Q)) None None None None)
     = Some [(48 # 10, 0 # 1000); (61 # 10, 10000 # 1000)]
  /\ found Demo.no_keywords = Some [(61 # 10, 10000 # 1000)]
  /\ call (mkEvCall None None None None None None (Some (Some 0%Q)))
     = call Demo.no_keywords
  /\ found (mkEvCall None None None None None None (Some (Some 0%Q)))
     = Some [(61 # 10, 10000 # 1000)].
Proof.
  intros st call found.
  pose proof (@zero_bound_is_no_bound Demo.small_and_large_world st Demo.no_keywords
                0%Q (Qeq_refl 0)) as H.
  cbv zeta in H. destruct H as ([Hmin _] & _ & _ & [_ Hmaxd] & _).
  split; [exact Hmin |]. split; [vm_compute; reflexivity |].
  split; [vm_compute; reflexivity |]. split; [exact Hmaxd |].
  vm_compute. reflexivity.
Defined.

(** *** Repeating a call *)

Lemma pattern_frame_same_catalog (w : World) (st st' : Concierge) (a : AvArgs) (p : string) :
  same_catalog st st' -> pattern_frame w st' a p = pattern_frame w st a p.
Proof.
  intros [(H1 & H2 & H3 & H4 & H5 & H6 & H7 & H8 & H9 & H10) Hav].
  unfold pattern_frame, subset_by_local_files. rewrite H1, H2, H4, H5, H9, Hav. reflexivity.
Qed.

Lemma pattern_loop_same_catalog (w : World) (st st' : Concierge) (a : AvArgs) :
  same_catalog st st' ->
  forall patterns n acc,
    pattern_loop w st' a n acc patterns = pattern_loop w st a n acc patterns.
Proof.
  intros Hs. induction patterns as [| p rest IH]; intros n acc; cbn [pattern_loop];
    [reflexivity |].
  rewrite (pattern_frame_same_catalog w a p Hs).
  destruct (is_star (a_network a) && is_star (a_station a) && is_star (a_location a)
            && (1 <? n + 1)); [apply IH |].
  destruct (pattern_frame w st a p) as [[[| r df] |] | e]; try apply IH. reflexivity.
Qed.

Lemma build_patterns_same_catalog (w : World) (st st' : Concierge) (a : AvArgs)
    (t : UTCDateTime) :
  same_catalog st st' ->
  forall patterns df stored,
    build_patterns w st' a t df stored patterns = build_patterns w st a t df stored patterns.
Proof.
  intros [(H1 & H2 & H3 & H4 & H5 & H6 & H7 & H8 & H9 & H10) Hav].
  induction patterns as [| p rest IH]; intros df stored; cbn [build_patterns];
    [reflexivity |].
  destruct (parse_sncl_pattern p) as [[[[n s] l] c] |]; [| reflexivity].
  rewrite H4, H5. destruct (dataselect_client st); [apply IH |].
  destruct (glob w _) as [| f fs]; [apply IH |].
  destruct (add_local_files df (f :: fs)) as [df' [u | e]]; [apply IH | reflexivity].
Qed.

Lemma build_local_availability_same_catalog (w : World) (st st' : Concierge) (a : AvArgs) :
  same_catalog st st' ->
  snd (build_local_availability w st' a) = snd (build_local_availability w st a)
  /\ same_catalog (fst (build_local_availability w st a))
                  (fst (build_local_availability w st' a)).
Proof.
  intros Hs. pose proof Hs as [(H1 & H2 & H3 & H4 & H5 & H6 & H7 & H8 & H9 & H10) Hav].
  unfold build_local_availability, read_station_metadata. rewrite H9, Hav, H8, H1, H2, H3.
  destruct (station_client st) eqn:Esc; [split; [reflexivity | exact Hs] |].
  destruct (availability st) eqn:Eav; [split; [reflexivity | exact Hs] |].
  assert (Hrest : forall df,
    snd (let '(df', stored, r) :=
           build_patterns w st' a (override (a_starttime a) (requested_starttime st)) df false
             (sncl_patterns st) in
         (if stored then set_availability st' (Some df') else st', r))
    = snd (let '(df', stored, r) :=
             build_patterns w st a (override (a_starttime a) (requested_starttime st)) df false
               (sncl_patterns st) in
           (if stored then set_availability st (Some df') else st, r))
    /\ same_catalog
         (fst (let '(df', stored, r) :=
                 build_patterns w st a (override (a_starttime a) (requested_starttime st)) df
                   false (sncl_patterns st) in
               (if stored then set_availability st (Some df') else st, r)))
         (fst (let '(df', stored, r) :=
                 build_patterns w st' a (override (a_starttime a) (requested_starttime st)) df
                   false (sncl_patterns st) in
               (if stored then set_availability st' (Some df') else st', r)))).
  { intros df. rewrite (build_patterns_same_catalog w a _ Hs).
    destruct (build_patterns w st a _ df false (sncl_patterns st)) as [[df' stored] r].
    split; [reflexivity |]. destruct stored; [| exact Hs].
    unfold same_catalog, same_configuration. simpl. repeat split; congruence. }
  destruct (station_url st) as [url |].
  - destruct (read_inventory w url) as [inv |]; [apply Hrest |].
    split; [reflexivity | exact Hs].
  - apply Hrest.
Qed.

Lemma merge_availability_same_catalog (st : Concierge) (frames : list DataFrame) :
  same_catalog st (fst (merge_availability st frames)).
Proof.
  split; [apply merge_availability_configuration |].
  apply (proj1 (merge_availability_keeps_catalog st frames)).
Qed.

Lemma same_catalog_sym (st st' : Concierge) : same_catalog st st' -> same_catalog st' st.
Proof.
  intros [(H1 & H2 & H3 & H4 & H5 & H6 & H7 & H8 & H9 & H10) Hav].
  unfold same_catalog, same_configuration. repeat split; congruence.
Qed.

Lemma same_catalog_trans (st1 st2 st3 : Concierge) :
  same_catalog st1 st2 -> same_catalog st2 st3 -> same_catalog st1 st3.
Proof.
  intros [Hc1 Ha1] [Hc2 Ha2]. split; [eapply same_configuration_trans; eassumption |].
  congruence.
Qed.

Lemma build_only_stores (w : World) (st : Concierge) (a : AvArgs) :
  availability (fst (build_local_availability w st a)) = None -> availability st = None.
Proof.
  unfold build_local_availability.
  destruct (station_client st); [simpl; auto |].
  destruct (availability st) eqn:E; [simpl; congruence | reflexivity].
Qed.

(** X17.  A call of [get_availability] that returned normally, repeated
    with the same arguments while nothing outside has changed, returns the
    same result: the second call works on the catalog the first one stored
    (or rebuilds the same one when nothing was stored), and the remembered
    [filtered_availability] of the first call is never read. *)
Theorem repeated_call_returns_the_same (w : World) (st : Concierge) (a : AvArgs)
    (res : option DataFrame) :
  snd (get_availability w st a) = Ok res ->
  snd (get_availability w (fst (get_availability w st a)) a) = Ok res.
Proof.
  intros Hres.
  assert (Hb1 : exists u, snd (build_local_availability w st a) = Ok u).
  { rewrite get_availability_unfold in Hres. unfold frames_of in Hres.
    destruct (snd (build_local_availability w st a)) as [u | e];
      [exists u; reflexivity | discriminate]. }
  destruct Hb1 as [[] Hb1].
  set (stb := fst (build_local_availability w st a)).
  set (st1 := fst (get_availability w st a)).
  assert (Hst1 : same_catalog stb st1).
  { unfold st1. rewrite get_availability_unfold. unfold frames_of. rewrite Hb1. fold stb.
    destruct (pattern_loop w stb a 0 [] (sncl_patterns stb)) as [frames |];
      [apply merge_availability_same_catalog |].
    split; [apply same_configuration_refl | reflexivity]. }
  assert (Hb2 : snd (build_local_availability w st1 a) = Ok tt
                /\ same_catalog stb (fst (build_local_availability w st1 a))).
  { destruct (availability stb) as [cat |] eqn:Eav.
    - assert (E1 : availability st1 = Some cat) by (rewrite (proj2 Hst1); exact Eav).
      rewrite (build_local_availability_cached w st1 a E1). split; [reflexivity | exact Hst1].
    - assert (Hs : same_catalog st st1).
      { split.
        - eapply same_configuration_trans;
            [apply build_local_availability_configuration | exact (proj1 Hst1)].
        - rewrite (proj2 Hst1). fold stb. rewrite Eav. symmetry.
          apply (@build_only_stores w st a). exact Eav. }
      destruct (build_local_availability_same_catalog w a Hs) as [Hsnd Hsame].
      split; [rewrite Hsnd; exact Hb1 | exact Hsame]. }
  destruct Hb2 as [Hb2 Hsame].
  rewrite get_availability_unfold in Hres. unfold frames_of in Hres. rewrite Hb1 in Hres.
  fold stb in Hres.
  rewrite get_availability_unfold. unfold frames_of. rewrite Hb2.
  destruct Hsame as [Hconf Hav'].
  assert (Hpat : sncl_patterns (fst (build_local_availability w st1 a)) = sncl_patterns stb)
    by (destruct Hconf as (_ & _ & H3 & _); exact H3).
  rewrite Hpat.
  rewrite (@pattern_loop_same_catalog w stb (fst (build_local_availability w st1 a)) a
             (conj Hconf Hav')).
  destruct (pattern_loop w stb a 0 [] (sncl_patterns stb)) as [frames |]; [| discriminate].
  rewrite (merge_availability_result stb _ frames). exact Hres.
Qed.

Lemma repeated_call_returns_the_same_witness :
  let st := Demo.local_concierge ["IU.ANMO.00.*"; "GE.*.*.BHZ"] Demo.jan1 Demo.jan2 in
  option_map (map snclId)
    match snd (get_availability Demo.world
                 (fst (get_availability Demo.world st Demo.no_args)) Demo.no_args) with
    | Ok x => x
    | Raise _ => None
    end
  = Some ["IU.ANMO.00.BHZ"; "IU.ANMO.00.LHZ"; "GE.KBS.10.BHZ"].
Proof.
  intros st.
  destruct (snd (get_availability Demo.world st Demo.no_args)) as [res | e] eqn:E;
    [| vm_compute in E; discriminate E].
  rewrite (@repeated_call_returns_the_same Demo.world st Demo.no_args res E).
  vm_compute in E. injection E as <-. reflexivity.
Defined.
